(** * Grant Cardone download scripts: a shallow embedding

    The repository is a set of Python scripts that read a hand-made JSON
    file of video records, derive a file name for each record and hand the
    URLs to an external downloader ([aria2c] in one batch, or [yt-dlp] once
    per record).  This file embeds the parts of the scripts that decide the
    properties of the specification:

    - the file-name sanitizer (two [re.sub] passes around a [strip]);
    - [process_video_data] of [grant_cardone_downloader.py];
    - the loaders and the [aria2c] paths of [QUICK_START.py],
      [GRANT_CARDONE_MASTER.py] and [stage2_automated_scraper.py];
    - the [yt-dlp] loops of [grant_cardone_downloader.py],
      [interactive_extractor.py] and [advanced_extractor.py];
    - the duplicate filter of the JavaScript payload that
      [stage2_automated_scraper.py] generates.

    Python strings are lists of Unicode code points.  Values read from JSON
    are a small universe of Python values.  Effects are explicit: a
    computation reads a world (the files on disk and the behaviour of the
    external processes) and yields an outcome (a value or a raised
    exception) together with the events it caused, in order. *)

From Stdlib Require Import List NArith ZArith Bool String Ascii Lia.
From Stdlib Require Import DecimalString DecimalN.
From Stdlib Require DecimalPos.
Import ListNotations.

Set Implicit Arguments.

(** ** Strings *)

(** A Python [str]: the sequence of its code points. *)
Definition pystr := list N.

(** A literal of the source text (ASCII only). *)
Definition lit (s : string) : pystr :=
  map N_of_ascii (list_ascii_of_string s).

Fixpoint str_eqb (a b : pystr) : bool :=
  match a, b with
  | [], [] => true
  | x :: a', y :: b' => N.eqb x y && str_eqb a' b'
  | _, _ => false
  end.

(** [str(n)] for a non-negative integer. *)
Definition fmt_d (n : N) : pystr :=
  lit (NilZero.string_of_uint (N.to_uint n)).

(** The format specification [{n:03d}]: decimal, padded with zeros on the
    left up to width three (wider numbers are not truncated). *)
Definition fmt_03d (n : N) : pystr :=
  let d := fmt_d n in
  repeat 48%N (3 - List.length d) ++ d.

(** ** Python values, as [json.load] produces them *)

#[warnings="-register-all"]
Inductive pyval :=
| PNone
| PBool (b : bool)
| PInt (z : Z)
| PStr (s : pystr)
| PList (l : list pyval)
| PDict (d : list (pystr * pyval)).

(** Truth value of an object, as [if x:] and [not x] take it. *)
Definition truthy (v : pyval) : bool :=
  match v with
  | PNone => false
  | PBool b => b
  | PInt z => negb (Z.eqb z 0)
  | PStr s => negb (match s with [] => true | _ => false end)
  | PList l => negb (match l with [] => true | _ => false end)
  | PDict d => negb (match d with [] => true | _ => false end)
  end.

(** Lookup of a key among the items of a dict (keys of a dict are unique;
    the first binding is the binding). *)
Fixpoint dict_lookup (d : list (pystr * pyval)) (k : pystr) : option pyval :=
  match d with
  | [] => None
  | (k', v) :: d' => if str_eqb k' k then Some v else dict_lookup d' k
  end.

(** [v == 'text'] for a string literal on the right. *)
Definition eq_str (v : pyval) (s : pystr) : bool :=
  match v with
  | PStr t => str_eqb t s
  | _ => false
  end.

(** What the runtime supplies and the scripts do not define: the Unicode
    database's alphanumeric test on the code points beyond ASCII
    ([str.isalnum], which [\w] consults), and [str()] on values that are
    not strings (which an f-string applies to a substituted value). *)
Class Runtime := {
  uni_alnum : N -> bool;
  str_of_nonstring : pyval -> pystr
}.

(** A runtime to run examples with: the alphanumeric code points of the
    Latin-1 supplement, none further up, and a fixed rendering of the
    values that are not strings. *)
Definition latin1_alnum (c : N) : bool :=
  (N.eqb c 170 || N.eqb c 178 || N.eqb c 179 || N.eqb c 181
   || N.eqb c 185 || N.eqb c 186
   || (N.leb 188 c && N.leb c 190)
   || (N.leb 192 c && N.leb c 214)
   || (N.leb 216 c && N.leb c 246)
   || (N.leb 248 c && N.leb c 255))%bool.

Definition latin1_runtime : Runtime :=
  {| uni_alnum := latin1_alnum;
     str_of_nonstring := fun v =>
       match v with
       | PNone => lit "None"
       | PBool true => lit "True"
       | PBool false => lit "False"
       | PInt (Zneg p) => 45%N :: fmt_d (Npos p)
       | PInt z => fmt_d (Z.to_N z)
       | _ => lit "..."
       end |}.

(** ** Character classes of the [re] module on [str] patterns *)

Section Sanitizer.
Context {rt : Runtime}.

Definition ascii_alnum (c : N) : bool :=
  ((N.leb 48 c && N.leb c 57)
   || (N.leb 65 c && N.leb c 90)
   || (N.leb 97 c && N.leb c 122))%bool.

(** [\w]: alphanumeric in the Unicode database, or the underscore. *)
Definition is_word (c : N) : bool :=
  (if N.ltb c 128 then ascii_alnum c else uni_alnum c) || N.eqb c 95.

(** [\s], and the characters [str.strip()] removes: the white space of
    the Unicode database. *)
Definition is_space (c : N) : bool :=
  ((N.leb 9 c && N.leb c 13)
   || (N.leb 28 c && N.leb c 32)
   || N.eqb c 133 || N.eqb c 160 || N.eqb c 5760
   || (N.leb 8192 c && N.leb c 8202)
   || N.eqb c 8232 || N.eqb c 8233 || N.eqb c 8239 || N.eqb c 8287
   || N.eqb c 12288)%bool.

Definition hyphen : N := 45.

(** The complement of the class [[^\w\s-]]: what the first pass keeps. *)
Definition kept (c : N) : bool :=
  is_word c || is_space c || N.eqb c hyphen.

(** The class [[-\s]]. *)
Definition separator (c : N) : bool :=
  N.eqb c hyphen || is_space c.

(** [re.sub(r'[^\w\s-]', '', s)]: every character of the class is a match
    of its own and is replaced by nothing. *)
Definition sub_unsafe (s : pystr) : pystr := filter kept s.

(** [s.strip()]. *)
Fixpoint lstrip (s : pystr) : pystr :=
  match s with
  | [] => []
  | c :: r => if is_space c then lstrip r else s
  end.

Definition rstrip (s : pystr) : pystr := rev (lstrip (rev s)).

Definition strip (s : pystr) : pystr := rstrip (lstrip s).

(** [re.sub(r'[-\s]+', '-', s)]: scanning from the left, a match starts at
    the first character of the class and extends over the whole run
    (the quantifier is greedy); the run is replaced by one hyphen.
    [in_run] says that the previous character belonged to a run whose
    hyphen is already written. *)
Fixpoint sub_runs (in_run : bool) (s : pystr) : pystr :=
  match s with
  | [] => []
  | c :: r =>
      if separator c
      then (if in_run then sub_runs true r else hyphen :: sub_runs true r)
      else c :: sub_runs false r
  end.

(** The two statements every script repeats:
    [safe_title = re.sub(r'[^\w\s-]', '', title).strip()]
    [safe_title = re.sub(r'[-\s]+', '-', safe_title)] *)
Definition safe_title (title : pystr) : pystr :=
  sub_runs false (strip (sub_unsafe title)).

End Sanitizer.

(** ** Exceptions, the world, events *)

Inductive exn :=
| KeyError
| TypeError
| AttributeError
| FileNotFoundError
| JSONDecodeError
| CalledProcessError
| TimeoutExpired
| UnicodeDecodeError
| RecursionError.

Inductive outcome (A : Type) :=
| Ret (a : A)
| Raise (e : exn).

Arguments Ret {A} a.
Arguments Raise {A} e.

(** A file the scripts read: not there; there with text that is not
    JSON; there with the value [json.load] returns; there with bytes that
    are not UTF-8, which [open(name, 'r')] cannot decode; or there with
    JSON text nested deeper than the recursion limit of the interpreter. *)
Inductive file_state :=
| Absent
| Garbled
| Json (v : pyval)
| NotUtf8
| TooDeep.

(** What one external command does when it is started: the program is not
    installed, or it runs for [secs] seconds and exits with [code]. *)
Inductive proc :=
| NotInstalled
| Exits (secs : N) (code : Z).

(** The world a script runs in: the files of its directory, the text of
    [self.base_dir / name] and of the absolute download directory, the
    tab of the training site that Chrome's debugging endpoint lists
    ([PNone] when it lists none or does not answer), and the behaviour of
    the n-th command the script starts. *)
Record world := {
  files : string -> file_state;
  base_path : string -> pystr;
  abs_download_dir : pystr;
  chrome_tab : pyval;
  procs : nat -> proc
}.

(** The diagnostics of the scripts that report how a stage ended.  Banners
    and progress lines are console decoration and are not recorded. *)
Inductive message :=
| NoVideoDataFile        (* "No video data file found ..." *)
| InvalidVideoDataFile   (* "Invalid video data file" *)
| NoVideosInDataFile     (* "No videos found in data file" / "... in found_videos.json" *)
| NotFound (name : string)      (* "<name> not found" *)
| InvalidJson (name : string)   (* "Invalid JSON in <name>" *)
| Loaded (n : N)                (* "Loaded <n> videos from automation" *)
| StageComplete (n : N)         (* "Stage 2 complete: <n> videos found" *)
| StageDataMissing              (* "Stage 2 data not found or invalid" *)
| NoVideosToDownload            (* "No videos to download" *)
| NoVideosFound                 (* "No videos found. Please check the extraction process." *)
| NoWebSocketUrl                (* "No WebSocket URL found for tab" *)
| DownloadComplete              (* "DOWNLOAD COMPLETE!" *)
| AllCompleted                  (* "All downloads completed successfully!" *)
| ExitCode (code : Z)           (* "aria2c completed with exit code: <code>" *)
| ToolNotFound                  (* "aria2c not found. Install with: ..." *)
| OtherError (e : exn)          (* "Error: <e>" *)
| ToolReady                     (* "aria2c detected and ready!" *)
| ToolInstalling                (* "aria2c not found. Installing..." *)
| ToolInstalled                 (* "aria2c installed successfully!" *)
| ToolInstallFailed             (* "Failed to install aria2c. ..." *)
| LessonLink (url : pystr)      (* "Lesson link - will need manual access: <url>" *)
| Summary (successful failed : N)        (* "Successful: <s>" "Failed: <f>" *)
| SummaryOf (total successful failed : N).  (* "Total videos: <t>" ... *)

Inductive event :=
| Print (m : message)
| WriteFile (name : string) (content : pystr)
| Run (cmd : list pystr) (timeout : option N)
| Sleep (secs : N)
| SleepUniform (lo hi : N).

(** ** Computations *)

(** A computation reads the world and the number of commands started so
    far; it yields an outcome, the events it caused in order, and the new
    number of commands. *)
Definition M (A : Type) : Type :=
  world -> nat -> outcome A * list event * nat.

Definition ret {A} (a : A) : M A := fun _ n => (Ret a, [], n).

Definition raise {A} (e : exn) : M A := fun _ n => (Raise e, [], n).

Definition bind {A B} (m : M A) (k : A -> M B) : M B := fun w n =>
  match m w n with
  | (Ret a, t, n') =>
      match k a w n' with
      | (r, t', n'') => (r, t ++ t', n'')
      end
  | (Raise e, t, n') => (Raise e, t, n')
  end.

(** [try: m except ...: h]: [handler e] is the body of the clause that
    catches [e], if one does. *)
Definition try_except {A} (m : M A) (handler : exn -> option (M A)) : M A :=
  fun w n =>
  match m w n with
  | (Ret a, t, n') => (Ret a, t, n')
  | (Raise e, t, n') =>
      match handler e with
      | Some h =>
          match h w n' with
          | (r, t', n'') => (r, t ++ t', n'')
          end
      | None => (Raise e, t, n')
      end
  end.

Definition emit (e : event) : M unit := fun _ n => (Ret tt, [e], n).

Definition lift {A} (o : outcome A) : M A := fun _ n => (o, [], n).

Definition ask : M world := fun w n => (Ret w, [], n).

Definition ask_file (name : string) : M file_state :=
  fun w n => (Ret (files w name), [], n).

Declare Scope py_scope.
Delimit Scope py_scope with py.
Notation "x <- m ;; k" := (bind m (fun x => k))
  (at level 61, m at next level, right associativity) : py_scope.
Notation "m ;; k" := (bind m (fun _ => k))
  (at level 61, right associativity) : py_scope.
Open Scope py_scope.

(** Outcomes alone, for the steps that cause no event. *)
Definition obind {A B} (o : outcome A) (k : A -> outcome B) : outcome B :=
  match o with
  | Ret a => k a
  | Raise e => Raise e
  end.

(** ** Operations of the language the scripts use *)

(** [v.get(key, default)]. *)
Definition py_get (v : pyval) (key : pystr) (default : pyval) : outcome pyval :=
  match v with
  | PDict d =>
      match dict_lookup d key with
      | Some x => Ret x
      | None => Ret default
      end
  | _ => Raise AttributeError
  end.

(** [v[key]] for a string key. *)
Definition py_item (v : pyval) (key : pystr) : outcome pyval :=
  match v with
  | PDict d =>
      match dict_lookup d key with
      | Some x => Ret x
      | None => Raise KeyError
      end
  | _ => Raise TypeError
  end.

(** The elements a [for] loop over [v] visits. *)
Definition py_iter (v : pyval) : outcome (list pyval) :=
  match v with
  | PList l => Ret l
  | PDict d => Ret (map (fun kv => PStr (fst kv)) d)
  | PStr s => Ret (map (fun c => PStr [c]) s)
  | _ => Raise TypeError
  end.

(** [len(v)]. *)
Definition py_len (v : pyval) : outcome N :=
  match v with
  | PList l => Ret (N.of_nat (List.length l))
  | PDict d => Ret (N.of_nat (List.length d))
  | PStr s => Ret (N.of_nat (List.length s))
  | _ => Raise TypeError
  end.

(** [open(name, 'r')] followed by [json.load]: the text is decoded as
    UTF-8 while it is read, and the value is built by recursion. *)
Definition json_load (name : string) : M pyval :=
  st <- ask_file name ;;
  match st with
  | Absent => raise FileNotFoundError
  | Garbled => raise JSONDecodeError
  | Json v => ret v
  | NotUtf8 => raise UnicodeDecodeError
  | TooDeep => raise RecursionError
  end.

(** [path.exists()], [os.path.exists(name)]. *)
Definition exists_file (name : string) : M bool :=
  st <- ask_file name ;;
  ret (match st with Absent => false | _ => true end).

(** The arguments of a command must be strings. *)
Fixpoint as_args (cmd : list pyval) : option (list pystr) :=
  match cmd with
  | [] => Some []
  | PStr s :: r =>
      match as_args r with
      | Some a => Some (s :: a)
      | None => None
      end
  | _ :: _ => None
  end.

(** [subprocess.run(cmd, timeout=timeout, check=check)]: the return code,
    or [TypeError] for an argument that is no string (nothing is started),
    [FileNotFoundError] when the program is not installed,
    [TimeoutExpired] when a timeout is given and the process outlives it,
    [CalledProcessError] when [check] is set and the code is not zero. *)
Definition subprocess_run (cmd : list pyval) (timeout : option N)
    (check : bool) : M Z := fun w n =>
  match as_args cmd with
  | None => (Raise TypeError, [], n)
  | Some args =>
      let ev := [Run args timeout] in
      match procs w n with
      | NotInstalled => (Raise FileNotFoundError, ev, S n)
      | Exits secs code =>
          match timeout with
          | Some limit =>
              if N.ltb limit secs then (Raise TimeoutExpired, ev, S n)
              else if check && negb (Z.eqb code 0)
                   then (Raise CalledProcessError, ev, S n)
                   else (Ret code, ev, S n)
          | None =>
              if check && negb (Z.eqb code 0)
              then (Raise CalledProcessError, ev, S n)
              else (Ret code, ev, S n)
          end
      end
  end.

(** [with open(name, 'w') as f: ...]: the body has written [content] when
    it ends, normally or by an exception; the file is closed with that
    content and an exception goes on. *)
Definition with_open_w (name : string) (body : pystr * outcome unit) : M unit :=
  emit (WriteFile name (fst body)) ;; lift (snd body).

Definition newline : pystr := [10%N].

Definition slash : N := 47.

(** [os.path.join(a, b)] (POSIX). *)
Definition os_path_join (a b : pystr) : pystr :=
  match b with
  | 47%N :: _ => b
  | _ =>
      match rev a with
      | [] => b
      | 47%N :: _ => a ++ b
      | _ => a ++ slash :: b
      end
  end.

(** [os.path.basename(p)] (POSIX): the text after the last slash. *)
Definition os_path_basename (p : pystr) : pystr :=
  fold_left (fun acc c => if N.eqb c slash then [] else acc ++ [c]) p [].

Section Formatting.
Context {rt : Runtime}.

(** What an f-string puts for [{v}]. *)
Definition py_str (v : pyval) : pystr :=
  match v with
  | PStr s => s
  | _ => str_of_nonstring v
  end.

(** The sanitizer applied to a value: [re.sub] accepts a string only. *)
Definition safe_title_of (title : pyval) : outcome pystr :=
  match title with
  | PStr s => Ret (safe_title s)
  | _ => Raise TypeError
  end.

(** [f"{i:03d}-{safe_title}"]. *)
Definition numbered (i : N) (safe : pystr) : pystr :=
  fmt_03d i ++ lit "-" ++ safe.

(** The default title [f'Video {i}']. *)
Definition video_n (i : N) : pyval := PStr (lit "Video " ++ fmt_d i).

End Formatting.

(** ** QUICK_START.py *)

Module QuickStart.
Section Script.
Context {rt : Runtime}.

Definition videos_file : string := "grantcardone_videos.json".
Definition complete_file : string := "grantcardone_complete.json".
Definition config_file : string := "aria2.conf".
Definition input_file : string := "aria2_downloads.txt".

Definition config (w : world) : pystr :=
  lit "# Grant Cardone Ultra-Fast Configuration
max-concurrent-downloads=16
split=16
min-split-size=1M
max-connection-per-server=16
piece-length=1M
continue=true
max-tries=5
retry-wait=30
timeout=600
connect-timeout=60
allow-overwrite=true
file-allocation=trunc
dir=" ++ abs_download_dir w ++ lit "
log-level=notice
show-console-readout=true
disk-cache=64M
enable-http-keep-alive=true
enable-http-pipelining=true
".

Definition setup_aria2c : M unit :=
  w <- ask ;;
  emit (WriteFile config_file (config w)).

(** One turn of the loop that fills the input file: the text the three
    [f.write] calls append for the [i]-th record. *)
Definition entry (i : N) (video : pyval) : outcome pystr :=
  obind (py_get video (lit "title") (video_n i)) (fun title =>
  obind (safe_title_of title) (fun safe =>
  let filename := numbered i safe in
  obind (py_item video (lit "url")) (fun url =>
  Ret (py_str url ++ newline
       ++ lit "  out=" ++ filename ++ lit ".%(ext)s" ++ newline
       ++ newline)))).

(** [for i, video in enumerate(videos, 1): ...] inside the [with]: what
    has been written, and how the loop ended. *)
Fixpoint write_entries (i : N) (videos : list pyval) : pystr * outcome unit :=
  match videos with
  | [] => ([], Ret tt)
  | video :: rest =>
      match entry i video with
      | Ret text =>
          let r := write_entries (N.succ i) rest in
          (text ++ fst r, snd r)
      | Raise e => ([], Raise e)
      end
  end.

Definition cmd : list pyval :=
  map (fun s => PStr (lit s))
    ["aria2c"; "--conf-path=aria2.conf"; "--input-file=aria2_downloads.txt";
     "--show-console-readout=true"; "--summary-interval=30";
     "--human-readable=true"]%string.

Definition download_with_aria2c : M unit :=
  has_complete <- exists_file complete_file ;;
  has_videos <- exists_file videos_file ;;
  let video_file :=
    if has_complete then Some complete_file
    else if has_videos then Some videos_file
    else None in
  match video_file with
  | None => emit (Print NoVideoDataFile)
  | Some name =>
      loaded <-
        try_except
          (data <- json_load name ;;
           videos <- lift (py_get data (lit "videos") (PList [])) ;;
           ret (Some videos))
          (fun e =>
             match e with
             | JSONDecodeError | FileNotFoundError =>
                 Some (emit (Print InvalidVideoDataFile) ;; ret None)
             | _ => None
             end) ;;
      match loaded with
      | None => ret tt
      | Some videos =>
          if negb (truthy videos) then emit (Print NoVideosInDataFile)
          else
            (* the banner formats [len(videos)] *)
            lift (py_len videos) ;;
            with_open_w input_file
              match py_iter videos with
              | Ret l => write_entries 1 l
              | Raise e => ([], Raise e)
              end ;;
            try_except
              (subprocess_run cmd None false ;;
               emit (Print DownloadComplete))
              (fun e =>
                 match e with
                 | FileNotFoundError => Some (emit (Print ToolNotFound))
                 | _ => Some (emit (Print (OtherError e)))
                 end)
      end
  end.

(** [run]: [check_files] looks for the data files; the instructions of
    the other branch are console output only. *)
Definition run : M unit :=
  has_complete <- exists_file complete_file ;;
  has_videos <- exists_file videos_file ;;
  if has_complete || has_videos
  then setup_aria2c ;; download_with_aria2c
  else setup_aria2c.

End Script.
End QuickStart.

(** ** GRANT_CARDONE_MASTER.py *)

Module GrantCardoneMaster.
Section Script.
Context {rt : Runtime}.

Definition videos_file : string := "grantcardone_videos.json".
Definition complete_file : string := "grantcardone_complete.json".
Definition config_file : string := "aria2.conf".
Definition input_file : string := "aria2_downloads.txt".

Definition check_aria2c : M bool :=
  found <-
    try_except
      (code <- subprocess_run
                 [PStr (lit "aria2c"); PStr (lit "--version")] None false ;;
       if Z.eqb code 0 then emit (Print ToolReady) ;; ret true
       else ret false)
      (fun e =>
         match e with
         | FileNotFoundError => Some (ret false)
         | _ => None
         end) ;;
  if found then ret true
  else
    emit (Print ToolInstalling) ;;
    try_except
      (subprocess_run
         [PStr (lit "brew"); PStr (lit "install"); PStr (lit "aria2")]
         None true ;;
       emit (Print ToolInstalled) ;; ret true)
      (fun e =>
         match e with
         | CalledProcessError =>
             Some (emit (Print ToolInstallFailed) ;; ret false)
         | _ => None
         end).

Definition config (w : world) : pystr :=
  lit "# Grant Cardone Ultra-Fast Downloader Configuration
max-concurrent-downloads=16
split=16
min-split-size=1M
max-connection-per-server=16
piece-length=1M
continue=true
max-tries=5
retry-wait=30
timeout=600
connect-timeimeout=60
allow-overwrite=true
file-allocation=trunc
dir=" ++ abs_download_dir w ++ lit "
log-level=notice
log=aria2c.log
console-log-level=notice
summary-interval=60
show-console-readout=true
enable-rpc=false
disk-cache=64M
max-file-not-found=5
max-file-not-found=5
parameterized-uri=true
enable-http-keep-alive=true
enable-http-pipelining=true
check-certificate=false
http-no-cache=true
".

(** Returns the path of the configuration file. *)
Definition create_aria2_config : M pystr :=
  w <- ask ;;
  emit (WriteFile config_file (config w)) ;;
  ret (base_path w config_file).

(** [check_stage2_complete]: the first of the two files that exists,
    parses and holds a non-empty [videos]; [None] otherwise. *)
Definition try_stage2_file (name : string) : M (option pyval) :=
  there <- exists_file name ;;
  if there then
    try_except
      (data <- json_load name ;;
       videos <- lift (py_get data (lit "videos") (PList [])) ;;
       if truthy videos
       then
         (* the message formats [len(videos)] *)
         n <- lift (py_len videos) ;;
         emit (Print (StageComplete n)) ;; ret (Some videos)
       else ret None)
      (fun e =>
         match e with
         | JSONDecodeError => Some (ret None)
         | _ => None
         end)
  else ret None.

Definition check_stage2_complete : M pyval :=
  first <- try_stage2_file complete_file ;;
  match first with
  | Some videos => ret videos
  | None =>
      second <- try_stage2_file videos_file ;;
      match second with
      | Some videos => ret videos
      | None => emit (Print StageDataMissing) ;; ret PNone
      end
  end.

(** The text the three [f.write] calls append for the [i]-th record.
    The second call ends in [\nn]. *)
Definition entry (i : N) (video : pyval) : outcome pystr :=
  obind (py_get video (lit "title") (video_n i)) (fun title =>
  obind (safe_title_of title) (fun safe =>
  let filename := numbered i safe in
  obind (py_item video (lit "url")) (fun url =>
  Ret (py_str url ++ newline
       ++ lit "  out=" ++ filename ++ lit ".%(ext)s" ++ newline ++ lit "n"
       ++ newline)))).

Fixpoint write_entries (i : N) (videos : list pyval) : pystr * outcome unit :=
  match videos with
  | [] => ([], Ret tt)
  | video :: rest =>
      match entry i video with
      | Ret text =>
          let r := write_entries (N.succ i) rest in
          (text ++ fst r, snd r)
      | Raise e => ([], Raise e)
      end
  end.

(** Returns the path of the input file. *)
Definition create_aria2_input_file (videos : pyval) : M pystr :=
  w <- ask ;;
  with_open_w input_file
    match py_iter videos with
    | Ret l => write_entries 1 l
    | Raise e => ([], Raise e)
    end ;;
  ret (base_path w input_file).

Definition cmd (config_path input_path : pystr) : list pyval :=
  [PStr (lit "aria2c");
   PStr (lit "--conf-path=" ++ config_path);
   PStr (lit "--input-file=" ++ input_path);
   PStr (lit "--show-console-readout=true");
   PStr (lit "--summary-interval=30");
   PStr (lit "--human-readable=true")].

(** The summary after the batch lists the download directory; that is
    console output and is not recorded. *)
Definition download_videos (videos : pyval) : M unit :=
  if negb (truthy videos) then emit (Print NoVideosToDownload)
  else
    lift (py_len videos) ;;
    check_aria2c ;;
    config_path <- create_aria2_config ;;
    input_path <- create_aria2_input_file videos ;;
    try_except
      (subprocess_run (cmd config_path input_path) None false ;;
       emit (Print DownloadComplete))
      (fun e =>
         match e with
         | FileNotFoundError => Some (emit (Print ToolNotFound))
         | _ => Some (emit (Print (OtherError e)))
         end).

End Script.
End GrantCardoneMaster.

(** ** stage2_automated_scraper.py *)

Module AutomatedScraper.

(** *** The generated JavaScript: the records of a page and the filter
    that removes duplicates. *)

Record js_video := {
  url : pystr;
  title : pystr;
  source : pystr
}.

(** [self.findIndex(p)]: the index of the first element that satisfies
    [p], or -1. *)
Fixpoint findIndex {A} (p : A -> bool) (l : list A) : Z :=
  match l with
  | [] => (-1)%Z
  | x :: r =>
      if p x then 0%Z
      else
        let k := findIndex p r in
        if Z.ltb k 0 then (-1)%Z else Z.succ k
  end.

(** [l.filter((x, index, self) => keep x index self)], from [index] on. *)
Fixpoint filter_from {A} (keep : A -> Z -> bool) (index : Z) (l : list A)
  : list A :=
  match l with
  | [] => []
  | x :: r =>
      if keep x index then x :: filter_from keep (Z.succ index) r
      else filter_from keep (Z.succ index) r
  end.

(** [pageVideos.filter((video, index, self) =>
      index === self.findIndex((v) => v.url === video.url))] *)
Definition remove_duplicates (pageVideos : list js_video) : list js_video :=
  filter_from
    (fun video index =>
       Z.eqb index
         (findIndex (fun v => str_eqb (url v) (url video)) pageVideos))
    0%Z pageVideos.

Section Script.
Context {rt : Runtime}.

Definition complete_file : string := "grantcardone_complete.json".
Definition config_file : string := "aria2.conf".
Definition input_file : string := "aria2_downloads.txt".
Definition download_dir : pystr := lit "./grant-cardone-downloads".

Definition aria2_config (w : world) : pystr :=
  lit "
# Grant Cardone Video Downloader Configuration
max-concurrent-downloads=16
split=16
min-split-size=1M
max-connection-per-server=16
piece-length=1M
continue=true
max-tries=5
retry-wait=30
timeout=600
connect-timeout=60
allow-overwrite=true
file-allocation=trunc
dir=" ++ abs_download_dir w ++ lit "
log-level=notice
log=aria2c.log
console-log-level=notice
summary-interval=60
show-console-readout=true
enable-rpc=false
".

Definition setup_aria2c : M unit :=
  w <- ask ;;
  emit (WriteFile config_file (aria2_config w)).

Definition entry (i : N) (video : pyval) : outcome pystr :=
  obind (py_get video (lit "title") (video_n i)) (fun title =>
  obind (safe_title_of title) (fun safe =>
  let filename := numbered i safe in
  obind (py_item video (lit "url")) (fun url =>
  let out_path := os_path_join download_dir (filename ++ lit ".%(ext)s") in
  Ret (py_str url ++ newline
       ++ lit "  out=" ++ os_path_basename out_path ++ newline
       ++ newline)))).

Fixpoint write_entries (i : N) (videos : list pyval) : pystr * outcome unit :=
  match videos with
  | [] => ([], Ret tt)
  | video :: rest =>
      match entry i video with
      | Ret text =>
          let r := write_entries (N.succ i) rest in
          (text ++ fst r, snd r)
      | Raise e => ([], Raise e)
      end
  end.

Definition cmd : list pyval :=
  map (fun s => PStr (lit s))
    ["aria2c"; "--conf-path=aria2.conf"; "--input-file=aria2_downloads.txt";
     "--show-console-readout"; "--summary-interval=30"]%string.

Definition download_with_aria2c (videos : pyval) : M unit :=
  if negb (truthy videos) then emit (Print NoVideosToDownload)
  else
    lift (py_len videos) ;;
    setup_aria2c ;;
    with_open_w input_file
      match py_iter videos with
      | Ret l => write_entries 1 l
      | Raise e => ([], Raise e)
      end ;;
    try_except
      (code <- subprocess_run cmd None false ;;
       if Z.eqb code 0 then emit (Print AllCompleted)
       else emit (Print (ExitCode code)))
      (fun e =>
         match e with
         | CalledProcessError => Some (emit (Print (OtherError e)))
         | FileNotFoundError => Some (emit (Print ToolNotFound))
         | _ => None
         end).


End Script.
End AutomatedScraper.

(** ** interactive_extractor.py *)

Module InteractiveExtractor.
Section Script.
Context {rt : Runtime}.

Definition videos_file : string := "grantcardone_videos.json".
Definition found_file : string := "found_videos.json".
Definition download_dir : pystr := lit "./grant-cardone-downloads".

Definition cmd (output_path : pystr) (url : pyval) : list pyval :=
  [PStr (lit "yt-dlp");
   PStr (lit "--no-warnings");
   PStr (lit "--embed-metadata");
   PStr (lit "--output"); PStr output_path;
   PStr (lit "--format"); PStr (lit "best[height<=1080]");
   PStr (lit "--retries"); PStr (lit "3");
   url].

(** The body of the [try] around [subprocess.run] with its handlers:
    the new values of the two counters. *)
Definition attempt (command : list pyval) (successful failed : N)
  : M (N * N) :=
  try_except
    (code <- subprocess_run command (Some 300%N) false ;;
     if Z.eqb code 0 then ret (N.succ successful, failed)
     else ret (successful, N.succ failed))
    (fun e =>
       match e with
       | TimeoutExpired => Some (ret (successful, N.succ failed))
       | _ => Some (ret (successful, N.succ failed))
       end).

(** [for i, video in enumerate(videos, 1): ...] with the counters. *)
Fixpoint loop (i : N) (videos : list pyval) (successful failed : N)
  : M (N * N) :=
  match videos with
  | [] => ret (successful, failed)
  | video :: rest =>
      title <- lift (py_get video (lit "title") (video_n i)) ;;
      url <- lift (py_item video (lit "url")) ;;
      safe <- lift (safe_title_of title) ;;
      let filename := numbered i safe in
      let output_path :=
        os_path_join download_dir (filename ++ lit ".%(ext)s") in
      kind <- lift (py_get video (lit "type") PNone) ;;
      if eq_str kind (lit "lesson-link")
      then
        emit (Print (LessonLink (py_str url))) ;;
        loop (N.succ i) rest successful failed
      else
        counters <- attempt (cmd output_path url) successful failed ;;
        emit (Sleep 2) ;;
        loop (N.succ i) rest (fst counters) (snd counters)
  end.

Definition download_collected_videos : M unit :=
  try_except
    (has_videos <- exists_file videos_file ;;
     has_found <- exists_file found_file ;;
     let video_file :=
       if has_videos then Some videos_file
       else if has_found then Some found_file
       else None in
     match video_file with
     | None => emit (Print NoVideoDataFile)
     | Some name =>
         data <- json_load name ;;
         videos <- lift (py_get data (lit "videos") data) ;;
         if negb (truthy videos) then emit (Print NoVideosInDataFile)
         else
           lift (py_len videos) ;;
           items <- lift (py_iter videos) ;;
           counters <- loop 1 items 0 0 ;;
           emit (Print (Summary (fst counters) (snd counters)))
     end)
    (fun e =>
       match e with
       | FileNotFoundError => Some (emit (Print (NotFound found_file)))
       | JSONDecodeError => Some (emit (Print (InvalidJson found_file)))
       | _ => None
       end).

End Script.
End InteractiveExtractor.

(** ** grant_cardone_downloader.py *)

Module GrantCardoneDownloader.
Section Script.
Context {rt : Runtime}.

Definition data_file : string := "video_data.json".
Definition download_dir : pystr := lit "./grant-cardone-videos".

(** The loop of [process_video_data]; [processed_videos] holds the
    records appended so far. *)
Fixpoint process_items (items : list pyval) (processed_videos : list pyval)
  : outcome (list pyval) :=
  match items with
  | [] => Ret processed_videos
  | item :: rest =>
      match item with
      | PDict _ =>
          let position := N.succ (N.of_nat (List.length processed_videos)) in
          obind (py_get item (lit "title") (video_n position)) (fun title =>
          obind (py_get item (lit "src") (PStr [])) (fun src =>
          obind (safe_title_of title) (fun safe =>
          if truthy src
          then
            obind (py_get item (lit "type") (PStr (lit "unknown")))
              (fun kind =>
               process_items rest
                 (processed_videos ++
                  [PDict [(lit "title", title);
                          (lit "filename", PStr (numbered position safe));
                          (lit "url", src);
                          (lit "type", kind)]]))
          else process_items rest processed_videos)))
      | _ => process_items rest processed_videos
      end
  end.

Definition process_video_data (video_data : pyval) : outcome (list pyval) :=
  obind (py_iter video_data) (fun items => process_items items []).

(** The loading part of [extract_videos_manually], after the operator
    has pressed Enter. *)
Definition extract_videos_manually : M (list pyval) :=
  try_except
    (video_data <- json_load data_file ;;
     lift (process_video_data video_data))
    (fun e =>
       match e with
       | FileNotFoundError =>
           Some (emit (Print (NotFound data_file)) ;; ret [])
       | JSONDecodeError =>
           Some (emit (Print (InvalidJson data_file)) ;; ret [])
       | _ => None
       end).

(** The request to Chrome's debugging endpoint is the world's. *)
Definition check_chrome_debugging : M pyval :=
  w <- ask ;; ret (chrome_tab w).

Definition extract_videos_from_tab (tab : pyval) : M (list pyval) :=
  try_except
    (websocket_url <-
       lift (py_get tab (lit "webSocketDebuggerUrl") PNone) ;;
     if negb (truthy websocket_url)
     then emit (Print NoWebSocketUrl) ;; ret []
     else extract_videos_manually)
    (fun e => Some (emit (Print (OtherError e)) ;; ret [])).

Definition cmd (filename url : pyval) : list pyval :=
  [PStr (lit "yt-dlp");
   PStr (lit "--no-warnings");
   PStr (lit "--embed-metadata");
   PStr (lit "--embed-thumbnail");
   PStr (lit "--write-subtitles");
   PStr (lit "--write-auto-subs");
   PStr (lit "--sub-langs"); PStr (lit "en");
   PStr (lit "--output");
   PStr (download_dir ++ lit "/" ++ py_str filename ++ lit ".%(ext)s");
   PStr (lit "--format"); PStr (lit "best[height<=1080]");
   url].

Definition download_video (video_info : pyval) : M bool :=
  url <- lift (py_item video_info (lit "url")) ;;
  filename <- lift (py_item video_info (lit "filename")) ;;
  _ <- lift (py_item video_info (lit "title")) ;;
  try_except
    (subprocess_run (cmd filename url) None true ;; ret true)
    (fun e =>
       match e with
       | CalledProcessError => Some (ret false)
       | _ => None
       end).

Fixpoint loop (videos : list pyval) (successful_downloads failed_downloads : N)
  : M (N * N) :=
  match videos with
  | [] => ret (successful_downloads, failed_downloads)
  | video :: rest =>
      ok <- download_video video ;;
      emit (Sleep 1) ;;
      if ok
      then loop rest (N.succ successful_downloads) failed_downloads
      else loop rest successful_downloads (N.succ failed_downloads)
  end.

Definition download_all_videos (videos : list pyval) : M unit :=
  match videos with
  | [] => emit (Print NoVideosToDownload)
  | _ =>
      counters <- loop videos 0 0 ;;
      emit (Print (SummaryOf (N.of_nat (List.length videos))
                     (fst counters) (snd counters)))
  end.

Definition run : M unit :=
  tab <- check_chrome_debugging ;;
  videos <-
    (if truthy tab then extract_videos_from_tab tab
     else extract_videos_manually) ;;
  match videos with
  | [] => emit (Print NoVideosFound)
  | _ => download_all_videos videos
  end.

End Script.
End GrantCardoneDownloader.

(** ** advanced_extractor.py *)

Module AdvancedCardoneExtractor.
Section Script.
Context {rt : Runtime}.

Definition download_dir : pystr := lit "./grant-cardone-downloads".

Definition user_agent : pystr :=
  lit "Mozilla/5.0 (Macintosh; Intel Mac OS X 10_15_7) AppleWebKit/537.36 (KHTML, like Gecko) Chrome/142.0.0.0 Safari/537.36".

(** *** Reading a response *)

(** [a or b]. *)
Definition py_or (a b : pyval) : pyval := if truthy a then a else b.

(** [item.get(key)] on a dict. *)
Definition get (item : list (pystr * pyval)) (key : string) : pyval :=
  match dict_lookup item (lit key) with
  | Some x => x
  | None => PNone
  end.

Definition video_indicators : list pystr :=
  [lit "videos"; lit "courses"; lit "lessons"; lit "programs"; lit "content"].

Definition contains_video_data (data : pyval) : bool :=
  match data with
  | PDict d =>
      existsb (fun key => match dict_lookup d key with
                          | Some _ => true
                          | None => false
                          end) video_indicators
  | PList l => negb (match l with [] => true | _ => false end)
  | _ => false
  end.

(** A [for] loop whose body appends to [videos] or raises. *)
Definition for_each {A} (body : A -> list pyval -> outcome (list pyval))
  : list A -> list pyval -> outcome (list pyval) :=
  fix loop (items : list A) (videos : list pyval) : outcome (list pyval) :=
    match items with
    | [] => Ret videos
    | x :: rest => obind (body x videos) (fun videos => loop rest videos)
    end.

(** The first half of [process_item] on a dict: the record that is
    appended when the item carries a URL. *)
Definition found_video (item : list (pystr * pyval)) (videos : list pyval)
  : outcome (list pyval) :=
  let video_url :=
    py_or (get item "video_url")
      (py_or (get item "url")
         (py_or (get item "stream_url")
            (py_or (get item "download_url") (get item "source_url")))) in
  let position := N.succ (N.of_nat (List.length videos)) in
  let title :=
    py_or (get item "title")
      (py_or (get item "name")
         (py_or (get item "lesson_title")
            (py_or (get item "video_title") (video_n position)))) in
  if truthy video_url then
    obind (safe_title_of title) (fun safe_filename =>
    Ret (videos ++
         [PDict [(lit "title", title);
                 (lit "url", video_url);
                 (lit "filename", PStr (numbered position safe_filename));
                 (lit "program", PStr []);
                 (lit "duration", get item "duration");
                 (lit "description", get item "description")]]))
  else Ret videos.

(** [process_item(item)]; [program_name] is the empty string in every
    call.  [videos] is the list of the enclosing function. *)
Fixpoint process_item (item : pyval) (videos : list pyval)
  : outcome (list pyval) :=
  match item with
  | PDict d =>
      obind (found_video d videos) (fun videos =>
      for_each
        (fun (entry : pystr * pyval) videos =>
           let (_, value) := entry in
           match value with
           | PDict _ | PList _ => process_item value videos
           | _ => Ret videos
           end)
        d videos)
  | PList l => for_each process_item l videos
  | _ => Ret videos
  end.

Definition extract_videos_from_response (data : pyval)
  : outcome (list pyval) :=
  process_item data [].

(** One turn of the loop of [get_video_library_data] on a response that
    arrived with status 200 and was decoded to [data]: what
    [video_data.extend(videos)] leaves. *)
Definition extend_video_data (video_data : list pyval) (data : pyval)
  : outcome (list pyval) :=
  if contains_video_data data
  then obind (extract_videos_from_response data) (fun videos =>
       Ret (video_data ++ videos))
  else Ret video_data.

(** *** The downloads *)

(** [os.path.join(dir, v)] for a value [v]. *)
Definition join_value (dir : pystr) (v : pyval) : outcome pystr :=
  match v with
  | PStr s => Ret (os_path_join dir s)
  | _ => Raise TypeError
  end.

(** [authorization] is [self.session.headers.get("Authorization", "")]. *)
Definition cmd (authorization : pystr) (output_path : pystr) (url : pyval)
  : list pyval :=
  [PStr (lit "yt-dlp");
   PStr (lit "--user-agent"); PStr user_agent;
   PStr (lit "--cookies"); PStr (lit "/dev/null");
   PStr (lit "--add-header"); PStr (lit "Authorization: " ++ authorization);
   PStr (lit "--no-warnings");
   PStr (lit "--embed-metadata");
   PStr (lit "--embed-thumbnail");
   PStr (lit "--write-subtitles");
   PStr (lit "--write-auto-subs");
   PStr (lit "--sub-langs"); PStr (lit "en");
   PStr (lit "--output"); PStr output_path;
   PStr (lit "--format"); PStr (lit "best[height<=1080]");
   PStr (lit "--retries"); PStr (lit "3");
   PStr (lit "--fragment-retries"); PStr (lit "3");
   url].

Definition description_args (description : pyval) : list pyval :=
  [PStr (lit "--add-metadata"); PStr (lit "--metadata");
   PStr (lit "description=" ++ py_str description)].

(** The [try] around [subprocess.run]: every exception is caught and
    reported; nothing is counted. *)
Definition attempt (command : list pyval) : M unit :=
  try_except
    (subprocess_run command (Some 300%N) false ;; ret tt)
    (fun e => Some (ret tt)).

Fixpoint loop (authorization : pystr) (videos : list pyval) : M unit :=
  match videos with
  | [] => ret tt
  | video :: rest =>
      _ <- lift (py_item video (lit "title")) ;;
      program <- lift (py_get video (lit "program") PNone) ;;
      output_path <-
        lift (if truthy program
              then obind (join_value download_dir program) (fun program_dir =>
                   obind (py_item video (lit "filename")) (fun filename =>
                   Ret (os_path_join program_dir
                          (py_str filename ++ lit ".%(ext)s"))))
              else obind (py_item video (lit "filename")) (fun filename =>
                   Ret (os_path_join download_dir
                          (py_str filename ++ lit ".%(ext)s")))) ;;
      url <- lift (py_item video (lit "url")) ;;
      description <- lift (py_get video (lit "description") PNone) ;;
      let command :=
        cmd authorization output_path url
        ++ (if truthy description then description_args description else []) in
      attempt command ;;
      emit (SleepUniform 2 5) ;;
      loop authorization rest
  end.

Definition download_videos (authorization : pystr) (videos : list pyval)
  : M unit :=
  match videos with
  | [] => emit (Print NoVideosToDownload)
  | _ => loop authorization videos
  end.

End Script.
End AdvancedCardoneExtractor.

(** * Properties *)

(** ** Results of a run *)

Definition outcome_of {A} (r : outcome A * list event * nat) : outcome A :=
  fst (fst r).

Definition trace_of {A} (r : outcome A * list event * nat) : list event :=
  snd (fst r).

(** The commands of a trace with their timeouts, in order. *)
Fixpoint invocations (t : list event) : list (list pystr * option N) :=
  match t with
  | [] => []
  | Run cmd timeout :: r => (cmd, timeout) :: invocations r
  | _ :: r => invocations r
  end.

(** The files of a trace with their contents, in order. *)
Fixpoint written (t : list event) : list (string * pystr) :=
  match t with
  | [] => []
  | WriteFile name content :: r => (name, content) :: written r
  | _ :: r => written r
  end.

(** Every command of the trace is directly followed by the event [d]. *)
Fixpoint paced (d : event) (t : list event) : Prop :=
  match t with
  | [] => True
  | Run _ _ :: r =>
      match r with
      | e :: _ => e = d
      | [] => False
      end /\ paced d r
  | _ :: r => paced d r
  end.

(** The command line holds [--format best[height<=1080]]. *)
Fixpoint selects_1080 (args : list pystr) : bool :=
  match args with
  | a :: r =>
      match r with
      | b :: _ =>
          (str_eqb a (lit "--format") && str_eqb b (lit "best[height<=1080]"))
          || selects_1080 r
      | [] => false
      end
  | [] => false
  end.

(** The class [[A-Za-z0-9-]]. *)
Definition plain_char (c : N) : bool := ascii_alnum c || N.eqb c 45.

(** The class [[A-Za-z0-9_-]]. *)
Definition plain_or_underscore (c : N) : bool :=
  ascii_alnum c || N.eqb c 95 || N.eqb c 45.

(** [t0] put in front of the trace of a result. *)
Definition prepend {A} (t0 : list event) (r : outcome A * list event * nat)
  : outcome A * list event * nat :=
  (outcome_of r, t0 ++ trace_of r, snd r).

(** ** Records as the scripts expect them *)

(** The title of the record is absent or a string. *)
Definition title_ok (d : list (pystr * pyval)) : bool :=
  match dict_lookup d (lit "title") with
  | None => true
  | Some (PStr _) => true
  | Some _ => false
  end.

(** A dict with a string under [url] and a title that is absent or a
    string. *)
Definition record_ok (v : pyval) : bool :=
  match v with
  | PDict d =>
      title_ok d
      && match dict_lookup d (lit "url") with
         | Some (PStr _) => true
         | _ => false
         end
  | _ => false
  end.

(** The record is marked [type: 'lesson-link']. *)
Definition is_lesson_link (v : pyval) : bool :=
  match v with
  | PDict d =>
      match dict_lookup d (lit "type") with
      | Some kind => eq_str kind (lit "lesson-link")
      | None => false
      end
  | _ => false
  end.

(** The string under [url], if there is one. *)
Definition url_of (v : pyval) : pystr :=
  match v with
  | PDict d =>
      match dict_lookup d (lit "url") with
      | Some (PStr u) => u
      | _ => []
      end
  | _ => []
  end.

(** The command ends within the limit, if any, with return code zero. *)
Definition succeeds (limit : option N) (p : proc) : bool :=
  match p with
  | NotInstalled => false
  | Exits secs code =>
      match limit with
      | Some l => negb (N.ltb l secs)
      | None => true
      end && Z.eqb code 0
  end.

(** Among the [m] commands started from the [n]-th on, how many succeed
    and how many do not. *)
Definition successes (limit : option N) (w : world) (n m : nat) : N :=
  N.of_nat (List.length (filter (fun k => succeeds limit (procs w k)) (seq n m))).

Definition failures (limit : option N) (w : world) (n m : nat) : N :=
  N.of_nat
    (List.length (filter (fun k => negb (succeeds limit (procs w k))) (seq n m))).

(** The records a [yt-dlp] loop hands to the downloader: all but the
    lesson links. *)
Definition downloadable (videos : list pyval) : list pyval :=
  filter (fun v => negb (is_lesson_link v)) videos.

(** ** The input file of [aria2c], as the specification describes it *)

(** One record: the URL line, the line [  out=<file>], a blank line. *)
Definition entry_text (url file : pystr) : pystr :=
  url ++ newline ++ lit "  out=" ++ file ++ newline ++ newline.

(** The sanitized title of the [i]-th record: of its title, or of
    [Video <i>] when it has none. *)
Definition stem (i : N) {rt : Runtime} (v : pyval) : pystr :=
  match v with
  | PDict d =>
      match dict_lookup d (lit "title") with
      | Some (PStr t) => safe_title t
      | _ => safe_title (lit "Video " ++ fmt_d i)
      end
  | _ => []
  end.

(** The entries of the records from the [i]-th on, one after the other. *)
Fixpoint entries {rt : Runtime} (i : N) (videos : list pyval) : pystr :=
  match videos with
  | [] => []
  | v :: rest =>
      entry_text (url_of v) (numbered i (stem i v) ++ lit ".%(ext)s")
      ++ entries (N.succ i) rest
  end.

(** ** First occurrences *)

(** The records of [l] whose URL is the URL of no record of [seen] and of
    no earlier record of [l]. *)
Fixpoint first_seen (seen l : list AutomatedScraper.js_video)
  : list AutomatedScraper.js_video :=
  match l with
  | [] => []
  | x :: r =>
      if existsb (fun v => str_eqb (AutomatedScraper.url v)
                             (AutomatedScraper.url x)) seen
      then first_seen (seen ++ [x]) r
      else x :: first_seen (seen ++ [x]) r
  end.

(** ** Data files without videos *)

(** The file is missing, holds text that is not JSON, or holds an object
    whose [videos] list is empty. *)
Definition no_videos (st : file_state) : bool :=
  match st with
  | Absent | Garbled => true
  | Json (PDict d) =>
      match dict_lookup d (lit "videos") with
      | Some (PList []) => true
      | _ => false
      end
  | Json _ => false
  | NotUtf8 | TooDeep => false
  end.

(** The exception [json.load] raises on a file that no loader expects: one
    that cannot be decoded or that nests too deep. *)
Definition reading_fails (st : file_state) : option exn :=
  match st with
  | NotUtf8 => Some UnicodeDecodeError
  | TooDeep => Some RecursionError
  | _ => None
  end.

(** ** Sample inputs *)

Definition video_a : pyval :=
  PDict [(lit "url", PStr (lit "http://x/a.mp4"));
         (lit "title", PStr (lit "Hello, World!"))].

Definition video_a_query : pyval :=
  PDict [(lit "url", PStr (lit "http://x/a.mp4?"));
         (lit "title", PStr (lit "Hello World"))].

Definition lesson_b : pyval :=
  PDict [(lit "url", PStr (lit "http://x/lessons/2"));
         (lit "title", PStr (lit "Lesson 2"));
         (lit "type", PStr (lit "lesson-link"))].

Definition no_url : pyval :=
  PDict [(lit "title", PStr (lit "A"))].

Definition raw_a : pyval :=
  PDict [(lit "src", PStr (lit "http://x/a.mp4"));
         (lit "title", PStr (lit "Hello, World!"));
         (lit "type", PStr (lit "video-element"))].

Definition raw_empty : pyval :=
  PDict [(lit "src", PStr []); (lit "title", PStr (lit "Course Item 1"))].

Definition processed_a : pyval :=
  PDict [(lit "title", PStr (lit "Hello, World!"));
         (lit "filename", PStr (lit "001-Hello-World"));
         (lit "url", PStr (lit "http://x/a.mp4"));
         (lit "type", PStr (lit "video-element"))].

Definition extracted_a : pyval :=
  PDict [(lit "title", PStr (lit "Hello, World!"));
         (lit "url", PStr (lit "http://x/a.mp4"));
         (lit "filename", PStr (lit "001-Hello-World"));
         (lit "program", PStr []);
         (lit "duration", PNone);
         (lit "description", PNone)].

Definition page_a : AutomatedScraper.js_video :=
  {| AutomatedScraper.url := lit "http://x/a.mp4";
     AutomatedScraper.title := lit "Video 1";
     AutomatedScraper.source := lit "video-element" |}.

Definition page_a_query : AutomatedScraper.js_video :=
  {| AutomatedScraper.url := lit "http://x/a.mp4?";
     AutomatedScraper.title := lit "Video 2";
     AutomatedScraper.source := lit "script-detection" |}.

(** A directory that holds the one file [name], and commands that behave
    as [behaviour] says. *)
Definition sample_world (name : string) (content : file_state)
    (behaviour : nat -> proc) : world :=
  {| files := fun n => if String.eqb n name then content else Absent;
     base_path := fun n => lit "/home/me/gc/" ++ lit n;
     abs_download_dir := lit "/home/me/gc/grant-cardone-downloads";
     chrome_tab := PNone;
     procs := behaviour |}.

(** Every command runs two seconds; the first exits with 1, the others
    with 0. *)
Definition first_fails (k : nat) : proc :=
  match k with
  | O => Exits 2 1
  | S _ => Exits 2 0
  end.

(** The value of a lookup, or [default]. *)
Definition value_or (o : option pyval) (default : pyval) : pyval :=
  match o with
  | Some x => x
  | None => default
  end.

(** ** Raw records, as [process_video_data] reads them *)

(** The value under [src], or the empty string. *)
Definition src_of (item : pyval) : pyval :=
  match item with
  | PDict d => value_or (dict_lookup d (lit "src")) (PStr [])
  | _ => PNone
  end.

(** The item is a dict that carries a non-empty [src]. *)
Definition usable (item : pyval) : bool :=
  match item with
  | PDict _ => truthy (src_of item)
  | _ => false
  end.

(** The title of the item, if it is a dict, is absent or a string. *)
Definition sane_title (item : pyval) : bool :=
  match item with
  | PDict d => title_ok d
  | _ => true
  end.

(** The value under [url] of a processed record. *)
Definition url_value (r : pyval) : option pyval :=
  match r with
  | PDict d => dict_lookup d (lit "url")
  | _ => None
  end.

(** A record as [process_video_data] builds it: a string under [url],
    and the keys [filename] and [title]. *)
Definition processed_ok (v : pyval) : bool :=
  match v with
  | PDict d =>
      match dict_lookup d (lit "url"), dict_lookup d (lit "filename"),
            dict_lookup d (lit "title") with
      | Some (PStr _), Some _, Some _ => true
      | _, _, _ => false
      end
  | _ => false
  end.

(** A record as [extract_videos_from_response] builds it: as above, with
    a [program] that is absent, empty or a string. *)
Definition extracted_ok (v : pyval) : bool :=
  match v with
  | PDict d =>
      processed_ok v
      && match dict_lookup d (lit "program") with
         | None => true
         | Some (PStr _) => true
         | Some p => negb (truthy p)
         end
  | _ => false
  end.

(** The last argument of each command of a trace. *)
Definition targets (t : list event) : list pystr :=
  map (fun inv => last (fst inv) []) (invocations t).

(** ** Reading a file name back *)

Definition is_digit (c : N) : bool := N.leb 48 c && N.leb c 57.

(** The number written by the digits at the start of [s], after [acc]. *)
Fixpoint read_number (acc : N) (s : pystr) : N :=
  match s with
  | [] => acc
  | c :: r => if is_digit c then read_number (10 * acc + (c - 48)) r else acc
  end.

(** The number a file name starts with. *)
Definition leading_number (s : pystr) : N := read_number 0 s.


(** ** Raw items with usable fields *)

(** The item, if it is a dict, has a title that is absent or a string and
    a [src] that is absent or a string. *)
Definition raw_ok (item : pyval) : bool :=
  match item with
  | PDict d =>
      title_ok d
      && match dict_lookup d (lit "src") with
         | None => true
         | Some (PStr _) => true
         | Some _ => false
         end
  | _ => true
  end.

(** The string under [src], if there is one. *)
Definition src_text (item : pyval) : pystr :=
  match src_of item with
  | PStr s => s
  | _ => []
  end.

(** The string under [filename], if there is one. *)
Definition file_name_of (r : pyval) : pystr :=
  match r with
  | PDict d =>
      match dict_lookup d (lit "filename") with
      | Some (PStr s) => s
      | _ => []
      end
  | _ => []
  end.

(** A directory that holds [grantcardone_complete.json] as [first] and
    [grantcardone_videos.json] as [second], and nothing else. *)
Definition sample_pair (first second : file_state)
    (behaviour : nat -> proc) : world :=
  {| files := fun n =>
       if String.eqb n "grantcardone_complete.json" then first
       else if String.eqb n "grantcardone_videos.json" then second
            else Absent;
     base_path := fun n => lit "/home/me/gc/" ++ lit n;
     abs_download_dir := lit "/home/me/gc/grant-cardone-downloads";
     chrome_tab := PNone;
     procs := behaviour |}.

(** ** Records of a response *)

(** The record [extract_videos_from_response] appends at [position]: a
    string title, a URL that counts as true, the file name made of the
    position and the sanitized title, and an empty program. *)
Definition built_at {rt : Runtime} (position : N) (r : pyval) : Prop :=
  exists t u duration description,
    r = PDict [(lit "title", PStr t);
               (lit "url", u);
               (lit "filename", PStr (numbered position (safe_title t)));
               (lit "program", PStr []);
               (lit "duration", duration);
               (lit "description", description)]
    /\ truthy u = true.

(** Records built at [position], [position + 1], ... *)
Fixpoint numbered_from {rt : Runtime} (position : N) (videos : list pyval)
  : Prop :=
  match videos with
  | [] => True
  | r :: rest => built_at position r /\ numbered_from (N.succ position) rest
  end.

(** A step that returns its list with records appended, numbered on from
    the length of the list, or raises [TypeError]. *)
Definition appends {rt : Runtime}
    (step : list pyval -> outcome (list pyval)) : Prop :=
  forall videos,
    match step videos with
    | Ret videos' =>
        exists added,
          videos' = videos ++ added
          /\ numbered_from (N.succ (N.of_nat (List.length videos))) added
    | Raise e => e = TypeError
    end.

(** The URL [process_item] finds in a dict: the first of the five fields
    that counts as true. *)
Definition video_url_of {rt : Runtime} (item : list (pystr * pyval)) : pyval :=
  AdvancedCardoneExtractor.py_or (AdvancedCardoneExtractor.get item "video_url")
    (AdvancedCardoneExtractor.py_or (AdvancedCardoneExtractor.get item "url")
       (AdvancedCardoneExtractor.py_or
          (AdvancedCardoneExtractor.get item "stream_url")
          (AdvancedCardoneExtractor.py_or
             (AdvancedCardoneExtractor.get item "download_url")
             (AdvancedCardoneExtractor.get item "source_url")))).

(** A field that is a string or counts as false. *)
Definition text_or_false (v : pyval) : bool :=
  match v with
  | PStr _ => true
  | _ => negb (truthy v)
  end.

(** Every dict of the value, at any depth, has title fields that are
    strings or count as false. *)
Fixpoint readable {rt : Runtime} (item : pyval) : bool :=
  match item with
  | PDict d =>
      forallb (fun key => text_or_false (AdvancedCardoneExtractor.get d key))
        ["title"; "name"; "lesson_title"; "video_title"]%string
      && forallb (fun entry : pystr * pyval =>
                    let (_, value) := entry in readable value) d
  | PList l => forallb readable l
  | _ => true
  end.

(** The dicts of the value, at any depth, that carry a URL. *)
Fixpoint url_count {rt : Runtime} (item : pyval) : nat :=
  match item with
  | PDict d =>
      (if truthy (video_url_of d) then 1 else 0)
      + list_sum (map (fun entry : pystr * pyval =>
                         let (_, value) := entry in url_count value) d)
  | PList l => list_sum (map url_count l)
  | _ => 0
  end.

(** The argument that follows [--output]. *)
Fixpoint output_of (args : list pystr) : pystr :=
  match args with
  | a :: r =>
      match r with
      | b :: _ => if str_eqb a (lit "--output") then b else output_of r
      | [] => []
      end
  | [] => []
  end.

(** A response as an endpoint may send it. *)
Definition response_a : pyval :=
  PDict [(lit "lessons",
          PList [PDict [(lit "url", PStr (lit "http://x/1"));
                        (lit "title", PStr (lit "One!"))];
                 PDict [(lit "name", PStr (lit "no url"))];
                 PDict [(lit "stream_url", PStr (lit "http://x/2"))]]);
         (lit "url", PStr (lit "http://x/top"))].

(** The record carries a string under [url]. *)
Definition has_text_url (r : pyval) : bool :=
  match url_value r with
  | Some (PStr _) => true
  | _ => false
  end.

Lemma str_eqb_eq (a b : pystr) : str_eqb a b = true <-> a = b.
Proof.
  revert b; induction a as [|x a IH]; intros [|y b]; simpl;
    try (split; [discriminate | discriminate]); try tauto.
  rewrite andb_true_iff, N.eqb_eq, IH.
  split; [intros [-> ->]; reflexivity | intros H; inversion H; auto].
Qed.

Lemma str_eqb_refl (a : pystr) : str_eqb a a = true.
Proof. apply str_eqb_eq; reflexivity. Qed.

Lemma str_eqb_neq (a b : pystr) : str_eqb a b = false <-> a <> b.
Proof.
  rewrite <- str_eqb_eq. destruct (str_eqb a b); split; congruence.
Qed.

(** ** The sanitizer *)

Section SanitizerFacts.
Context {rt : Runtime}.

Lemma separator_hyphen : separator hyphen = true.
Proof. reflexivity. Qed.

Lemma space_is_separator c : is_space c = true -> separator c = true.
Proof. unfold separator; intros ->; apply orb_true_r. Qed.

Lemma not_separator_not_space c : separator c = false -> is_space c = false.
Proof. unfold separator; intros H; apply orb_false_iff in H; tauto. Qed.

Lemma hyphen_not_space : is_space hyphen = false.
Proof. reflexivity. Qed.

(** The second pass applied to its own output changes nothing, whether
    or not the scan starts inside a run. *)
Lemma sub_runs_fixpoint (s : pystr) :
  sub_runs false (sub_runs false s) = sub_runs false s
  /\ sub_runs true (sub_runs true s) = sub_runs true s.
Proof.
  induction s as [|c r [IHf IHt]]; [split; reflexivity|].
  cbn [sub_runs]. destruct (separator c) eqn:Hc.
  - split; [|exact IHt].
    cbn [sub_runs]. rewrite separator_hyphen. now rewrite IHt.
  - cbn [sub_runs]. rewrite Hc. split; now rewrite IHf.
Qed.

(** A character of the second pass's output is the hyphen or a character
    of the input outside the class [[-\s]]. *)
Lemma in_sub_runs (b : bool) (s : pystr) (c : N) :
  In c (sub_runs b s) ->
  c = hyphen \/ (In c s /\ separator c = false).
Proof.
  revert b; induction s as [|x r IH]; intros b; simpl; [tauto|].
  destruct (separator x) eqn:Hx.
  - destruct b; simpl.
    + intros H; destruct (IH _ H) as [->|[? ?]]; auto.
    + intros [<-|H]; auto. destruct (IH _ H) as [->|[? ?]]; auto.
  - simpl. intros [<-|H]; auto. destruct (IH _ H) as [->|[? ?]]; auto.
Qed.

Lemma in_lstrip (s : pystr) (c : N) : In c (lstrip s) -> In c s.
Proof.
  induction s as [|x r IH]; simpl; [tauto|].
  destruct (is_space x); simpl; auto.
Qed.

Lemma in_strip (s : pystr) (c : N) : In c (strip s) -> In c s.
Proof.
  unfold strip, rstrip. intros H.
  apply in_rev, in_lstrip in H. apply in_rev in H. now apply in_lstrip.
Qed.

Lemma lstrip_no_space (s : pystr) :
  (forall c, In c s -> is_space c = false) -> lstrip s = s.
Proof.
  destruct s as [|x r]; simpl; [reflexivity|].
  intros H. now rewrite (H x (or_introl eq_refl)).
Qed.

Lemma strip_no_space (s : pystr) :
  (forall c, In c s -> is_space c = false) -> strip s = s.
Proof.
  intros H. unfold strip, rstrip.
  rewrite (lstrip_no_space s H).
  rewrite lstrip_no_space, rev_involutive; [reflexivity|].
  intros c Hc. apply H. now apply in_rev.
Qed.

Lemma sub_unsafe_kept (s : pystr) :
  (forall c, In c s -> kept c = true) -> sub_unsafe s = s.
Proof.
  unfold sub_unsafe. induction s as [|x r IH]; simpl; [reflexivity|].
  intros H. rewrite (H x (or_introl eq_refl)). f_equal.
  apply IH. intros c Hc. apply H. now right.
Qed.

(** What a character of a sanitized title is. *)
Lemma in_safe_title (title : pystr) (c : N) :
  In c (safe_title title) ->
  c = hyphen
  \/ (In c title /\ is_word c = true /\ separator c = false).
Proof.
  unfold safe_title. intros H.
  destruct (in_sub_runs _ _ _ H) as [->|[Hin Hsep]]; [now left|right].
  apply in_strip in Hin. unfold sub_unsafe in Hin.
  apply filter_In in Hin. destruct Hin as [Hin Hk].
  repeat split; auto.
  unfold kept in Hk. unfold separator in Hsep.
  apply orb_false_iff in Hsep. destruct Hsep as [Hh Hs].
  rewrite Hh, Hs in Hk. now rewrite !orb_false_r in Hk.
Qed.

Lemma safe_title_kept (title : pystr) (c : N) :
  In c (safe_title title) -> kept c = true.
Proof.
  intros H. destruct (in_safe_title _ _ H) as [->|[_ [Hw _]]].
  - reflexivity.
  - unfold kept. now rewrite Hw.
Qed.

Lemma safe_title_no_space (title : pystr) (c : N) :
  In c (safe_title title) -> is_space c = false.
Proof.
  intros H. destruct (in_safe_title _ _ H) as [->|[_ [_ Hs]]].
  - reflexivity.
  - now apply not_separator_not_space.
Qed.

Lemma safe_title_idempotent (title : pystr) :
  safe_title (safe_title title) = safe_title title.
Proof.
  unfold safe_title at 1.
  rewrite sub_unsafe_kept by apply safe_title_kept.
  rewrite strip_no_space by apply safe_title_no_space.
  unfold safe_title. apply sub_runs_fixpoint.
Qed.

End SanitizerFacts.

(** ** Computations: equations *)

Lemma prepend_nil {A} (r : outcome A * list event * nat) : prepend [] r = r.
Proof. destruct r as [[o t] n]; reflexivity. Qed.

Lemma bind_ret_eq {A B} (m : M A) (k : A -> M B) w n a t n' :
  m w n = (Ret a, t, n') -> bind m k w n = prepend t (k a w n').
Proof. unfold bind, prepend, outcome_of, trace_of. intros ->. destruct (k a w n') as [[o t'] n'']; reflexivity. Qed.

Lemma bind_raise_eq {A B} (m : M A) (k : A -> M B) w n e t n' :
  m w n = (Raise e, t, n') -> bind m k w n = (Raise e, t, n').
Proof. unfold bind. intros ->. reflexivity. Qed.

Lemma bind_lift_ret {A B} (a : A) (k : A -> M B) w n :
  bind (lift (Ret a)) k w n = k a w n.
Proof. rewrite (@bind_ret_eq _ _ (lift (Ret a)) k w n a [] n) by reflexivity. apply prepend_nil. Qed.

Lemma bind_emit {B} (e : event) (k : unit -> M B) w n :
  bind (emit e) k w n = prepend [e] (k tt w n).
Proof. apply bind_ret_eq. reflexivity. Qed.

Lemma selects_1080_here pre post :
  selects_1080 (pre ++ lit "--format" :: lit "best[height<=1080]" :: post) = true.
Proof.
  induction pre as [|a pre IH]; [reflexivity|].
  cbn [app selects_1080].
  destruct (pre ++ lit "--format" :: lit "best[height<=1080]" :: post) eqn:E.
  - destruct pre; discriminate.
  - rewrite IH. apply orb_true_r.
Qed.

Section InteractiveFacts.
Context {rt : Runtime}.
Lemma attempt_spec out u s f w n :
exists args,
InteractiveExtractor.attempt (InteractiveExtractor.cmd out (PStr u)) s f w n =
(Ret (if succeeds (Some 300%N) (procs w n) then (N.succ s, f) else (s, N.succ f)),
 [Run args (Some 300%N)], S n) /\ selects_1080 args = true /\ last args [] = u.
Proof.
eexists. split.
- unfold InteractiveExtractor.attempt, try_except, bind, subprocess_run, ret.
  cbn [InteractiveExtractor.cmd as_args].
  unfold succeeds.
  destruct (procs w n) as [|secs code]; [reflexivity|].
  destruct (N.ltb 300 secs); [reflexivity|]. cbn.
  destruct (Z.eqb code 0); reflexivity.
- split; [|reflexivity].
  apply (selects_1080_here [lit "yt-dlp"; lit "--no-warnings"; lit "--embed-metadata"; lit "--output"; out]).
Qed.

Lemma successes_S limit w n m :
successes limit w n (S m)
= ((if succeeds limit (procs w n) then 1 else 0) + successes limit w (S n) m)%N.
Proof.
unfold successes. cbn [seq filter].
destruct (succeeds limit (procs w n)); cbn [List.length]; lia.
Qed.

Lemma failures_S limit w n m :
failures limit w n (S m)
= ((if succeeds limit (procs w n) then 0 else 1) + failures limit w (S n) m)%N.
Proof.
unfold failures. cbn [seq filter].
destruct (succeeds limit (procs w n)); cbn [negb List.length]; lia.
Qed.

Lemma record_ok_inv v :
record_ok v = true ->
exists d u, v = PDict d /\ dict_lookup d (lit "url") = Some (PStr u)
  /\ (dict_lookup d (lit "title") = None
      \/ exists t, dict_lookup d (lit "title") = Some (PStr t)).
Proof.
destruct v as [| | | |?|d]; try discriminate. unfold record_ok, title_ok.
intros H. apply andb_true_iff in H. destruct H as [Ht Hu].
destruct (dict_lookup d (lit "url")) as [[| | |u| |]|] eqn:Eu; try discriminate.
exists d, u. split; [reflexivity|]. split; [exact Eu|].
destruct (dict_lookup d (lit "title")) as [[| | |t| |]|]; try congruence; eauto.
Qed.

Lemma interactive_step (v : pyval) (rest : list pyval) i out u s f w n :
url_of v = u ->
(forall s' f',
 exists t,
  InteractiveExtractor.loop i rest s' f' w (S n)
  = (Ret ((s' + successes (Some 300%N) w (S n) (List.length (downloadable rest)))%N,
          (f' + failures (Some 300%N) w (S n) (List.length (downloadable rest)))%N),
     t, S n + List.length (downloadable rest))
  /\ targets t = map url_of (downloadable rest)
  /\ Forall (fun inv => snd inv = Some 300%N /\ selects_1080 (fst inv) = true)
       (invocations t)
  /\ paced (Sleep 2) t
  /\ written t = []) ->
exists t,
  (counters <- InteractiveExtractor.attempt
                 (InteractiveExtractor.cmd out (PStr u)) s f ;;
   emit (Sleep 2) ;;
   InteractiveExtractor.loop i rest (fst counters) (snd counters)) w n
  = (Ret ((s + successes (Some 300%N) w n
                 (List.length (v :: downloadable rest)))%N,
          (f + failures (Some 300%N) w n
                 (List.length (v :: downloadable rest)))%N),
     t, n + List.length (v :: downloadable rest))
  /\ targets t = map url_of (v :: downloadable rest)
  /\ Forall (fun inv => snd inv = Some 300%N /\ selects_1080 (fst inv) = true)
       (invocations t)
  /\ paced (Sleep 2) t
  /\ written t = [].
Proof.
intros Hu IH.
destruct (attempt_spec out u s f w n) as (args & Ha & Hsel & Hlast).
rewrite (@bind_ret_eq _ _ _ _ w n _ _ _ Ha), bind_emit.
cbn [List.length]. rewrite successes_S, failures_S.
destruct (succeeds (Some 300%N) (procs w n)); cbn [fst snd];
  match goal with
  | |- context [InteractiveExtractor.loop i rest ?a ?b w (S n)] =>
      destruct (IH a b) as (t & -> & H1 & H2 & H3 & H4)
  end;
  (exists (Run args (Some 300%N) :: Sleep 2 :: t); split;
   [ unfold prepend, outcome_of, trace_of; cbn [fst snd app];
     f_equal; [f_equal; f_equal; f_equal; lia | lia]
   | unfold targets in *; cbn [invocations map fst snd written paced];
     split; [f_equal; [rewrite Hu; exact Hlast | exact H1]|];
     repeat split; auto ]).
Qed.

Lemma interactive_loop_spec videos :
Forall (fun v => record_ok v = true) videos ->
forall i s f w n,
exists t,
  InteractiveExtractor.loop i videos s f w n
  = (Ret ((s + successes (Some 300%N) w n (List.length (downloadable videos)))%N,
          (f + failures (Some 300%N) w n (List.length (downloadable videos)))%N),
     t, n + List.length (downloadable videos))
  /\ targets t = map url_of (downloadable videos)
  /\ Forall (fun inv => snd inv = Some 300%N /\ selects_1080 (fst inv) = true)
       (invocations t)
  /\ paced (Sleep 2) t
  /\ written t = [].
Proof.
induction 1 as [|v rest Hv _ IH]; intros i s f w n.
- exists []. cbn. rewrite !N.add_0_r, Nat.add_0_r. repeat split; constructor.
- destruct (@record_ok_inv v Hv) as (d & u & -> & Hu & Ht).
  cbn [InteractiveExtractor.loop]. unfold py_get, py_item. rewrite Hu.
  assert (exists title safe,
    match dict_lookup d (lit "title") with Some x => Ret x | None => Ret (video_n i) end = Ret title
    /\ safe_title_of title = Ret safe) as (title & safe & -> & Hs).
  { destruct Ht as [->|[t ->]]; eexists; eexists; split; reflexivity. }
  rewrite !bind_lift_ret. rewrite Hs, bind_lift_ret.
  unfold downloadable. cbn [filter is_lesson_link].
  destruct (dict_lookup d (lit "type")) as [kind|] eqn:Hk; rewrite bind_lift_ret.
  + destruct (eq_str kind (lit "lesson-link")) eqn:Hl; cbn [negb].
    * rewrite bind_emit.
      destruct (IH (N.succ i) s f w n) as (t & -> & H1 & H2 & H3 & H4).
      eexists; split; [reflexivity|]. cbn. auto.
    * apply interactive_step;
        [unfold url_of; now rewrite Hu | intros s' f'; apply IH].
  + cbn [eq_str negb]. apply interactive_step;
      [unfold url_of; now rewrite Hu | intros s' f'; apply IH].
Qed.
End InteractiveFacts.

(** ** The yt-dlp loops *)

Lemma py_item_some d key x :
  dict_lookup d key = Some x -> py_item (PDict d) key = Ret x.
Proof. unfold py_item. now intros ->. Qed.

Lemma py_get_dict d key default :
  py_get (PDict d) key default = Ret (value_or (dict_lookup d key) default).
Proof. unfold py_get. now destruct (dict_lookup d key). Qed.

Section DownloaderFacts.
Context {rt : Runtime}.

Lemma processed_ok_inv v :
  processed_ok v = true ->
  exists d u name title,
    v = PDict d /\ dict_lookup d (lit "url") = Some (PStr u)
    /\ dict_lookup d (lit "filename") = Some name
    /\ dict_lookup d (lit "title") = Some title.
Proof.
  destruct v as [| | | |?|d]; try discriminate. unfold processed_ok.
  destruct (dict_lookup d (lit "url")) as [[| | |u| |]|] eqn:Eu;
    try discriminate.
  destruct (dict_lookup d (lit "filename")) as [name|] eqn:En;
    try discriminate.
  destruct (dict_lookup d (lit "title")) as [title|] eqn:Et;
    try discriminate.
  intros _. exists d, u, name, title. auto.
Qed.

Lemma download_video_spec v w n secs code :
  processed_ok v = true ->
  procs w n = Exits secs code ->
  exists args,
    GrantCardoneDownloader.download_video v w n
    = (Ret (Z.eqb code 0), [Run args None], S n)
    /\ selects_1080 args = true /\ last args [] = url_of v.
Proof.
  intros Hv Hp.
  destruct (@processed_ok_inv v Hv) as (d & u & name & title & -> & Hu & Hn & Ht).
  unfold GrantCardoneDownloader.download_video, py_item, url_of.
  rewrite Hu, Hn, Ht, !bind_lift_ret.
  eexists. split.
  - unfold try_except, bind, subprocess_run, ret.
    cbn [GrantCardoneDownloader.cmd as_args]. rewrite Hp.
    cbn [andb]. destruct (Z.eqb code 0); reflexivity.
  - split; [|reflexivity].
    apply (selects_1080_here
             [lit "yt-dlp"; lit "--no-warnings"; lit "--embed-metadata";
              lit "--embed-thumbnail"; lit "--write-subtitles";
              lit "--write-auto-subs"; lit "--sub-langs"; lit "en";
              lit "--output"; _]).
Qed.

Lemma downloader_loop_spec videos w :
  Forall (fun v => processed_ok v = true) videos ->
  (forall k, procs w k <> NotInstalled) ->
  forall s f n,
  exists t,
    GrantCardoneDownloader.loop videos s f w n
    = (Ret ((s + successes None w n (List.length videos))%N,
            (f + failures None w n (List.length videos))%N),
       t, n + List.length videos)
    /\ targets t = map url_of videos
    /\ Forall (fun inv => snd inv = None /\ selects_1080 (fst inv) = true)
         (invocations t)
    /\ paced (Sleep 1) t
    /\ written t = [].
Proof.
  intros Hall Hinst. induction Hall as [|v rest Hv _ IH]; intros s f n.
  - exists []. cbn. rewrite !N.add_0_r, Nat.add_0_r. repeat split; constructor.
  - destruct (procs w n) as [|secs code] eqn:Hp; [now destruct (Hinst n)|].
    destruct (@download_video_spec v w n secs code Hv Hp)
      as (args & Hd & Hsel & Hlast).
    cbn [GrantCardoneDownloader.loop List.length].
    rewrite (@bind_ret_eq _ _ _ _ w n _ _ _ Hd), bind_emit.
    rewrite successes_S, failures_S. unfold succeeds at 1 2. rewrite Hp.
    cbn [andb].
    destruct (Z.eqb code 0);
      match goal with
      | |- context [GrantCardoneDownloader.loop rest ?a ?b w (S n)] =>
          destruct (IH a b (S n)) as (t & -> & H1 & H2 & H3 & H4)
      end;
      (exists (Run args None :: Sleep 1 :: t); split;
       [ unfold prepend, outcome_of, trace_of; cbn [fst snd app];
         f_equal; [f_equal; f_equal; f_equal; lia | lia]
       | unfold targets in *; cbn [invocations map fst snd written paced];
         split; [f_equal; [exact Hlast | exact H1]|];
         repeat split; auto ]).
Qed.

End DownloaderFacts.

Section AdvancedFacts.
Context {rt : Runtime}.

Lemma advanced_attempt_spec command args w n :
  as_args command = Some args ->
  AdvancedCardoneExtractor.attempt command w n
  = (Ret tt, [Run args (Some 300%N)], S n).
Proof.
  intros Ha.
  unfold AdvancedCardoneExtractor.attempt, try_except, bind, subprocess_run, ret.
  rewrite Ha. destruct (procs w n) as [|secs code]; [reflexivity|].
  destruct (N.ltb 300 secs); reflexivity.
Qed.

Lemma advanced_command_args authorization out u description :
  exists args,
    as_args (AdvancedCardoneExtractor.cmd authorization out (PStr u)
             ++ (if truthy description
                 then AdvancedCardoneExtractor.description_args description
                 else []))
    = Some args
    /\ selects_1080 args = true.
Proof.
  destruct (truthy description); eexists; (split; [reflexivity|]);
    apply (selects_1080_here
             [lit "yt-dlp"; lit "--user-agent"; _; lit "--cookies";
              lit "/dev/null"; lit "--add-header"; _; lit "--no-warnings";
              lit "--embed-metadata"; lit "--embed-thumbnail";
              lit "--write-subtitles"; lit "--write-auto-subs";
              lit "--sub-langs"; lit "en"; lit "--output"; _]).
Qed.

Lemma extracted_ok_inv v :
  extracted_ok v = true ->
  exists d u title,
    v = PDict d /\ dict_lookup d (lit "url") = Some (PStr u)
    /\ dict_lookup d (lit "title") = Some title
    /\ exists out,
         (let program := value_or (dict_lookup d (lit "program")) PNone in
          if truthy program
          then obind (AdvancedCardoneExtractor.join_value
                        AdvancedCardoneExtractor.download_dir program)
                 (fun program_dir =>
                  obind (py_item (PDict d) (lit "filename")) (fun filename =>
                  Ret (os_path_join program_dir
                         (py_str filename ++ lit ".%(ext)s"))))
          else obind (py_item (PDict d) (lit "filename")) (fun filename =>
               Ret (os_path_join AdvancedCardoneExtractor.download_dir
                      (py_str filename ++ lit ".%(ext)s"))))
         = Ret out.
Proof.
  destruct v as [| | | |?|d]; try discriminate. unfold extracted_ok.
  intros H. apply andb_true_iff in H. destruct H as [Hp Hprog].
  destruct (@processed_ok_inv (PDict d) Hp)
    as (d' & u & name & title & Hd & Hu & Hn & Ht).
  injection Hd as <-.
  exists d, u, title. repeat (split; [assumption || reflexivity|]).
  destruct (dict_lookup d (lit "program")) as [p|];
    cbn [value_or]; cbv zeta.
  - destruct p as [|[]|z|s|[]|[]]; cbn [truthy negb] in *;
      try discriminate;
      try (destruct (Z.eqb z 0); cbn [negb] in *; try discriminate);
      try (destruct s);
      cbn [AdvancedCardoneExtractor.join_value obind];
      rewrite (py_item_some _ _ Hn); eexists; reflexivity.
  - cbn [truthy]. rewrite (py_item_some _ _ Hn). eexists; reflexivity.
Qed.

Lemma advanced_loop_spec authorization videos :
  Forall (fun v => extracted_ok v = true) videos ->
  forall w n,
  exists t,
    AdvancedCardoneExtractor.loop authorization videos w n
    = (Ret tt, t, n + List.length videos)
    /\ List.length (invocations t) = List.length videos
    /\ Forall (fun inv => snd inv = Some 300%N /\ selects_1080 (fst inv) = true)
         (invocations t)
    /\ paced (SleepUniform 2 5) t
    /\ written t = [].
Proof.
  induction 1 as [|v rest Hv _ IH]; intros w n.
  - exists []. cbn. rewrite Nat.add_0_r. repeat split; constructor.
  - destruct (@extracted_ok_inv v Hv)
      as (d & u & title & -> & Hu & Ht & out & Hout).
    cbn [AdvancedCardoneExtractor.loop].
    rewrite (py_item_some _ _ Ht), bind_lift_ret.
    rewrite py_get_dict, bind_lift_ret.
    cbv zeta in Hout. rewrite Hout, bind_lift_ret.
    rewrite (py_item_some _ _ Hu), bind_lift_ret.
    rewrite py_get_dict, bind_lift_ret.
    destruct (advanced_command_args authorization out u
                (value_or (dict_lookup d (lit "description")) PNone))
      as (args & Ha & Hsel).
    rewrite (@bind_ret_eq _ _ _ _ w n _ _ _
               (advanced_attempt_spec _ w n Ha)), bind_emit.
    destruct (IH w (S n)) as (t & -> & H1 & H2 & H3 & H4).
    exists (Run args (Some 300%N) :: SleepUniform 2 5 :: t).
    split.
    + unfold prepend, outcome_of, trace_of; cbn [fst snd app List.length].
      f_equal; lia.
    + cbn [invocations map fst snd written paced List.length].
      rewrite H1; repeat split; auto.
Qed.

End AdvancedFacts.

(** ** The aria2c path of QUICK_START.py *)

Lemma bind_pure {A B} (m : M A) (k : A -> M B) w n a :
  m w n = (Ret a, [], n) -> bind m k w n = k a w n.
Proof.
  intros H. rewrite (@bind_ret_eq _ _ m k w n a [] n H). apply prepend_nil.
Qed.

Lemma bind_exists_file {B} name (k : bool -> M B) w n :
  bind (exists_file name) k w n
  = k (match files w name with Absent => false | _ => true end) w n.
Proof. apply bind_pure. reflexivity. Qed.

Lemma json_load_eq name w n :
  json_load name w n
  = (match files w name with
     | Absent => Raise FileNotFoundError
     | Garbled => Raise JSONDecodeError
     | Json v => Ret v
     | NotUtf8 => Raise UnicodeDecodeError
     | TooDeep => Raise RecursionError
     end, [], n).
Proof.
  unfold json_load, bind, ask_file. destruct (files w name); reflexivity.
Qed.

Lemma try_ret_eq {A} (m : M A) handler w n a t n' :
  m w n = (Ret a, t, n') -> try_except m handler w n = (Ret a, t, n').
Proof. unfold try_except. now intros ->. Qed.

Lemma try_raise_eq {A} (m : M A) handler w n e t n' :
  m w n = (Raise e, t, n') ->
  try_except m handler w n
  = match handler e with
    | Some h => prepend t (h w n')
    | None => (Raise e, t, n')
    end.
Proof.
  unfold try_except, prepend, outcome_of, trace_of. intros ->.
  destruct (handler e) as [h|]; [|reflexivity].
  now destruct (h w n') as [[o t'] n''].
Qed.

Section Aria2Facts.
Context {rt : Runtime}.

Lemma quickstart_entry i v :
  record_ok v = true ->
  QuickStart.entry i v
  = Ret (entry_text (url_of v) (numbered i (stem i v) ++ lit ".%(ext)s")).
Proof.
  intros Hv. destruct (@record_ok_inv v Hv) as (d & u & -> & Hu & Ht).
  unfold QuickStart.entry, stem, url_of, entry_text.
  rewrite py_get_dict, (py_item_some _ _ Hu), Hu.
  destruct Ht as [->|[t ->]]; cbn [value_or obind video_n safe_title_of py_str];
    now rewrite <- !app_assoc.
Qed.

Lemma quickstart_write_entries videos :
  Forall (fun v => record_ok v = true) videos ->
  forall i, QuickStart.write_entries i videos = (entries i videos, Ret tt).
Proof.
  induction 1 as [|v rest Hv _ IH]; intros i; [reflexivity|].
  cbn [QuickStart.write_entries entries].
  now rewrite (@quickstart_entry i v Hv), IH.
Qed.

(** The [aria2c] command of [QUICK_START.py]. *)
Lemma quickstart_cmd_args :
  exists args, as_args QuickStart.cmd = Some (lit "aria2c" :: args).
Proof. eexists. reflexivity. Qed.

Lemma quickstart_download w n data v rest :
  (files w QuickStart.complete_file = Json data
   \/ (files w QuickStart.complete_file = Absent
       /\ files w QuickStart.videos_file = Json data)) ->
  py_get data (lit "videos") (PList []) = Ret (PList (v :: rest)) ->
  Forall (fun x => record_ok x = true) (v :: rest) ->
  exists args m,
    QuickStart.download_with_aria2c w n
    = (Ret tt,
       [WriteFile QuickStart.input_file (entries 1 (v :: rest));
        Run (lit "aria2c" :: args) None;
        Print m],
       S n).
Proof.
  intros Hfile Hget Hok.
  destruct quickstart_cmd_args as (args & Hargs). exists args.
  unfold QuickStart.download_with_aria2c.
  rewrite !bind_exists_file.
  assert (exists name,
    (if match files w QuickStart.complete_file with Absent => false | _ => true end
     then Some QuickStart.complete_file
     else if match files w QuickStart.videos_file with Absent => false | _ => true end
          then Some QuickStart.videos_file else None) = Some name
    /\ files w name = Json data) as (name & -> & Hname).
  { destruct Hfile as [H|[H1 H2]].
    - rewrite H. eauto.
    - rewrite H1, H2. eauto. }
  assert (Hload :
    (data0 <- json_load name ;;
     videos <- lift (py_get data0 (lit "videos") (PList [])) ;;
     ret (Some videos)) w n = (Ret (Some (PList (v :: rest))), [], n)).
  { rewrite (@bind_pure _ _ _ _ w n data) by (now rewrite json_load_eq, Hname).
    rewrite Hget, bind_lift_ret. reflexivity. }
  rewrite (@bind_pure _ _ _ _ w n (Some (PList (v :: rest))))
    by (now apply try_ret_eq).
  cbn [truthy negb py_len py_iter]. rewrite bind_lift_ret.
  rewrite (@quickstart_write_entries _ Hok).
  unfold with_open_w. cbn [fst snd].
  rewrite (@bind_ret_eq _ _ _ _ w n tt [WriteFile QuickStart.input_file (entries 1 (v :: rest))] n)
    by (unfold bind, emit, lift; reflexivity).
  unfold try_except, bind, subprocess_run, emit. rewrite Hargs.
  destruct (procs w n) as [|secs code]; eexists; reflexivity.
Qed.

End Aria2Facts.

(** ** process_video_data *)

Section ProcessFacts.
Context {rt : Runtime}.

Lemma title_ok_safe d default :
  title_ok d = true ->
  exists safe,
    safe_title_of (value_or (dict_lookup d (lit "title")) (PStr default))
    = Ret safe.
Proof.
  unfold title_ok.
  destruct (dict_lookup d (lit "title")) as [[| | |t| |]|];
    try discriminate; intros _; eexists; reflexivity.
Qed.

Lemma process_items_spec items :
  Forall (fun item => sane_title item = true) items ->
  forall processed,
  exists out,
    GrantCardoneDownloader.process_items items processed
    = Ret (processed ++ out)
    /\ map url_value out = map (fun item => Some (src_of item)) (filter usable items).
Proof.
  induction 1 as [|item rest Hitem _ IH]; intros processed.
  - exists []. now rewrite app_nil_r.
  - cbn [GrantCardoneDownloader.process_items filter].
    destruct item as [| | | |l|d];
      try (destruct (IH processed) as (out & -> & Hout); now exists out).
    rewrite !py_get_dict. cbn [obind].
    unfold video_n.
    destruct (@title_ok_safe d
                (lit "Video "
                 ++ fmt_d (N.succ (N.of_nat (List.length processed)))) Hitem)
      as (safe & ->).
    cbn [obind].
    unfold usable, src_of.
    destruct (truthy (value_or (dict_lookup d (lit "src")) (PStr []))).
    + cbn [obind].
      match goal with
      | |- context [GrantCardoneDownloader.process_items rest (processed ++ [?r])] =>
          destruct (IH (processed ++ [r])) as (out & -> & Hout);
          exists (r :: out)
      end.
      split; [now rewrite <- app_assoc|].
      cbn [map]. now rewrite Hout.
    + destruct (IH processed) as (out & -> & Hout). now exists out.
Qed.

End ProcessFacts.

(** ** The duplicate filter of the generated JavaScript *)

Module DuplicateFacts.
Import AutomatedScraper.

Lemma findIndex_none {A} (p : A -> bool) l :
  existsb p l = false -> findIndex p l = (-1)%Z.
Proof.
  induction l as [|x r IH]; cbn [existsb findIndex]; [reflexivity|].
  intros H. apply orb_false_iff in H. destruct H as [-> Hr].
  now rewrite (IH Hr).
Qed.

Lemma findIndex_some {A} (p : A -> bool) l :
  existsb p l = true ->
  (0 <= findIndex p l < Z.of_nat (List.length l))%Z.
Proof.
  induction l as [|x r IH]; cbn [existsb findIndex List.length];
    [discriminate|].
  destruct (p x); cbn [orb]; [lia|].
  intros H. specialize (IH H).
  destruct (Z.ltb_spec (findIndex p r) 0); lia.
Qed.

Lemma findIndex_app_seen {A} (p : A -> bool) pre l :
  existsb p pre = true -> findIndex p (pre ++ l) = findIndex p pre.
Proof.
  induction pre as [|x r IH]; cbn [existsb findIndex app]; [discriminate|].
  destruct (p x); cbn [orb]; [reflexivity|].
  intros H. now rewrite (IH H).
Qed.

Lemma findIndex_app_first {A} (p : A -> bool) pre x r :
  existsb p pre = false -> p x = true ->
  findIndex p (pre ++ x :: r) = Z.of_nat (List.length pre).
Proof.
  induction pre as [|y pre IH]; cbn [existsb findIndex app List.length].
  - now intros _ ->.
  - intros H Hx. apply orb_false_iff in H. destruct H as [-> Hpre].
    rewrite (IH Hpre Hx).
    destruct (Z.ltb_spec (Z.of_nat (List.length pre)) 0); lia.
Qed.

Lemma filter_from_first_seen (all : list js_video) pre l :
  all = pre ++ l ->
  filter_from
    (fun video index =>
       Z.eqb index (findIndex (fun v => str_eqb (url v) (url video)) all))
    (Z.of_nat (List.length pre)) l
  = first_seen pre l.
Proof.
  revert pre; induction l as [|x r IH]; intros pre Hall; [reflexivity|].
  cbn [filter_from first_seen].
  assert (Hnext : Z.succ (Z.of_nat (List.length pre))
                  = Z.of_nat (List.length (pre ++ [x])))
    by (rewrite length_app; cbn [List.length]; lia).
  rewrite Hnext, (IH (pre ++ [x])) by (now rewrite <- app_assoc).
  destruct (existsb (fun v => str_eqb (url v) (url x)) pre) eqn:Hseen.
  - pose proof (findIndex_some _ _ Hseen) as Hrange.
    rewrite Hall, (findIndex_app_seen _ _ _ Hseen).
    destruct (Z.eqb_spec (Z.of_nat (List.length pre))
                (findIndex (fun v => str_eqb (url v) (url x)) pre));
      [lia|reflexivity].
  - rewrite Hall, (findIndex_app_first _ _ _ _ Hseen (str_eqb_refl _)).
    now rewrite Z.eqb_refl.
Qed.

Lemma remove_duplicates_first_seen l :
  remove_duplicates l = first_seen [] l.
Proof. exact (@filter_from_first_seen l [] l eq_refl). Qed.

Lemma existsb_same_url seen u :
  existsb (fun v => str_eqb (url v) u) seen = true <-> In u (map url seen).
Proof.
  rewrite existsb_exists, in_map_iff. split.
  - intros (v & Hv & He). apply str_eqb_eq in He. eauto.
  - intros (v & He & Hv). exists v. split; [assumption|].
    now apply str_eqb_eq.
Qed.

(** No URL is lost. *)
Lemma first_seen_complete l : forall seen u,
  In u (map url l) ->
  In u (map url seen) \/ In u (map url (first_seen seen l)).
Proof.
  induction l as [|x r IH]; intros seen u; cbn [map In first_seen];
    [tauto|].
  intros [<-|Hu].
  - destruct (existsb _ seen) eqn:Hseen.
    + left. now apply existsb_same_url.
    + right. now left.
  - destruct (IH (seen ++ [x]) u Hu) as [H|H].
    + rewrite map_app in H. apply in_app_or in H. destruct H as [H|[<-|[]]].
      * now left.
      * destruct (existsb _ seen) eqn:Hseen.
        -- left. now apply existsb_same_url.
        -- right. now left.
    + right. destruct (existsb _ seen); [assumption|now right].
Qed.

(** No URL is kept twice, and none that was seen before. *)
Lemma first_seen_sound l : forall seen,
  NoDup (map url (first_seen seen l))
  /\ forall u, In u (map url (first_seen seen l)) -> ~ In u (map url seen).
Proof.
  induction l as [|x r IH]; intros seen; cbn [first_seen].
  - split; [constructor|intros u []].
  - destruct (IH (seen ++ [x])) as [Hnd Hfresh].
    assert (Hweak : forall u, In u (map url (first_seen (seen ++ [x]) r)) ->
                      ~ In u (map url seen) /\ u <> url x).
    { intros u Hu. specialize (Hfresh u Hu). rewrite map_app in Hfresh.
      split.
      - intros H. apply Hfresh. apply in_or_app. now left.
      - intros ->. apply Hfresh. apply in_or_app. right. now left. }
    destruct (existsb _ seen) eqn:Hseen.
    + split; [assumption|]. intros u Hu. now apply Hweak.
    + cbn [map]. split.
      * constructor; [|assumption]. intros H. now apply (Hweak _ H).
      * intros u [<-|Hu].
        -- intros H. apply existsb_same_url in H. congruence.
        -- now apply Hweak.
Qed.

(** The filter returns records of the page, in the order of the page. *)
Lemma first_seen_incl l : forall seen v,
  In v (first_seen seen l) -> In v l.
Proof.
  induction l as [|x r IH]; intros seen v; cbn [first_seen]; [tauto|].
  destruct (existsb _ seen); cbn [In]; intros H.
  - right. eapply IH, H.
  - destruct H as [->|H]; [now left|right; eapply IH, H].
Qed.

End DuplicateFacts.

(** ** The master script and the loaders *)

Section MasterFacts.
Context {rt : Runtime}.

Lemma master_entry i v :
  record_ok v = true ->
  GrantCardoneMaster.entry i v
  = Ret (url_of v ++ newline
         ++ lit "  out=" ++ numbered i (stem i v) ++ lit ".%(ext)s"
         ++ newline ++ lit "n" ++ newline).
Proof.
  intros Hv. destruct (@record_ok_inv v Hv) as (d & u & -> & Hu & Ht).
  unfold GrantCardoneMaster.entry, stem, url_of.
  rewrite py_get_dict, (py_item_some _ _ Hu), Hu.
  destruct Ht as [->|[t ->]];
    cbn [value_or obind video_n safe_title_of py_str]; reflexivity.
Qed.

End MasterFacts.

Lemma no_videos_inv data :
  no_videos (Json data) = true ->
  exists d, data = PDict d /\ dict_lookup d (lit "videos") = Some (PList []).
Proof.
  destruct data as [| | | |l|d]; try discriminate. unfold no_videos.
  destruct (dict_lookup d (lit "videos")) as [[| | | |[|x l]|]|] eqn:E;
    try discriminate.
  intros _. exists d. split; [reflexivity|exact E].
Qed.

(** Unfolds the plumbing of a computation and reduces what is known. *)
Ltac run :=
  cbv beta iota zeta fix
    delta [bind exists_file json_load try_except ask_file ask lift ret emit
           raise with_open_w fst snd app].

Lemma master_try_no_videos {rt : Runtime} name w n :
  no_videos (files w name) = true ->
  GrantCardoneMaster.try_stage2_file name w n = (Ret None, [], n).
Proof.
  intros H. unfold GrantCardoneMaster.try_stage2_file. run.
  destruct (files w name) as [| |data| |] eqn:E; rewrite ?E; run;
    try reflexivity; try discriminate H.
  destruct (no_videos_inv _ H) as (d & -> & Hd).
  cbn [py_get]. rewrite Hd. reflexivity.
Qed.

Lemma tally_total limit w m : forall n,
  (successes limit w n m + failures limit w n m)%N = N.of_nat m.
Proof.
  induction m as [|m IH]; intros n; [reflexivity|].
  rewrite successes_S, failures_S.
  specialize (IH (S n)).
  destruct (succeeds limit (procs w n)); lia.
Qed.

Lemma downloadable_shorter videos :
  existsb is_lesson_link videos = true ->
  List.length (downloadable videos) < List.length videos.
Proof.
  unfold downloadable.
  induction videos as [|v rest IH]; cbn [existsb filter List.length];
    [discriminate|].
  pose proof (filter_length_le (fun v => negb (is_lesson_link v)) rest).
  destruct (is_lesson_link v); cbn [orb negb List.length]; [lia|].
  intros H'. specialize (IH H'). lia.
Qed.

Lemma invocations_count t :
  List.length (invocations t) = List.length (targets t).
Proof. unfold targets. now rewrite length_map. Qed.

(** [download_collected_videos] on a data file with well-formed records:
    the loop runs to its end and the summary is printed. *)
Lemma interactive_download {rt : Runtime} w n data v rest :
  (files w InteractiveExtractor.videos_file = Json data
   \/ (files w InteractiveExtractor.videos_file = Absent
       /\ files w InteractiveExtractor.found_file = Json data)) ->
  py_get data (lit "videos") data = Ret (PList (v :: rest)) ->
  Forall (fun x => record_ok x = true) (v :: rest) ->
  exists t,
    InteractiveExtractor.download_collected_videos w n
    = (Ret tt,
       t ++ [Print (Summary
                      (successes (Some 300%N) w n
                         (List.length (downloadable (v :: rest))))
                      (failures (Some 300%N) w n
                         (List.length (downloadable (v :: rest)))))],
       n + List.length (downloadable (v :: rest)))
    /\ targets t = map url_of (downloadable (v :: rest))
    /\ Forall (fun inv => snd inv = Some 300%N /\ selects_1080 (fst inv) = true)
         (invocations t)
    /\ paced (Sleep 2) t.
Proof.
  intros Hfile Hget Hok.
  destruct (@interactive_loop_spec rt (v :: rest) Hok 1%N 0%N 0%N w n)
    as (t & Ht & Htargets & Hinv & Hpaced & _).
  exists t. split; [|auto].
  unfold InteractiveExtractor.download_collected_videos.
  apply try_ret_eq.
  rewrite !bind_exists_file.
  assert (exists name,
    (if match files w InteractiveExtractor.videos_file with
        | Absent => false | _ => true end
     then Some InteractiveExtractor.videos_file
     else if match files w InteractiveExtractor.found_file with
             | Absent => false | _ => true end
          then Some InteractiveExtractor.found_file else None) = Some name
    /\ files w name = Json data) as (name & -> & Hname).
  { destruct Hfile as [H|[H1 H2]].
    - rewrite H. eauto.
    - rewrite H1, H2. eauto. }
  rewrite (@bind_pure _ _ _ _ w n data) by (now rewrite json_load_eq, Hname).
  rewrite Hget, bind_lift_ret.
  cbn [truthy negb py_len py_iter]. rewrite !bind_lift_ret.
  rewrite (@bind_ret_eq _ _ _ _ w n _ _ _ Ht).
  unfold prepend, outcome_of, trace_of, emit. cbn [fst snd]. reflexivity.
Qed.

(** [interactive_extractor.py] on a data file that is a bare list, the
    output of its own browser snippet: [data.get] raises [AttributeError],
    which no handler catches. *)
Lemma interactive_bare_list_raises :
  @InteractiveExtractor.download_collected_videos latin1_runtime
    (sample_world InteractiveExtractor.found_file
       (Json (PList [video_a])) (fun _ => Exits 2 0))
    0
  = (Raise AttributeError, [], 0).
Proof. vm_compute. reflexivity. Qed.

(** ** The aria2c paths that follow the format *)

(** The characters of a number are digits. *)
Lemma string_of_uint_digits (d : Decimal.uint) (c : N) :
  In c (lit (NilEmpty.string_of_uint d)) -> (48 <= c <= 57)%N.
Proof.
  induction d; cbn [NilEmpty.string_of_uint lit list_ascii_of_string map In];
    try tauto;
    (intros [<-|H]; [vm_compute; split; discriminate|now apply IHd]).
Qed.

Lemma fmt_d_digits (n c : N) : In c (fmt_d n) -> (48 <= c <= 57)%N.
Proof.
  unfold fmt_d, NilZero.string_of_uint.
  destruct (N.to_uint n) eqn:E; try apply string_of_uint_digits.
  cbn. intros [<-|[]]. lia.
Qed.

Lemma fmt_03d_digits (n c : N) : In c (fmt_03d n) -> (48 <= c <= 57)%N.
Proof.
  unfold fmt_03d. intros H. apply in_app_or in H. destruct H as [H|H].
  - apply repeat_spec in H. subst c. lia.
  - now apply fmt_d_digits in H.
Qed.

Lemma basename_no_slash (b acc : pystr) :
  (forall c, In c b -> c <> slash) ->
  fold_left (fun acc c => if N.eqb c slash then [] else acc ++ [c]) b acc
  = acc ++ b.
Proof.
  revert acc; induction b as [|x b IH]; intros acc H; cbn [fold_left].
  - now rewrite app_nil_r.
  - destruct (N.eqb_spec x slash) as [->|_].
    + now destruct (H slash (or_introl eq_refl)).
    + rewrite IH by (intros c Hc; apply H; now right).
      now rewrite <- app_assoc.
Qed.

Lemma basename_of_join (b : pystr) :
  (forall c, In c b -> c <> slash) ->
  os_path_basename (os_path_join AutomatedScraper.download_dir b) = b.
Proof.
  intros H. unfold os_path_join.
  assert (Hjoin : match b with
                  | 47%N :: _ => b
                  | _ =>
                      match rev AutomatedScraper.download_dir with
                      | [] => b
                      | 47%N :: _ => AutomatedScraper.download_dir ++ b
                      | _ => AutomatedScraper.download_dir ++ slash :: b
                      end
                  end = AutomatedScraper.download_dir ++ slash :: b).
  { destruct b as [|x b]; [reflexivity|].
    destruct (N.eqb_spec x 47) as [->|Hx].
    - now destruct (H slash (or_introl eq_refl)).
    - destruct x as [|p]; [reflexivity|].
      do 6 (destruct p as [p|p|]; try reflexivity).
      now destruct Hx. }
  rewrite Hjoin. unfold os_path_basename.
  rewrite fold_left_app. cbn [fold_left]. rewrite N.eqb_refl.
  now rewrite (basename_no_slash b [] H).
Qed.

Section FormatFacts.
Context {rt : Runtime}.

Lemma out_name_no_slash i title c :
  In c (numbered i (safe_title title) ++ lit ".%(ext)s") -> c <> slash.
Proof.
  unfold numbered. rewrite <- !app_assoc. intros H.
  apply in_app_or in H. destruct H as [H|H].
  { apply fmt_03d_digits in H. unfold slash. lia. }
  apply in_app_or in H. destruct H as [H|H].
  { destruct H as [<-|[]]. discriminate. }
  apply in_app_or in H. destruct H as [H|H].
  - destruct (in_safe_title _ _ H) as [->|(_ & Hw & _)]; [discriminate|].
    intros ->. discriminate Hw.
  - intros ->. vm_compute in H. intuition discriminate.
Qed.

Lemma stage2_entry i v :
  record_ok v = true ->
  AutomatedScraper.entry i v
  = Ret (entry_text (url_of v) (numbered i (stem i v) ++ lit ".%(ext)s")).
Proof.
  intros Hv. destruct (@record_ok_inv v Hv) as (d & u & -> & Hu & Ht).
  unfold AutomatedScraper.entry, stem, url_of, entry_text.
  rewrite py_get_dict, (py_item_some _ _ Hu), Hu.
  destruct Ht as [->|[t ->]]; cbn [value_or obind video_n safe_title_of py_str];
    rewrite basename_of_join by apply out_name_no_slash;
    now rewrite <- !app_assoc.
Qed.

Lemma stage2_write_entries videos :
  Forall (fun v => record_ok v = true) videos ->
  forall i, AutomatedScraper.write_entries i videos = (entries i videos, Ret tt).
Proof.
  induction 1 as [|v rest Hv _ IH]; intros i; [reflexivity|].
  cbn [AutomatedScraper.write_entries entries].
  now rewrite (@stage2_entry i v Hv), IH.
Qed.

End FormatFacts.

(** * The claims *)

(** C1, as stated, fails: the title [a_b] is sanitized to [a_b], and the
    underscore it keeps is no character of [A-Za-z0-9-]; the title
    [caf\u00e9] likewise keeps its last letter (code point 233). *)
Lemma C1_underscore_survives :
  @safe_title latin1_runtime (lit "a_b") = lit "a_b"
  /\ In 95%N (@safe_title latin1_runtime (lit "a_b"))
  /\ plain_char 95 = false
  /\ @safe_title latin1_runtime (lit "caf" ++ [233%N]) = lit "caf" ++ [233%N]
  /\ plain_char 233 = false.
Proof. vm_compute. auto 6. Qed.

(** C1, amended: every character of a sanitized title is a word character
    in the sense of [\w] (alphanumeric, Unicode-aware, or the underscore)
    or the hyphen, and none is white space; when the title is ASCII, the
    sanitized title lies within [A-Za-z0-9_-]. *)
Theorem C1_stem_characters {rt : Runtime} (title : pystr) (c : N) :
  In c (safe_title title) ->
  (is_word c = true \/ c = hyphen)
  /\ is_space c = false
  /\ ((forall x, In x title -> (x < 128)%N) -> plain_or_underscore c = true).
Proof.
  intros H. split; [|split].
  - destruct (in_safe_title _ _ H) as [->|(_ & Hw & _)]; auto.
  - now apply safe_title_no_space in H.
  - intros Hascii. destruct (in_safe_title _ _ H) as [->|(Hin & Hw & _)];
      [reflexivity|].
    unfold is_word in Hw. unfold plain_or_underscore.
    apply Hascii, N.ltb_lt in Hin. rewrite Hin in Hw.
    now rewrite Hw.
Qed.

(** C1 on sample inputs. *)
Lemma C1_stem_characters_witness :
  In 95%N (@safe_title latin1_runtime (lit "a_b"))
  /\ ((@is_word latin1_runtime 95 = true \/ 95%N = hyphen)
      /\ is_space 95 = false
      /\ ((forall x, In x (lit "a_b") -> (x < 128)%N) ->
          plain_or_underscore 95 = true)).
Proof.
  assert (H : In 95%N (@safe_title latin1_runtime (lit "a_b")))
    by (vm_compute; auto).
  split; [exact H|].
  exact (@C1_stem_characters latin1_runtime (lit "a_b") 95%N H).
Defined.

(** C2 fails on [GRANT_CARDONE_MASTER.py]: the second [f.write] of
    [create_aria2_input_file] ends in [\nn], so the entry of a record is
    the URL line, the [out=] line and a line [n]; no blank line separates
    it from the next entry. *)
Theorem C2_master_entry_has_stray_line :
  @GrantCardoneMaster.create_aria2_input_file latin1_runtime
    (PList [video_a; video_a_query])
    (sample_world GrantCardoneMaster.videos_file Absent (fun _ => Exits 2 0))
    0
  = (Ret (lit "/home/me/gc/aria2_downloads.txt"),
     [WriteFile GrantCardoneMaster.input_file
        (lit "http://x/a.mp4
  out=001-Hello-World.%(ext)s
n
http://x/a.mp4?
  out=002-Hello-World.%(ext)s
n
")],
     0).
Proof. vm_compute. reflexivity. Qed.

(** C3, as stated, fails: [grant_cardone_downloader.py] calls
    [subprocess.run] without a timeout. *)
Lemma C3_downloader_has_no_timeout :
  exists args,
    invocations
      (trace_of
         (@GrantCardoneDownloader.download_all_videos latin1_runtime
            [processed_a]
            (sample_world GrantCardoneDownloader.data_file Absent
               (fun _ => Exits 2 0))
            0))
    = [(args, None)].
Proof. eexists. vm_compute. reflexivity. Qed.

(** C3, amended: each [yt-dlp] loop starts exactly one command per record
    it downloads (in [interactive_extractor.py] the lesson links are
    passed over), every command selects [best[height<=1080]], and every
    command is directly followed by a pause.  The commands of
    [interactive_extractor.py] and [advanced_extractor.py] carry a timeout
    of 300 seconds, those of [grant_cardone_downloader.py] carry none.
    The pause is one second in [grant_cardone_downloader.py], two seconds
    in [interactive_extractor.py], and drawn between two and five seconds
    in [advanced_extractor.py]. *)
Theorem C3_one_command_per_record {rt : Runtime} :
  (forall videos w n,
     Forall (fun v => processed_ok v = true) videos ->
     (forall k, procs w k <> NotInstalled) ->
     exists r t k,
       GrantCardoneDownloader.loop videos 0 0 w n = (Ret r, t, k)
       /\ List.length (invocations t) = List.length videos
       /\ Forall (fun inv => snd inv = None /\ selects_1080 (fst inv) = true)
            (invocations t)
       /\ paced (Sleep 1) t)
  /\ (forall videos w n,
        Forall (fun v => record_ok v = true) videos ->
        exists r t k,
          InteractiveExtractor.loop 1 videos 0 0 w n = (Ret r, t, k)
          /\ List.length (invocations t) = List.length (downloadable videos)
          /\ Forall (fun inv => snd inv = Some 300%N
                                /\ selects_1080 (fst inv) = true)
               (invocations t)
          /\ paced (Sleep 2) t)
  /\ (forall authorization videos w n,
        Forall (fun v => extracted_ok v = true) videos ->
        exists t k,
          AdvancedCardoneExtractor.loop authorization videos w n
          = (Ret tt, t, k)
          /\ List.length (invocations t) = List.length videos
          /\ Forall (fun inv => snd inv = Some 300%N
                                /\ selects_1080 (fst inv) = true)
               (invocations t)
          /\ paced (SleepUniform 2 5) t).
Proof.
  repeat split.
  - intros videos w n Hok Hinst.
    destruct (@downloader_loop_spec rt videos w Hok Hinst 0%N 0%N n)
      as (t & Ht & Htargets & Hinv & Hpaced & _).
    eexists _, t, _. split; [exact Ht|].
    rewrite invocations_count, Htargets, length_map. auto.
  - intros videos w n Hok.
    destruct (@interactive_loop_spec rt videos Hok 1%N 0%N 0%N w n)
      as (t & Ht & Htargets & Hinv & Hpaced & _).
    eexists _, t, _. split; [exact Ht|].
    rewrite invocations_count, Htargets, length_map. auto.
  - intros authorization videos w n Hok.
    destruct (@advanced_loop_spec rt authorization videos Hok w n)
      as (t & Ht & Hcount & Hinv & Hpaced & _).
    eexists t, _. split; [exact Ht|]. auto.
Qed.

(** C3 on sample inputs. *)
Lemma C3_one_command_per_record_witness :
  (exists r t k,
     @InteractiveExtractor.loop latin1_runtime 1
       [video_a; lesson_b; video_a_query] 0 0
       (sample_world InteractiveExtractor.found_file Absent first_fails) 0
     = (Ret r, t, k)
     /\ List.length (invocations t) = 2
     /\ Forall (fun inv => snd inv = Some 300%N
                           /\ selects_1080 (fst inv) = true)
          (invocations t)
     /\ paced (Sleep 2) t)
  /\ (exists t k,
        @AdvancedCardoneExtractor.loop latin1_runtime [] [extracted_a]
          (sample_world InteractiveExtractor.found_file Absent first_fails) 0
        = (Ret tt, t, k)
        /\ List.length (invocations t) = 1
        /\ Forall (fun inv => snd inv = Some 300%N
                              /\ selects_1080 (fst inv) = true)
             (invocations t)
        /\ paced (SleepUniform 2 5) t).
Proof.
  pose proof (@C3_one_command_per_record latin1_runtime)
    as (_ & Hinteractive & Hadvanced).
  split.
  - apply (Hinteractive [video_a; lesson_b; video_a_query]).
    repeat constructor.
  - apply (Hadvanced [] [extracted_a]). repeat constructor.
Defined.




(** C5: in the [yt-dlp] loops of [interactive_extractor.py] and
    [grant_cardone_downloader.py] a command that exits with a code other
    than zero, or that outlives its timeout, adds one to the failure
    counter and the loop goes on: whatever the commands do, the loop ends
    normally, it has handed every record (lesson links apart) to the
    downloader, in order, and its counters hold the number of commands
    that succeeded and the number that did not. *)
Theorem C5_failures_are_counted {rt : Runtime} :
  (forall videos w n,
     Forall (fun v => record_ok v = true) videos ->
     exists t,
       InteractiveExtractor.loop 1 videos 0 0 w n
       = (Ret (successes (Some 300%N) w n (List.length (downloadable videos)),
               failures (Some 300%N) w n (List.length (downloadable videos))),
          t, n + List.length (downloadable videos))
       /\ targets t = map url_of (downloadable videos))
  /\ (forall videos w n,
        Forall (fun v => processed_ok v = true) videos ->
        (forall k, procs w k <> NotInstalled) ->
        exists t,
          GrantCardoneDownloader.loop videos 0 0 w n
          = (Ret (successes None w n (List.length videos),
                  failures None w n (List.length videos)),
             t, n + List.length videos)
          /\ targets t = map url_of videos).
Proof.
  split.
  - intros videos w n Hok.
    destruct (@interactive_loop_spec rt videos Hok 1%N 0%N 0%N w n)
      as (t & Ht & Htargets & _).
    exists t. split; [exact Ht|exact Htargets].
  - intros videos w n Hok Hinst.
    destruct (@downloader_loop_spec rt videos w Hok Hinst 0%N 0%N n)
      as (t & Ht & Htargets & _).
    exists t. split; [exact Ht|exact Htargets].
Qed.

(** C5 on sample inputs. *)
Lemma C5_failures_are_counted_witness :
  exists t,
    @InteractiveExtractor.loop latin1_runtime 1 [video_a; video_a_query] 0 0
      (sample_world InteractiveExtractor.found_file Absent first_fails) 0
    = (Ret (1%N, 1%N), t, 2)
    /\ targets t = [lit "http://x/a.mp4"; lit "http://x/a.mp4?"].
Proof.
  apply (proj1 (@C5_failures_are_counted latin1_runtime)
           [video_a; video_a_query]
           (sample_world InteractiveExtractor.found_file Absent first_fails) 0).
  repeat constructor.
Defined.

(** C6, as stated, fails: [QUICK_START.py] does not skip a record without
    [url]; reading [video['url']] raises [KeyError], which nothing
    catches. *)
Lemma C6_missing_url_raises :
  outcome_of
    (@QuickStart.download_with_aria2c latin1_runtime
       (sample_world QuickStart.videos_file
          (Json (PDict [(lit "videos", PList [no_url])]))
          (fun _ => Exits 2 0))
       0)
  = Raise KeyError.
Proof. vm_compute. reflexivity. Qed.

(** C6, amended: [process_video_data] drops silently every item that is
    no dict or has no non-empty [src], and returns a record for each of
    the others, in order (it raises only on a title that is no string).
    The [aria2c] and [yt-dlp] download paths do not skip: a record without
    [url] raises [KeyError], and a record with an empty [url] gets its
    entry like any other. *)
Theorem C6_unusable_records {rt : Runtime} :
  (forall items,
     Forall (fun item => sane_title item = true) items ->
     exists out,
       GrantCardoneDownloader.process_video_data (PList items) = Ret out
       /\ map url_value out
          = map (fun item => Some (src_of item)) (filter usable items))
  /\ (forall i d,
        title_ok d = true -> dict_lookup d (lit "url") = None ->
        QuickStart.entry i (PDict d) = Raise KeyError)
  /\ (forall i d rest s f w n,
        dict_lookup d (lit "url") = None ->
        InteractiveExtractor.loop i (PDict d :: rest) s f w n
        = (Raise KeyError, [], n))
  /\ (forall i v,
        record_ok v = true ->
        QuickStart.entry i v
        = Ret (entry_text (url_of v) (numbered i (stem i v) ++ lit ".%(ext)s"))).
Proof.
  repeat split.
  - intros items Hitems.
    destruct (@process_items_spec rt items Hitems []) as (out & Hout & Hurls).
    exists out. split; [exact Hout|exact Hurls].
  - intros i d Ht Hu. unfold QuickStart.entry, py_item.
    rewrite py_get_dict, Hu. cbn [obind]. unfold video_n.
    destruct (@title_ok_safe rt d (lit "Video " ++ fmt_d i) Ht) as (safe & ->).
    reflexivity.
  - intros i d rest s f w n Hu. cbn [InteractiveExtractor.loop].
    rewrite py_get_dict, bind_lift_ret. unfold py_item. rewrite Hu.
    reflexivity.
  - intros i v Hv. now apply quickstart_entry.
Qed.

(** C6 on sample inputs. *)
Lemma C6_unusable_records_witness :
  (exists out,
     @GrantCardoneDownloader.process_video_data latin1_runtime
       (PList [raw_a; raw_empty; PStr (lit "x")]) = Ret out
     /\ map url_value out = [Some (PStr (lit "http://x/a.mp4"))])
  /\ @QuickStart.entry latin1_runtime 1 no_url = Raise KeyError.
Proof.
  pose proof (@C6_unusable_records latin1_runtime) as (Hdrop & Hkey & _ & _).
  split.
  - apply (Hdrop [raw_a; raw_empty; PStr (lit "x")]). repeat constructor.
  - apply Hkey; reflexivity.
Defined.

(** C7: the filter of the generated JavaScript keeps the first record of
    every URL and compares URLs as exact strings: no URL of the page is
    lost, none is kept twice, two records whose URLs differ are both
    kept, two with the same URL are reduced to the first.  The Python
    download path of [QUICK_START.py] removes nothing: it writes one entry
    per record, duplicates included. *)
Theorem C7_exact_url_deduplication {rt : Runtime} :
  (forall l u,
     In u (map AutomatedScraper.url l) ->
     In u (map AutomatedScraper.url (AutomatedScraper.remove_duplicates l)))
  /\ (forall l,
        NoDup (map AutomatedScraper.url (AutomatedScraper.remove_duplicates l)))
  /\ (forall a b,
        AutomatedScraper.url a <> AutomatedScraper.url b ->
        AutomatedScraper.remove_duplicates [a; b] = [a; b])
  /\ (forall a b,
        AutomatedScraper.url a = AutomatedScraper.url b ->
        AutomatedScraper.remove_duplicates [a; b] = [a])
  /\ (forall videos,
        Forall (fun v => record_ok v = true) videos ->
        QuickStart.write_entries 1 videos = (entries 1 videos, Ret tt)).
Proof.
  repeat split.
  - intros l u Hu. rewrite DuplicateFacts.remove_duplicates_first_seen.
    destruct (DuplicateFacts.first_seen_complete l [] u Hu) as [[]|H].
    exact H.
  - intros l. rewrite DuplicateFacts.remove_duplicates_first_seen.
    apply DuplicateFacts.first_seen_sound.
  - intros a b Hab. rewrite DuplicateFacts.remove_duplicates_first_seen.
    cbn [first_seen existsb app]. apply str_eqb_neq in Hab.
    now rewrite Hab.
  - intros a b Hab. rewrite DuplicateFacts.remove_duplicates_first_seen.
    cbn [first_seen existsb app]. apply str_eqb_eq in Hab.
    now rewrite Hab.
  - intros videos Hok. now apply quickstart_write_entries.
Qed.

(** C7 on sample inputs. *)
Lemma C7_exact_url_deduplication_witness :
  AutomatedScraper.remove_duplicates [page_a; page_a_query]
  = [page_a; page_a_query]
  /\ AutomatedScraper.remove_duplicates [page_a; page_a] = [page_a]
  /\ @QuickStart.write_entries latin1_runtime 1 [video_a; video_a]
     = (@entries latin1_runtime 1 [video_a; video_a], Ret tt).
Proof.
  pose proof (@C7_exact_url_deduplication latin1_runtime)
    as (_ & _ & Hdiff & Hsame & Hall).
  split; [|split].
  - apply Hdiff. vm_compute. discriminate.
  - apply Hsame. reflexivity.
  - apply Hall. repeat constructor.
Defined.

(** C8: the sanitizer is a function of the title (equal titles give equal
    results), and applying it to its own result returns that result. *)
Theorem C8_sanitizer_idempotent {rt : Runtime} :
  (forall t1 t2 : pystr, t1 = t2 -> safe_title t1 = safe_title t2)
  /\ (forall title : pystr,
        safe_title (safe_title title) = safe_title title).
Proof.
  split.
  - now intros t1 t2 ->.
  - apply safe_title_idempotent.
Qed.

(** C8 on sample inputs. *)
Lemma C8_sanitizer_idempotent_witness :
  @safe_title latin1_runtime (@safe_title latin1_runtime (lit " - a_b  --c "))
  = @safe_title latin1_runtime (lit " - a_b  --c ").
Proof.
  exact (proj2 (@C8_sanitizer_idempotent latin1_runtime) (lit " - a_b  --c ")).
Defined.

(** C9: a data file [{"videos": [v]}] with one record that carries a URL
    (under either file name [QUICK_START.py] looks for) yields exactly one
    entry of the input file, and the file name of that entry begins with
    [001-]; so does [create_aria2_input_file] of the master script. *)
Theorem C9_single_record {rt : Runtime} (w : world) (n : nat)
    (data v : pyval) :
  record_ok v = true ->
  py_get data (lit "videos") (PList []) = Ret (PList [v]) ->
  (files w QuickStart.complete_file = Json data
   \/ (files w QuickStart.complete_file = Absent
       /\ files w QuickStart.videos_file = Json data)) ->
  (exists args m,
     QuickStart.download_with_aria2c w n
     = (Ret tt,
        [WriteFile QuickStart.input_file
           (entry_text (url_of v) (lit "001-" ++ stem 1 v ++ lit ".%(ext)s"));
         Run (lit "aria2c" :: args) None;
         Print m],
        S n))
  /\ GrantCardoneMaster.create_aria2_input_file (PList [v]) w n
     = (Ret (base_path w GrantCardoneMaster.input_file),
        [WriteFile GrantCardoneMaster.input_file
           (url_of v ++ newline
            ++ lit "  out=" ++ lit "001-" ++ stem 1 v ++ lit ".%(ext)s"
            ++ newline ++ lit "n" ++ newline)],
        n).
Proof.
  intros Hv Hget Hfile. split.
  - destruct (@quickstart_download rt w n data v [] Hfile Hget
                (Forall_cons v Hv (Forall_nil _)))
      as (args & m & H).
    exists args, m. rewrite H. cbn [entries]. now rewrite app_nil_r.
  - unfold GrantCardoneMaster.create_aria2_input_file.
    cbn [py_iter GrantCardoneMaster.write_entries].
    rewrite (@master_entry rt 1 v Hv).
    unfold with_open_w, bind, ask, emit, lift, ret. cbn [fst snd app].
    now rewrite app_nil_r.
Qed.

(** C9 on sample inputs. *)
Lemma C9_single_record_witness :
  exists args m,
    @QuickStart.download_with_aria2c latin1_runtime
      (sample_world QuickStart.videos_file
         (Json (PDict [(lit "videos", PList [video_a])]))
         (fun _ => Exits 2 0))
      0
    = (Ret tt,
       [WriteFile QuickStart.input_file
          (lit "http://x/a.mp4
  out=001-Hello-World.%(ext)s

");
        Run (lit "aria2c" :: args) None;
        Print m],
       1).
Proof.
  apply (@C9_single_record latin1_runtime
           (sample_world QuickStart.videos_file
              (Json (PDict [(lit "videos", PList [video_a])]))
              (fun _ => Exits 2 0))
           0 (PDict [(lit "videos", PList [video_a])]) video_a).
  - reflexivity.
  - reflexivity.
  - right. split; reflexivity.
Defined.

(** C10: in [download_collected_videos] a record of type [lesson-link] is
    passed over before any command is built and enters neither counter;
    so when the list holds such a record, the two numbers of the summary
    add up to less than the number of records. *)
Theorem C10_lesson_links_are_not_counted {rt : Runtime} (w : world) (n : nat)
    (data : pyval) (videos : list pyval) :
  (files w InteractiveExtractor.videos_file = Json data
   \/ (files w InteractiveExtractor.videos_file = Absent
       /\ files w InteractiveExtractor.found_file = Json data)) ->
  py_get data (lit "videos") data = Ret (PList videos) ->
  Forall (fun v => record_ok v = true) videos ->
  existsb is_lesson_link videos = true ->
  exists t successful failed k,
    InteractiveExtractor.download_collected_videos w n
    = (Ret tt, t ++ [Print (Summary successful failed)], k)
    /\ targets t = map url_of (downloadable videos)
    /\ (successful + failed)%N = N.of_nat (List.length (downloadable videos))
    /\ (successful + failed < N.of_nat (List.length videos))%N.
Proof.
  intros Hfile Hget Hok Hlesson.
  destruct videos as [|v rest]; [discriminate|].
  destruct (@interactive_download rt w n data v rest Hfile Hget Hok)
    as (t & Hrun & Htargets & _).
  eexists t, _, _, _. split; [exact Hrun|]. split; [exact Htargets|].
  rewrite tally_total. split; [reflexivity|].
  pose proof (downloadable_shorter _ Hlesson). lia.
Qed.

(** C10 on sample inputs. *)
Lemma C10_lesson_links_are_not_counted_witness :
  exists t successful failed k,
    @InteractiveExtractor.download_collected_videos latin1_runtime
      (sample_world InteractiveExtractor.found_file
         (Json (PDict [(lit "videos", PList [video_a; lesson_b])]))
         (fun _ => Exits 2 0))
      0
    = (Ret tt, t ++ [Print (Summary successful failed)], k)
    /\ targets t = map url_of (downloadable [video_a; lesson_b])
    /\ (successful + failed)%N
       = N.of_nat (List.length (downloadable [video_a; lesson_b]))
    /\ (successful + failed < N.of_nat (List.length [video_a; lesson_b]))%N.
Proof.
  apply (@C10_lesson_links_are_not_counted latin1_runtime
           (sample_world InteractiveExtractor.found_file
              (Json (PDict [(lit "videos", PList [video_a; lesson_b])]))
              (fun _ => Exits 2 0))
           0 (PDict [(lit "videos", PList [video_a; lesson_b])])
           [video_a; lesson_b]).
  - right. split; reflexivity.
  - reflexivity.
  - repeat constructor.
  - reflexivity.
Defined.

(** * Further properties *)

(** X1: on well-formed records [run] of [QUICK_START.py] writes the
    configuration, which does not depend on the records, then the input
    file, one entry per record in the format URL line, [out=] line, blank
    line, and then runs [aria2c] once. *)
Theorem quickstart_run {rt : Runtime} (w : world) (n : nat)
    (data v : pyval) (rest : list pyval) :
  (files w QuickStart.complete_file = Json data
   \/ (files w QuickStart.complete_file = Absent
       /\ files w QuickStart.videos_file = Json data)) ->
  py_get data (lit "videos") (PList []) = Ret (PList (v :: rest)) ->
  Forall (fun x => record_ok x = true) (v :: rest) ->
  exists args m,
    QuickStart.run w n
    = (Ret tt,
       [WriteFile QuickStart.config_file (QuickStart.config w);
        WriteFile QuickStart.input_file (entries 1 (v :: rest));
        Run (lit "aria2c" :: args) None;
        Print m],
       S n).
Proof.
  intros Hfile Hget Hok.
  destruct (@quickstart_download rt w n data v rest Hfile Hget Hok)
    as (args & m & Hrun).
  exists args, m. unfold QuickStart.run. rewrite !bind_exists_file.
  assert ((match files w QuickStart.complete_file with
           | Absent => false | _ => true end
           || match files w QuickStart.videos_file with
              | Absent => false | _ => true end) = true) as ->.
  { destruct Hfile as [->|[_ ->]]; [reflexivity|apply orb_true_r]. }
  rewrite (@bind_ret_eq _ _ _ _ w n tt
             [WriteFile QuickStart.config_file (QuickStart.config w)] n)
    by reflexivity.
  now rewrite Hrun.
Qed.

(** X1 on sample inputs. *)
Lemma quickstart_run_witness :
  exists args m,
    @QuickStart.run latin1_runtime
      (sample_world QuickStart.videos_file
         (Json (PDict [(lit "videos", PList [video_a; video_a_query])]))
         (fun _ => Exits 2 0))
      0
    = (Ret tt,
       [WriteFile QuickStart.config_file
          (QuickStart.config
             (sample_world QuickStart.videos_file
                (Json (PDict [(lit "videos", PList [video_a; video_a_query])]))
                (fun _ => Exits 2 0)));
        WriteFile QuickStart.input_file
          (lit "http://x/a.mp4
  out=001-Hello-World.%(ext)s

http://x/a.mp4?
  out=002-Hello-World.%(ext)s

");
        Run (lit "aria2c" :: args) None;
        Print m],
       1).
Proof.
  apply (@quickstart_run latin1_runtime
           (sample_world QuickStart.videos_file
              (Json (PDict [(lit "videos", PList [video_a; video_a_query])]))
              (fun _ => Exits 2 0))
           0 (PDict [(lit "videos", PList [video_a; video_a_query])])
           video_a [video_a_query]).
  - right. split; reflexivity.
  - reflexivity.
  - repeat constructor.
Defined.

(** X2: on well-formed records [download_with_aria2c] of
    [stage2_automated_scraper.py] writes the configuration, the input file
    in the same format, and runs [aria2c] once. *)
Theorem stage2_download {rt : Runtime} (w : world) (n : nat)
    (v : pyval) (rest : list pyval) :
  Forall (fun x => record_ok x = true) (v :: rest) ->
  exists args m,
    AutomatedScraper.download_with_aria2c (PList (v :: rest)) w n
    = (Ret tt,
       [WriteFile AutomatedScraper.config_file (AutomatedScraper.aria2_config w);
        WriteFile AutomatedScraper.input_file (entries 1 (v :: rest));
        Run (lit "aria2c" :: args) None;
        Print m],
       S n).
Proof.
  intros Hok.
  unfold AutomatedScraper.download_with_aria2c.
  cbn [truthy negb py_len py_iter]. rewrite bind_lift_ret.
  rewrite (@bind_ret_eq _ _ _ _ w n tt
             [WriteFile AutomatedScraper.config_file
                (AutomatedScraper.aria2_config w)] n)
    by reflexivity.
  rewrite (@stage2_write_entries rt _ Hok).
  unfold with_open_w. cbn [fst snd].
  rewrite (@bind_ret_eq _ _ _ _ w n tt
             [WriteFile AutomatedScraper.input_file (entries 1 (v :: rest))] n)
    by (unfold bind, emit, lift; reflexivity).
  unfold try_except, bind, subprocess_run, emit, prepend, outcome_of, trace_of.
  cbn [AutomatedScraper.cmd map as_args].
  destruct (procs w n) as [|secs code]; cbn [andb negb]; run.
  - eexists _, _. reflexivity.
  - destruct (Z.eqb code 0); eexists _, _; reflexivity.
Qed.

(** X2 on sample inputs. *)
Lemma stage2_download_witness :
  exists args m,
    @AutomatedScraper.download_with_aria2c latin1_runtime (PList [video_a])
      (sample_world AutomatedScraper.complete_file Absent first_fails) 0
    = (Ret tt,
       [WriteFile AutomatedScraper.config_file
          (AutomatedScraper.aria2_config
             (sample_world AutomatedScraper.complete_file Absent first_fails));
        WriteFile AutomatedScraper.input_file
          (@entries latin1_runtime 1 [video_a]);
        Run (lit "aria2c" :: args) None;
        Print m],
       1).
Proof.
  apply (@stage2_download latin1_runtime
           (sample_world AutomatedScraper.complete_file Absent first_fails)
           0 video_a []).
  repeat constructor.
Defined.

(** ** File names *)

Lemma read_number_uint (d : Decimal.uint) : forall acc rest,
  read_number acc (lit (NilEmpty.string_of_uint d) ++ rest)
  = read_number (acc * 10 ^ DecimalPos.Unsigned.usize d + DecimalPos.Unsigned.of_lu (Decimal.rev d))%N
      rest.
Proof.
  induction d; intros acc rest;
    [ cbn; f_equal; lia | .. ];
    unfold lit; cbn [NilEmpty.string_of_uint list_ascii_of_string map app];
    fold (lit (NilEmpty.string_of_uint d));
    match goal with
    | |- context [N_of_ascii ?a] =>
        let v := eval vm_compute in (N_of_ascii a) in
        change (N_of_ascii a) with v
    end;
    cbn [read_number]; cbv beta iota delta [is_digit N.leb];
    cbn [N.compare Pos.compare Pos.compare_cont andb];
    rewrite IHd; f_equal;
    unfold Decimal.rev at 2; cbn [Decimal.revapp];
    rewrite DecimalPos.Unsigned.of_lu_revapp;
    cbn [DecimalPos.Unsigned.usize DecimalPos.Unsigned.of_lu]; rewrite N.pow_succ_r';
    generalize (10 ^ DecimalPos.Unsigned.usize d)%N; intros p;
    generalize (DecimalPos.Unsigned.of_lu (Decimal.rev d)); intros q;
    cbn [N.sub Pos.sub_mask Pos.sub_mask_carry Pos.double_mask
         Pos.succ_double_mask Pos.pred_double Pos.double_pred_mask];
    ring.
Qed.

Lemma read_number_fmt_d (n : N) (rest : pystr) :
  read_number 0 (fmt_d n ++ rest) = read_number n rest.
Proof.
  unfold fmt_d, NilZero.string_of_uint.
  pose proof (DecimalN.Unsigned.of_to n) as Hn.
  unfold N.of_uint in Hn. rewrite DecimalPos.Unsigned.of_uint_alt in Hn.
  destruct (N.to_uint n) eqn:E;
    try (rewrite read_number_uint, N.mul_0_l, N.add_0_l, Hn; reflexivity).
  cbn in Hn. subst n. reflexivity.
Qed.

Lemma read_number_zeros (k : nat) (s : pystr) :
  read_number 0 (repeat 48%N k ++ s) = read_number 0 s.
Proof. induction k as [|k IH]; [reflexivity|exact IH]. Qed.

Lemma read_number_fmt_03d (n : N) (rest : pystr) :
  read_number 0 (fmt_03d n ++ rest) = read_number n rest.
Proof.
  unfold fmt_03d. rewrite <- app_assoc, read_number_zeros.
  apply read_number_fmt_d.
Qed.

(** X3: the number in front of a file name is the position it was built
    from; so two records of one batch never get the same file name, even
    when their sanitized titles are equal. *)
Theorem file_name_round_trip :
  (forall i safe, leading_number (numbered i safe) = i)
  /\ (forall i j safe safe', i <> j -> numbered i safe <> numbered j safe').
Proof.
  assert (Hread : forall i safe, leading_number (numbered i safe) = i).
  { intros i safe. unfold leading_number, numbered.
    rewrite read_number_fmt_03d. reflexivity. }
  split; [exact Hread|].
  intros i j safe safe' Hij H. apply Hij.
  rewrite <- (Hread i safe), <- (Hread j safe'). now rewrite H.
Qed.

(** X3 on sample inputs. *)
Lemma file_name_round_trip_witness :
  leading_number (numbered 42 (lit "Hello-World")) = 42%N
  /\ numbered 1 (lit "Hello-World") <> numbered 2 (lit "Hello-World").
Proof.
  split.
  - apply (proj1 file_name_round_trip).
  - apply (proj2 file_name_round_trip). discriminate.
Defined.

Lemma read_number_bound (s : pystr) : forall acc,
  (read_number acc s < (acc + 1) * 10 ^ N.of_nat (List.length s))%N.
Proof.
  induction s as [|c r IH]; intros acc.
  - cbn. lia.
  - cbn [read_number List.length]. rewrite Nat2N.inj_succ, N.pow_succ_r'.
    assert (Hpos : (1 <= 10 ^ N.of_nat (List.length r))%N).
    { pose proof (N.pow_nonzero 10 (N.of_nat (List.length r))). lia. }
    destruct (is_digit c) eqn:Hc.
    + unfold is_digit in Hc. apply andb_true_iff in Hc.
      destruct Hc as [H1 H2]. apply N.leb_le in H1, H2.
      specialize (IH (10 * acc + (c - 48))%N).
      eapply N.lt_le_trans; [exact IH|].
      rewrite N.mul_assoc. apply N.mul_le_mono_r. lia.
    + clear IH. revert Hpos.
      generalize (10 ^ N.of_nat (List.length r))%N. intros p Hp. nia.
Qed.

Lemma small_numbers_width :
  forallb (fun k => Nat.eqb (List.length (fmt_03d (N.of_nat k))) 3)
    (seq 0 1000) = true.
Proof. vm_compute. reflexivity. Qed.

(** X4: the numeric prefix is made of digits only and is never shorter
    than three characters; it has exactly three for the positions below
    1000 and more from there on. *)
Theorem prefix_width (i : N) :
  (forall c, In c (fmt_03d i) -> is_digit c = true)
  /\ 3 <= List.length (fmt_03d i)
  /\ (List.length (fmt_03d i) = 3 <-> (i < 1000)%N).
Proof.
  split; [|split].
  - intros c Hc. apply fmt_03d_digits in Hc. unfold is_digit.
    apply andb_true_iff. split; apply N.leb_le; lia.
  - unfold fmt_03d. rewrite length_app, repeat_length. lia.
  - split.
    + intros Hlen.
      pose proof (read_number_fmt_03d i []) as Hi. rewrite app_nil_r in Hi.
      pose proof (read_number_bound (fmt_03d i) 0) as Hb.
      rewrite Hi, Hlen in Hb. cbn in Hb. exact Hb.
    + intros Hi.
      pose proof (proj1 (forallb_forall _ _) small_numbers_width
                    (N.to_nat i)) as H.
      cbv beta in H. rewrite N2Nat.id in H. apply Nat.eqb_eq, H.
      apply in_seq. lia.
Qed.

(** X5: a file name holds no white space (so no line break), no slash or
    backslash, no dot, no percent sign and no NUL, whatever the title: a
    title cannot add a line to the input file of [aria2c], leave the
    download directory, or add a field to the output template of
    [yt-dlp]. *)
Theorem file_name_is_safe {rt : Runtime} (i : N) (title : pystr) (c : N) :
  In c (numbered i (safe_title title)) ->
  is_space c = false /\ ~ In c [0; 37; 46; 47; 92]%N.
Proof.
  unfold numbered. intros H.
  apply in_app_or in H. destruct H as [H|H].
  { apply fmt_03d_digits in H.
    assert (Hc : (c = 48 \/ c = 49 \/ c = 50 \/ c = 51 \/ c = 52 \/ c = 53
                  \/ c = 54 \/ c = 55 \/ c = 56 \/ c = 57)%N) by lia.
    split; [|cbn; lia].
    repeat (destruct Hc as [->|Hc]; [reflexivity|]). now subst c. }
  apply in_app_or in H. destruct H as [H|H].
  { destruct H as [<-|[]].
    split; [reflexivity|vm_compute; intuition discriminate]. }
  split; [now apply safe_title_no_space in H|].
  destruct (in_safe_title _ _ H) as [->|(_ & Hw & _)];
    [vm_compute; intuition discriminate|].
  cbn [In]. intros [<-|[<-|[<-|[<-|[<-|[]]]]]]; discriminate Hw.
Qed.

(** X5 on sample inputs. *)
Lemma file_name_is_safe_witness :
  In 72%N (numbered 1 (@safe_title latin1_runtime (lit "../Hello
World%")))
  /\ is_space 72 = false /\ ~ In 72%N [0; 37; 46; 47; 92]%N.
Proof.
  assert (H : In 72%N (numbered 1 (@safe_title latin1_runtime (lit "../Hello
World%")))) by (vm_compute; auto 10).
  split; [exact H|].
  exact (@file_name_is_safe latin1_runtime 1%N _ 72%N H).
Defined.

Lemma in_lstrip_back {rt : Runtime} (s : pystr) (c : N) :
  In c s -> is_space c = false -> In c (lstrip s).
Proof.
  induction s as [|x r IH]; cbn [lstrip In]; [tauto|].
  intros [->|H] Hc.
  - rewrite Hc. now left.
  - destruct (is_space x); [now apply IH|now right].
Qed.

Lemma in_strip_back {rt : Runtime} (s : pystr) (c : N) :
  In c s -> is_space c = false -> In c (strip s).
Proof.
  intros H Hc. unfold strip, rstrip.
  apply in_rev. rewrite rev_involutive.
  apply in_lstrip_back; [|assumption].
  apply -> in_rev. now apply in_lstrip_back.
Qed.

Lemma lstrip_spaces {rt : Runtime} (s : pystr) :
  (forall c, In c s -> is_space c = true) -> lstrip s = [].
Proof.
  induction s as [|x r IH]; cbn [lstrip]; [reflexivity|].
  intros H. rewrite (H x (or_introl eq_refl)).
  apply IH. intros c Hc. apply H. now right.
Qed.

(** X6: the sanitized title is empty exactly when the title holds nothing
    but characters the first pass removes and white space; the file name
    is then the bare prefix, [001-]. *)
Theorem empty_stem {rt : Runtime} (title : pystr) :
  safe_title title = []
  <-> (forall c, In c title -> kept c = true -> is_space c = true).
Proof.
  unfold safe_title. split.
  - intros H c Hin Hk.
    destruct (is_space c) eqn:Hs; [reflexivity|exfalso].
    assert (Hc : In c (strip (sub_unsafe title))).
    { apply in_strip_back; [|assumption].
      unfold sub_unsafe. apply filter_In. now split. }
    destruct (strip (sub_unsafe title)) as [|x r]; [contradiction|].
    cbn [sub_runs] in H. destruct (separator x); discriminate H.
  - intros H.
    assert (Hs : strip (sub_unsafe title) = []).
    { unfold strip. rewrite lstrip_spaces; [reflexivity|].
      intros c Hc. unfold sub_unsafe in Hc. apply filter_In in Hc.
      destruct Hc as [Hin Hk]. now apply H. }
    now rewrite Hs.
Qed.

(** X6 on sample inputs. *)
Lemma empty_stem_witness :
  @safe_title latin1_runtime (lit " !?  ... ") = []
  /\ numbered 1 (@safe_title latin1_runtime (lit " !?  ... ")) = lit "001-".
Proof.
  assert (H : @safe_title latin1_runtime (lit " !?  ... ") = []).
  { apply (proj2 (@empty_stem latin1_runtime (lit " !?  ... "))).
    intros c Hc. vm_compute in Hc.
    repeat (destruct Hc as [<-|Hc]; [vm_compute; intros; congruence|]).
    contradiction. }
  split; [exact H|]. now rewrite H.
Defined.



(** ** grant_cardone_downloader.py from the data file to the summary *)

Lemma file_name_of_processed title name url kind :
  file_name_of (PDict [(lit "title", title); (lit "filename", PStr name);
                       (lit "url", url); (lit "type", kind)])
  = name.
Proof. reflexivity. Qed.

Lemma process_items_records {rt : Runtime} items :
  Forall (fun item => sane_title item = true) items ->
  forall processed,
  exists out,
    GrantCardoneDownloader.process_items items processed
    = Ret (processed ++ out)
    /\ map url_value out
       = map (fun item => Some (src_of item)) (filter usable items)
    /\ (forall k r, nth_error out k = Some r ->
          leading_number (file_name_of r)
          = N.of_nat (List.length processed + S k))
    /\ Forall (fun r => exists d name title,
                 r = PDict d
                 /\ dict_lookup d (lit "filename") = Some name
                 /\ dict_lookup d (lit "title") = Some title) out.
Proof.
  induction 1 as [|item rest Hitem _ IH]; intros processed.
  - exists []. rewrite app_nil_r. repeat split; try constructor.
    intros [|k] r H; discriminate H.
  - cbn [GrantCardoneDownloader.process_items filter].
    destruct item as [| | | |l|d];
      try (destruct (IH processed) as (out & -> & Hout); now exists out).
    rewrite !py_get_dict. cbn [obind]. unfold video_n.
    destruct (@title_ok_safe rt d
                (lit "Video "
                 ++ fmt_d (N.succ (N.of_nat (List.length processed)))) Hitem)
      as (safe & ->).
    cbn [obind]. unfold usable, src_of.
    destruct (truthy (value_or (dict_lookup d (lit "src")) (PStr []))).
    + cbn [obind].
      match goal with
      | |- context [GrantCardoneDownloader.process_items rest (processed ++ [?r])] =>
          destruct (IH (processed ++ [r])) as (out & -> & Hurl & Hnum & Hshape);
          exists (r :: out)
      end.
      split; [now rewrite <- app_assoc|].
      split; [cbn [map]; now rewrite Hurl|].
      split.
      * intros [|k] r Hr.
        -- injection Hr as <-.
           rewrite file_name_of_processed.
           rewrite (proj1 file_name_round_trip). lia.
        -- cbn [nth_error] in Hr. rewrite (Hnum k r Hr).
           rewrite length_app. cbn [List.length]. lia.
      * constructor; [|exact Hshape].
        eexists _, _, _. split; [reflexivity|]. split; reflexivity.
    + destruct (IH processed) as (out & -> & Hout). now exists out.
Qed.

(** X8: [process_video_data] numbers the records it returns 1, 2, 3, ...
    in the order it returns them: the number counts the records kept so
    far, not the items read, so an item that is dropped moves the numbers
    of all later records. *)
Theorem process_video_data_numbering {rt : Runtime} (items : list pyval) :
  Forall (fun item => sane_title item = true) items ->
  exists out,
    GrantCardoneDownloader.process_video_data (PList items) = Ret out
    /\ List.length out = List.length (filter usable items)
    /\ forall k r, nth_error out k = Some r ->
         leading_number (file_name_of r) = N.of_nat (S k).
Proof.
  intros Hitems.
  destruct (@process_items_records rt items Hitems [])
    as (out & Hrun & Hurl & Hnum & _).
  exists out. split; [exact Hrun|]. split.
  - rewrite <- (length_map url_value out), Hurl. apply length_map.
  - intros k r Hr. now rewrite (Hnum k r Hr).
Qed.

(** X8 on sample inputs. *)
Lemma process_video_data_numbering_witness :
  exists out,
    @GrantCardoneDownloader.process_video_data latin1_runtime
      (PList [raw_empty; raw_a; PInt 7; raw_a]) = Ret out
    /\ List.length out = 2
    /\ forall k r, nth_error out k = Some r ->
         leading_number (file_name_of r) = N.of_nat (S k).
Proof.
  apply (@process_video_data_numbering latin1_runtime
           [raw_empty; raw_a; PInt 7; raw_a]).
  repeat constructor.
Defined.

Lemma raw_ok_src item :
  raw_ok item = true -> usable item = true ->
  src_of item = PStr (src_text item).
Proof.
  destruct item as [| | | |l|d]; try discriminate.
  unfold raw_ok, usable, src_text, src_of.
  intros H _. apply andb_true_iff in H. destruct H as [_ H].
  destruct (dict_lookup d (lit "src")) as [[| | |s| |]|];
    try discriminate; reflexivity.
Qed.

Lemma raw_ok_sane item : raw_ok item = true -> sane_title item = true.
Proof.
  destruct item as [| | | |l|d]; try reflexivity.
  unfold raw_ok, sane_title. intros H. now apply andb_true_iff in H.
Qed.

Lemma records_are_processed out : forall texts,
  map url_value out = map (fun s => Some (PStr s)) texts ->
  Forall (fun r => exists d name title,
            r = PDict d
            /\ dict_lookup d (lit "filename") = Some name
            /\ dict_lookup d (lit "title") = Some title) out ->
  Forall (fun r => processed_ok r = true) out /\ map url_of out = texts.
Proof.
  induction out as [|r out IH]; intros [|s texts] Hurl Hshape;
    try discriminate Hurl; [split; [constructor|reflexivity]|].
  inversion Hshape as [|r' out' (d & name & title & -> & Hn & Ht) Hrest];
    subst.
  cbn [map] in Hurl. injection Hurl as Hr Hurl. cbn [url_value] in Hr.
  destruct (IH texts Hurl Hrest) as [Hok Htexts].
  split.
  - constructor; [|exact Hok]. unfold processed_ok. now rewrite Hr, Hn, Ht.
  - cbn [map url_of]. now rewrite Hr, Htexts.
Qed.

Lemma process_video_data_ready {rt : Runtime} items :
  Forall (fun item => raw_ok item = true) items ->
  exists out,
    GrantCardoneDownloader.process_video_data (PList items) = Ret out
    /\ Forall (fun r => processed_ok r = true) out
    /\ map url_of out = map src_text (filter usable items).
Proof.
  intros Hraw.
  assert (Hsane : Forall (fun item => sane_title item = true) items).
  { eapply Forall_impl; [|exact Hraw]. intros item. apply raw_ok_sane. }
  destruct (@process_items_records rt items Hsane [])
    as (out & Hrun & Hurl & _ & Hshape).
  exists out. split; [exact Hrun|].
  apply records_are_processed; [|exact Hshape].
  rewrite Hurl. clear - Hraw.
  induction Hraw as [|item rest Hitem _ IH]; [reflexivity|].
  cbn [filter]. destruct (usable item) eqn:Hu; [|exact IH].
  cbn [map]. now rewrite (raw_ok_src _ Hitem Hu), IH.
Qed.

(** X9: [run] of [grant_cardone_downloader.py], when Chrome lists no tab
    of the site, [video_data.json] holds a list of items (dicts with a
    string or no title and a string or no [src]) and [yt-dlp] is
    installed: it hands exactly the items with a non-empty [src] to
    [yt-dlp], in order, one command each, and the summary counts them:
    total = successful + failed.  With no such item it reports that no
    videos were found and starts nothing. *)
Theorem downloader_run {rt : Runtime} (w : world) (n : nat)
    (items : list pyval) :
  truthy (chrome_tab w) = false ->
  files w GrantCardoneDownloader.data_file = Json (PList items) ->
  Forall (fun item => raw_ok item = true) items ->
  (forall k, procs w k <> NotInstalled) ->
  let wanted := filter usable items in
  match wanted with
  | [] => GrantCardoneDownloader.run w n = (Ret tt, [Print NoVideosFound], n)
  | _ =>
      exists t successful failed,
        GrantCardoneDownloader.run w n
        = (Ret tt,
           t ++ [Print (SummaryOf (N.of_nat (List.length wanted))
                          successful failed)],
           n + List.length wanted)
        /\ targets t = map src_text wanted
        /\ (successful + failed)%N = N.of_nat (List.length wanted)
        /\ failed = failures None w n (List.length wanted)
  end.
Proof.
  intros Htab Hfile Hraw Hinst wanted.
  destruct (@process_video_data_ready rt items Hraw)
    as (out & Hprocess & Hok & Hurls).
  fold wanted in Hurls.
  assert (Hload :
    GrantCardoneDownloader.extract_videos_manually w n = (Ret out, [], n)).
  { unfold GrantCardoneDownloader.extract_videos_manually.
    apply try_ret_eq.
    rewrite (@bind_pure _ _ _ _ w n (PList items))
      by (now rewrite json_load_eq, Hfile).
    unfold lift. now rewrite Hprocess. }
  assert (Hlen : List.length out = List.length wanted).
  { rewrite <- (length_map url_of out), Hurls. apply length_map. }
  unfold GrantCardoneDownloader.run.
  rewrite (@bind_pure _ _ _ _ w n (chrome_tab w)) by reflexivity.
  rewrite Htab.
  rewrite (@bind_pure _ _ _ _ w n out) by exact Hload.
  destruct wanted as [|x wanted'] eqn:Hw.
  - destruct out; [reflexivity|discriminate Hlen].
  - destruct out as [|r out']; [discriminate Hlen|].
    destruct (@downloader_loop_spec rt (r :: out') w Hok Hinst 0%N 0%N n)
      as (t & Hloop & Htargets & _).
    exists t, (successes None w n (List.length (r :: out'))),
      (failures None w n (List.length (r :: out'))).
    rewrite <- Hlen, <- Hurls.
    split; [|split; [exact Htargets|split; [apply tally_total|reflexivity]]].
    unfold GrantCardoneDownloader.download_all_videos.
    rewrite (@bind_ret_eq _ _ _ _ w n _ _ _ Hloop).
    reflexivity.
Qed.

(** X9 on sample inputs. *)
Lemma downloader_run_witness :
  exists t successful failed,
    @GrantCardoneDownloader.run latin1_runtime
      (sample_world GrantCardoneDownloader.data_file
         (Json (PList [raw_empty; raw_a; raw_a])) first_fails) 0
    = (Ret tt, t ++ [Print (SummaryOf 2 successful failed)], 2)
    /\ targets t = [lit "http://x/a.mp4"; lit "http://x/a.mp4"]
    /\ (successful + failed)%N = 2%N
    /\ failed = 1%N.
Proof.
  apply (@downloader_run latin1_runtime
           (sample_world GrantCardoneDownloader.data_file
              (Json (PList [raw_empty; raw_a; raw_a])) first_fails)
           0 [raw_empty; raw_a; raw_a]).
  - reflexivity.
  - reflexivity.
  - repeat constructor.
  - intros [|k]; discriminate.
Defined.

Lemma extract_videos_manually_counter {rt : Runtime} w n :
  snd (GrantCardoneDownloader.extract_videos_manually w n) = n.
Proof.
  unfold GrantCardoneDownloader.extract_videos_manually. run.
  destruct (files w GrantCardoneDownloader.data_file) as [| |data| |];
    try reflexivity.
  destruct (GrantCardoneDownloader.process_video_data data) as [out|[]];
    reflexivity.
Qed.

(** X10: when Chrome lists a tab of the site, [extract_videos_from_tab]
    never raises: whatever goes wrong while the data file is loaded and
    processed is caught, reported, and turned into an empty list; the same
    failure on the manual path of [extract_videos_manually] (Chrome not
    available) is raised to the caller unless it is a missing file or
    malformed JSON.  A tab without [webSocketDebuggerUrl] yields no
    videos, and the data file is not read. *)
Theorem tab_path_swallows_errors {rt : Runtime} (tab : pyval) (w : world)
    (n : nat) :
  (exists videos t,
     GrantCardoneDownloader.extract_videos_from_tab tab w n
     = (Ret videos, t, n))
  /\ (forall d e t k,
        tab = PDict d ->
        truthy (value_or (dict_lookup d (lit "webSocketDebuggerUrl")) PNone)
        = true ->
        GrantCardoneDownloader.extract_videos_manually w n = (Raise e, t, k) ->
        GrantCardoneDownloader.extract_videos_from_tab tab w n
        = (Ret [], t ++ [Print (OtherError e)], k))
  /\ (forall d,
        tab = PDict d ->
        truthy (value_or (dict_lookup d (lit "webSocketDebuggerUrl")) PNone)
        = false ->
        GrantCardoneDownloader.extract_videos_from_tab tab w n
        = (Ret [], [Print NoWebSocketUrl], n)).
Proof.
  split; [|split].
  - unfold GrantCardoneDownloader.extract_videos_from_tab.
    destruct tab as [| | | |l|d];
      try (eexists _, _; unfold try_except, bind, lift; cbn; reflexivity).
    rewrite py_get_dict.
    destruct (truthy (value_or (dict_lookup d (lit "webSocketDebuggerUrl")) PNone))
      eqn:Hws.
    + destruct (GrantCardoneDownloader.extract_videos_manually w n)
        as [[[videos|e] t] k] eqn:Hm;
        pose proof (extract_videos_manually_counter w n) as Hk;
        rewrite Hm in Hk; cbn [snd] in Hk; subst k.
      * exists videos, t. apply try_ret_eq.
        rewrite bind_lift_ret, Hws. exact Hm.
      * eexists _, _.
        rewrite (@try_raise_eq _ _ _ w n e t n)
          by (rewrite bind_lift_ret, Hws; exact Hm).
        reflexivity.
    + eexists _, _. apply try_ret_eq. rewrite bind_lift_ret, Hws.
      reflexivity.
  - intros d e t k -> Hws Hm.
    unfold GrantCardoneDownloader.extract_videos_from_tab.
    rewrite py_get_dict.
    rewrite (@try_raise_eq _ _ _ w n e t k)
      by (rewrite bind_lift_ret, Hws; exact Hm).
    reflexivity.
  - intros d -> Hws.
    unfold GrantCardoneDownloader.extract_videos_from_tab.
    rewrite py_get_dict. apply try_ret_eq.
    rewrite bind_lift_ret, Hws. reflexivity.
Qed.

(** X10 on sample inputs: an item whose title is a number. *)
Lemma tab_path_swallows_errors_witness :
  @GrantCardoneDownloader.extract_videos_manually latin1_runtime
    (sample_world GrantCardoneDownloader.data_file
       (Json (PList [PDict [(lit "title", PInt 5)]])) first_fails) 0
  = (Raise TypeError, [], 0)
  /\ @GrantCardoneDownloader.extract_videos_from_tab latin1_runtime
       (PDict [(lit "webSocketDebuggerUrl", PStr (lit "ws://localhost:9222/x"))])
       (sample_world GrantCardoneDownloader.data_file
          (Json (PList [PDict [(lit "title", PInt 5)]])) first_fails) 0
     = (Ret [], [Print (OtherError TypeError)], 0).
Proof.
  assert (H : @GrantCardoneDownloader.extract_videos_manually latin1_runtime
                (sample_world GrantCardoneDownloader.data_file
                   (Json (PList [PDict [(lit "title", PInt 5)]])) first_fails) 0
              = (Raise TypeError, [], 0)) by reflexivity.
  split; [exact H|].
  exact (proj1 (proj2 (@tab_path_swallows_errors latin1_runtime
                  (PDict [(lit "webSocketDebuggerUrl",
                           PStr (lit "ws://localhost:9222/x"))])
                  (sample_world GrantCardoneDownloader.data_file
                     (Json (PList [PDict [(lit "title", PInt 5)]])) first_fails)
                  0))
           _ TypeError [] 0 eq_refl eq_refl H).
Defined.

Lemma successes_none limit w m : forall n,
  (forall k, succeeds limit (procs w k) = false) ->
  successes limit w n m = 0%N.
Proof.
  induction m as [|m IH]; intros n H; [reflexivity|].
  now rewrite successes_S, H, IH.
Qed.

(** X11: when [yt-dlp] is not installed, [grant_cardone_downloader.py]
    stops at the first record: [download_all_videos] raises
    [FileNotFoundError] after one attempt and prints no summary;
    [interactive_extractor.py] catches the error for every record, counts
    each as failed and ends its loop normally. *)
Theorem downloader_missing_tool {rt : Runtime} (w : world) (n : nat) :
  (forall k, procs w k = NotInstalled) ->
  (forall v rest,
     processed_ok v = true ->
     exists args,
       GrantCardoneDownloader.download_all_videos (v :: rest) w n
       = (Raise FileNotFoundError, [Run args None], S n))
  /\ (forall videos,
        Forall (fun v => record_ok v = true) videos ->
        exists t,
          InteractiveExtractor.loop 1 videos 0 0 w n
          = (Ret (0%N, N.of_nat (List.length (downloadable videos))), t,
             n + List.length (downloadable videos))).
Proof.
  intros Hmissing. split.
  - intros v rest Hv.
    destruct (@processed_ok_inv v Hv) as (d & u & name & title & -> & Hu & Hn & Ht).
    eexists.
    unfold GrantCardoneDownloader.download_all_videos.
    cbn [GrantCardoneDownloader.loop].
    unfold GrantCardoneDownloader.download_video.
    rewrite (py_item_some _ _ Hu), (py_item_some _ _ Hn), (py_item_some _ _ Ht).
    run. unfold subprocess_run.
    cbn [GrantCardoneDownloader.cmd as_args]. rewrite Hmissing.
    reflexivity.
  - intros videos Hok.
    destruct (@interactive_loop_spec rt videos Hok 1%N 0%N 0%N w n)
      as (t & Ht & _).
    exists t. rewrite Ht.
    pose proof (tally_total (Some 300%N) w
                  (List.length (downloadable videos)) n) as Htotal.
    rewrite successes_none in Htotal |- *
      by (intros k; now rewrite Hmissing).
    repeat f_equal. lia.
Qed.

(** X11 on sample inputs. *)
Lemma downloader_missing_tool_witness :
  (exists args,
     @GrantCardoneDownloader.download_all_videos latin1_runtime
       [processed_a; processed_a]
       (sample_world GrantCardoneDownloader.data_file Absent
          (fun _ => NotInstalled)) 0
     = (Raise FileNotFoundError, [Run args None], 1))
  /\ (exists t,
        @InteractiveExtractor.loop latin1_runtime 1
          [video_a; lesson_b; video_a_query] 0 0
          (sample_world GrantCardoneDownloader.data_file Absent
             (fun _ => NotInstalled)) 0
        = (Ret (0%N, 2%N), t, 2)).
Proof.
  pose proof (@downloader_missing_tool latin1_runtime
                (sample_world GrantCardoneDownloader.data_file Absent
                   (fun _ => NotInstalled)) 0 (fun _ => eq_refl))
    as [Hstop Hcount].
  split.
  - apply Hstop. reflexivity.
  - apply (Hcount [video_a; lesson_b; video_a_query]). repeat constructor.
Defined.

(** ** GRANT_CARDONE_MASTER.py: the tool check and the batch *)

Lemma master_write_entries {rt : Runtime} videos :
  Forall (fun v => record_ok v = true) videos ->
  forall i, exists content,
    GrantCardoneMaster.write_entries i videos = (content, Ret tt).
Proof.
  induction 1 as [|v rest Hv _ IH]; intros i; [now exists []|].
  cbn [GrantCardoneMaster.write_entries].
  rewrite (@master_entry rt i v Hv).
  destruct (IH (N.succ i)) as (content & ->).
  eexists. reflexivity.
Qed.

(** What [check_aria2c] does, by the behaviour of [aria2c --version] (the
    n-th command) and of [brew install aria2] (the next one). *)
Lemma check_aria2c_cases w n :
  GrantCardoneMaster.check_aria2c w n
  = if succeeds None (procs w n)
    then (Ret true,
          [Run [lit "aria2c"; lit "--version"] None; Print ToolReady], S n)
    else
      match procs w (S n) with
      | NotInstalled =>
          (Raise FileNotFoundError,
           [Run [lit "aria2c"; lit "--version"] None; Print ToolInstalling;
            Run [lit "brew"; lit "install"; lit "aria2"] None],
           S (S n))
      | Exits _ code =>
          (Ret (Z.eqb code 0),
           [Run [lit "aria2c"; lit "--version"] None; Print ToolInstalling;
            Run [lit "brew"; lit "install"; lit "aria2"] None;
            Print (if Z.eqb code 0 then ToolInstalled else ToolInstallFailed)],
           S (S n))
      end.
Proof.
  unfold GrantCardoneMaster.check_aria2c. run. unfold subprocess_run.
  cbn [as_args].
  destruct (procs w n) as [|secs code]; cbn [succeeds andb];
    [|destruct (Z.eqb code 0); cbn [negb andb]];
    try reflexivity;
    (destruct (procs w (S n)) as [|secs' code']; cbn [andb];
     [|destruct (Z.eqb code' 0); cbn [negb]]; reflexivity).
Qed.

(** X12: [check_aria2c] of [GRANT_CARDONE_MASTER.py] reports [True]
    exactly when [aria2c --version] or the following [brew install aria2]
    exits with 0; [brew] is started exactly when [aria2c --version] did not
    exit with 0; the one exception that escapes is [FileNotFoundError],
    when [brew] itself is missing; nothing is written. *)
Theorem tool_check_outcomes (w : world) (n : nat) :
  (outcome_of (GrantCardoneMaster.check_aria2c w n) = Ret true
   <-> succeeds None (procs w n) = true
       \/ succeeds None (procs w (S n)) = true)
  /\ (In (lit "brew")
         (map (fun inv => hd [] (fst inv))
            (invocations (trace_of (GrantCardoneMaster.check_aria2c w n))))
      <-> succeeds None (procs w n) = false)
  /\ (forall e,
        outcome_of (GrantCardoneMaster.check_aria2c w n) = Raise e
        <-> e = FileNotFoundError
            /\ succeeds None (procs w n) = false
            /\ procs w (S n) = NotInstalled)
  /\ written (trace_of (GrantCardoneMaster.check_aria2c w n)) = [].
Proof.
  rewrite check_aria2c_cases.
  destruct (succeeds None (procs w n)) eqn:Htool.
  - cbn. intuition (discriminate || congruence).
  - destruct (procs w (S n)) as [|secs code] eqn:Hbrew.
    + cbn. intuition (discriminate || congruence).
    + cbn [succeeds andb outcome_of trace_of fst snd].
      destruct (Z.eqb code 0); cbn; intuition (discriminate || congruence).
Qed.

(** X13: [download_videos] of [GRANT_CARDONE_MASTER.py] does not look at
    what [check_aria2c] returned: also after a failed installation it
    writes the configuration and the input file and starts [aria2c] with
    the absolute paths of both; it reports [DOWNLOAD COMPLETE] whatever
    the exit code, and the missing tool otherwise. *)
Theorem master_download_ignores_check {rt : Runtime} (w : world) (n : nat)
    (v : pyval) (rest : list pyval) (b : bool) (t : list event) (k : nat) :
  Forall (fun x => record_ok x = true) (v :: rest) ->
  GrantCardoneMaster.check_aria2c w n = (Ret b, t, k) ->
  exists content,
    GrantCardoneMaster.download_videos (PList (v :: rest)) w n
    = (Ret tt,
       t ++ [WriteFile GrantCardoneMaster.config_file
               (GrantCardoneMaster.config w);
             WriteFile GrantCardoneMaster.input_file content;
             Run [lit "aria2c";
                  lit "--conf-path="
                    ++ base_path w GrantCardoneMaster.config_file;
                  lit "--input-file="
                    ++ base_path w GrantCardoneMaster.input_file;
                  lit "--show-console-readout=true";
                  lit "--summary-interval=30";
                  lit "--human-readable=true"] None;
             Print match procs w k with
                   | NotInstalled => ToolNotFound
                   | Exits _ _ => DownloadComplete
                   end],
       S k).
Proof.
  intros Hok Hcheck.
  destruct (@master_write_entries rt (v :: rest) Hok 1%N) as (content & Hc).
  exists content.
  unfold GrantCardoneMaster.download_videos. cbn [truthy negb py_len].
  rewrite bind_lift_ret.
  rewrite (@bind_ret_eq _ _ _ _ w n _ _ _ Hcheck).
  unfold GrantCardoneMaster.create_aria2_config,
    GrantCardoneMaster.create_aria2_input_file.
  cbn [py_iter]. rewrite Hc. run. unfold subprocess_run.
  cbn [GrantCardoneMaster.cmd as_args andb].
  unfold prepend, outcome_of, trace_of.
  destruct (procs w k) as [|secs code]; cbn [fst snd app]; reflexivity.
Qed.

(** X13 on sample inputs: [aria2c] is missing and [brew install] fails. *)
Lemma master_download_ignores_check_witness :
  exists content,
    @GrantCardoneMaster.download_videos latin1_runtime (PList [video_a])
      (sample_world GrantCardoneMaster.videos_file Absent
         (fun k => match k with 1 => Exits 5 1 | _ => NotInstalled end)) 0
    = (Ret tt,
       [Run [lit "aria2c"; lit "--version"] None; Print ToolInstalling;
        Run [lit "brew"; lit "install"; lit "aria2"] None;
        Print ToolInstallFailed]
       ++ [WriteFile GrantCardoneMaster.config_file
             (GrantCardoneMaster.config
                (sample_world GrantCardoneMaster.videos_file Absent
                   (fun k => match k with
                             | 1 => Exits 5 1
                             | _ => NotInstalled
                             end)));
           WriteFile GrantCardoneMaster.input_file content;
           Run [lit "aria2c";
                lit "--conf-path=" ++ lit "/home/me/gc/aria2.conf";
                lit "--input-file=" ++ lit "/home/me/gc/aria2_downloads.txt";
                lit "--show-console-readout=true";
                lit "--summary-interval=30";
                lit "--human-readable=true"] None;
           Print ToolNotFound],
       3).
Proof.
  apply (@master_download_ignores_check latin1_runtime
           (sample_world GrantCardoneMaster.videos_file Absent
              (fun k => match k with 1 => Exits 5 1 | _ => NotInstalled end))
           0 video_a [] false
           [Run [lit "aria2c"; lit "--version"] None; Print ToolInstalling;
            Run [lit "brew"; lit "install"; lit "aria2"] None;
            Print ToolInstallFailed] 2).
  - repeat constructor.
  - reflexivity.
Defined.

(** X14: when [aria2c --version] does not exit with 0 and [brew] is not
    installed, [download_videos] of [GRANT_CARDONE_MASTER.py] ends with an
    uncaught [FileNotFoundError] after the two commands of the tool check:
    no file has been written and [aria2c] has not been given any work. *)
Theorem master_download_without_brew {rt : Runtime} (w : world) (n : nat)
    (v : pyval) (rest : list pyval) :
  succeeds None (procs w n) = false ->
  procs w (S n) = NotInstalled ->
  exists t,
    GrantCardoneMaster.download_videos (PList (v :: rest)) w n
    = (Raise FileNotFoundError, t, S (S n))
    /\ written t = []
    /\ map (fun inv => hd [] (fst inv)) (invocations t)
       = [lit "aria2c"; lit "brew"].
Proof.
  intros Htool Hbrew.
  pose proof (check_aria2c_cases w n) as Hcheck.
  rewrite Htool, Hbrew in Hcheck.
  eexists. split; [|split].
  - unfold GrantCardoneMaster.download_videos. cbn [truthy negb py_len].
    rewrite bind_lift_ret.
    apply (@bind_raise_eq _ _ _ _ w n _ _ _ Hcheck).
  - reflexivity.
  - reflexivity.
Qed.

(** X14 on sample inputs. *)
Lemma master_download_without_brew_witness :
  exists t,
    @GrantCardoneMaster.download_videos latin1_runtime (PList [video_a])
      (sample_world GrantCardoneMaster.videos_file Absent
         (fun _ => NotInstalled)) 0
    = (Raise FileNotFoundError, t, 2)
    /\ written t = []
    /\ map (fun inv => hd [] (fst inv)) (invocations t)
       = [lit "aria2c"; lit "brew"].
Proof.
  apply (@master_download_without_brew latin1_runtime
           (sample_world GrantCardoneMaster.videos_file Absent
              (fun _ => NotInstalled)) 0 video_a []);
    reflexivity.
Defined.

(** ** The choice of the data file *)

Lemma master_try_videos {rt : Runtime} name w n data v rest :
  files w name = Json data ->
  py_get data (lit "videos") (PList []) = Ret (PList (v :: rest)) ->
  GrantCardoneMaster.try_stage2_file name w n
  = (Ret (Some (PList (v :: rest))),
     [Print (StageComplete (N.of_nat (List.length (v :: rest))))], n).
Proof.
  intros Hfile Hget. unfold GrantCardoneMaster.try_stage2_file. run.
  rewrite Hfile. run. rewrite Hfile. run. rewrite Hget. reflexivity.
Qed.

(** X15: [check_stage2_complete] of [GRANT_CARDONE_MASTER.py] returns the
    videos of [grantcardone_complete.json] when that file has some,
    whatever [grantcardone_videos.json] holds, and falls back to
    [grantcardone_videos.json] when the first file is missing, holds text
    that is not JSON, or holds an object with an empty [videos] list.
    [QUICK_START.py] has no such fallback: a first file that exists in
    one of these states ends [download_with_aria2c] with nothing written
    and nothing started, also beside a good second file.  Neither script
    gets over a first file that cannot be decoded as UTF-8 or that nests
    too deep: the exception of [json.load] leaves both functions, and the
    second file is not read. *)
Theorem data_file_choice {rt : Runtime} (w : world) (n : nat)
    (data : pyval) (v : pyval) (rest : list pyval) :
  py_get data (lit "videos") (PList []) = Ret (PList (v :: rest)) ->
  (files w GrantCardoneMaster.complete_file = Json data ->
   GrantCardoneMaster.check_stage2_complete w n
   = (Ret (PList (v :: rest)),
      [Print (StageComplete (N.of_nat (List.length (v :: rest))))], n))
  /\ (no_videos (files w GrantCardoneMaster.complete_file) = true ->
      files w GrantCardoneMaster.videos_file = Json data ->
      GrantCardoneMaster.check_stage2_complete w n
      = (Ret (PList (v :: rest)),
         [Print (StageComplete (N.of_nat (List.length (v :: rest))))], n)
      /\ (files w QuickStart.complete_file <> Absent ->
          outcome_of (QuickStart.download_with_aria2c w n) = Ret tt
          /\ written (trace_of (QuickStart.download_with_aria2c w n)) = []
          /\ invocations (trace_of (QuickStart.download_with_aria2c w n))
             = []))
  /\ (forall e,
        reading_fails (files w GrantCardoneMaster.complete_file) = Some e ->
        GrantCardoneMaster.check_stage2_complete w n = (Raise e, [], n)
        /\ QuickStart.download_with_aria2c w n = (Raise e, [], n)).
Proof.
  intros Hget. split; [|split].
  - intros Hfile. unfold GrantCardoneMaster.check_stage2_complete.
    rewrite (@bind_ret_eq _ _ _ _ w n _ _ _
               (@master_try_videos rt _ w n data v rest Hfile Hget)).
    reflexivity.
  - intros Hnone Hfile. split.
    + unfold GrantCardoneMaster.check_stage2_complete.
      rewrite (@bind_ret_eq _ _ _ _ w n _ _ _
                 (@master_try_no_videos rt _ w n Hnone)).
      rewrite prepend_nil.
      rewrite (@bind_ret_eq _ _ _ _ w n _ _ _
                 (@master_try_videos rt _ w n data v rest Hfile Hget)).
      reflexivity.
    + intros Hthere.
      unfold QuickStart.download_with_aria2c. run.
      change QuickStart.complete_file with GrantCardoneMaster.complete_file
        in *.
      destruct (files w GrantCardoneMaster.complete_file)
        as [| |first| |] eqn:E; try discriminate Hnone; [congruence| |];
        run; rewrite ?E; run.
      * repeat split.
      * destruct (no_videos_inv _ Hnone) as (d & -> & Hd).
        cbn [py_get]. rewrite Hd. repeat split.
  - intros e He.
    unfold GrantCardoneMaster.check_stage2_complete,
      GrantCardoneMaster.try_stage2_file, QuickStart.download_with_aria2c.
    run.
    change QuickStart.complete_file with GrantCardoneMaster.complete_file.
    destruct (files w GrantCardoneMaster.complete_file)
      as [| |first| |] eqn:E; try discriminate He;
      injection He as <-; run; rewrite ?E; run; split; reflexivity.
Qed.

(** X15 on sample inputs: a first file that is not JSON, and one that is
    not UTF-8, beside a good second one. *)
Lemma data_file_choice_witness :
  @GrantCardoneMaster.check_stage2_complete
    (sample_pair Garbled (Json (PDict [(lit "videos", PList [video_a])]))
       (fun _ => Exits 2 0)) 0
  = (Ret (PList [video_a]), [Print (StageComplete 1)], 0)
  /\ (outcome_of
        (@QuickStart.download_with_aria2c latin1_runtime
           (sample_pair Garbled
              (Json (PDict [(lit "videos", PList [video_a])]))
              (fun _ => Exits 2 0)) 0) = Ret tt
      /\ written
           (trace_of
              (@QuickStart.download_with_aria2c latin1_runtime
                 (sample_pair Garbled
                    (Json (PDict [(lit "videos", PList [video_a])]))
                    (fun _ => Exits 2 0)) 0)) = []
      /\ invocations
           (trace_of
              (@QuickStart.download_with_aria2c latin1_runtime
                 (sample_pair Garbled
                    (Json (PDict [(lit "videos", PList [video_a])]))
                    (fun _ => Exits 2 0)) 0)) = [])
  /\ (@GrantCardoneMaster.check_stage2_complete
        (sample_pair NotUtf8
           (Json (PDict [(lit "videos", PList [video_a])]))
           (fun _ => Exits 2 0)) 0
      = (Raise UnicodeDecodeError, [], 0)
      /\ @QuickStart.download_with_aria2c latin1_runtime
           (sample_pair NotUtf8
              (Json (PDict [(lit "videos", PList [video_a])]))
              (fun _ => Exits 2 0)) 0
         = (Raise UnicodeDecodeError, [], 0)).
Proof.
  split.
  - exact (proj1 (proj1 (proj2 (@data_file_choice latin1_runtime
                      (sample_pair Garbled
                         (Json (PDict [(lit "videos", PList [video_a])]))
                         (fun _ => Exits 2 0))
                      0
                      (PDict [(lit "videos", PList [video_a])]) video_a []
                      eq_refl))
                   eq_refl eq_refl)).
  - split.
    + refine (proj2 (proj1 (proj2 (@data_file_choice latin1_runtime
                      (sample_pair Garbled
                         (Json (PDict [(lit "videos", PList [video_a])]))
                         (fun _ => Exits 2 0))
                      0
                      (PDict [(lit "videos", PList [video_a])]) video_a []
                      eq_refl))
                   eq_refl eq_refl) (fun E => _)).
      discriminate E.
    + exact (proj2 (proj2 (@data_file_choice latin1_runtime
                      (sample_pair NotUtf8
                         (Json (PDict [(lit "videos", PList [video_a])]))
                         (fun _ => Exits 2 0))
                      0
                      (PDict [(lit "videos", PList [video_a])]) video_a []
                      eq_refl))
               UnicodeDecodeError eq_refl).
Defined.

(** X16: [run] of [QUICK_START.py] writes [aria2.conf] before anything
    else, whatever the directory holds; the text depends on the download
    directory only.  Without a data file that is all it does: no command
    is started and nothing else is written. *)
Theorem quickstart_run_configures {rt : Runtime} (w : world) (n : nat) :
  (exists t,
     trace_of (QuickStart.run w n)
     = WriteFile QuickStart.config_file (QuickStart.config w) :: t)
  /\ (files w QuickStart.complete_file = Absent ->
      files w QuickStart.videos_file = Absent ->
      QuickStart.run w n
      = (Ret tt,
         [WriteFile QuickStart.config_file (QuickStart.config w)], n))
  /\ (forall w',
        abs_download_dir w' = abs_download_dir w ->
        QuickStart.config w' = QuickStart.config w).
Proof.
  assert (Hsetup : QuickStart.setup_aria2c w n
                   = (Ret tt,
                      [WriteFile QuickStart.config_file (QuickStart.config w)],
                      n)) by reflexivity.
  split; [|split].
  - unfold QuickStart.run. rewrite !bind_exists_file.
    destruct (_ || _).
    + rewrite (@bind_ret_eq _ _ _ _ w n _ _ _ Hsetup).
      eexists. reflexivity.
    + rewrite Hsetup. eexists. reflexivity.
  - intros H1 H2. unfold QuickStart.run. rewrite !bind_exists_file.
    rewrite H1, H2. exact Hsetup.
  - intros w' H. unfold QuickStart.config. now rewrite H.
Qed.

(** X16 on sample inputs: an empty directory. *)
Lemma quickstart_run_configures_witness :
  @QuickStart.run latin1_runtime
    (sample_pair Absent Absent (fun _ => Exits 2 0)) 0
  = (Ret tt,
     [WriteFile QuickStart.config_file
        (QuickStart.config (sample_pair Absent Absent (fun _ => Exits 2 0)))],
     0).
Proof.
  exact (proj1 (proj2 (@quickstart_run_configures latin1_runtime
                         (sample_pair Absent Absent (fun _ => Exits 2 0)) 0))
           eq_refl eq_refl).
Defined.

(** ** The duplicate filter: which record is kept *)

Module FirstRecord.
Import AutomatedScraper.

Lemma same_url_seen seen x u :
  str_eqb (url x) u = true ->
  existsb (fun v => str_eqb (url v) u) seen
  = existsb (fun v => str_eqb (url v) (url x)) seen.
Proof. intros H. apply str_eqb_eq in H. now subst u. Qed.

Lemma find_first_seen u l : forall seen,
  find (fun v => str_eqb (url v) u) (first_seen seen l)
  = if existsb (fun v => str_eqb (url v) u) seen then None
    else find (fun v => str_eqb (url v) u) l.
Proof.
  induction l as [|x r IH]; intros seen; cbn [first_seen find].
  - now destruct (existsb _ seen).
  - destruct (existsb (fun v => str_eqb (url v) (url x)) seen) eqn:Hx;
      cbn [find]; rewrite ?IH, existsb_app; cbn [existsb];
      rewrite orb_false_r;
      destruct (str_eqb (url x) u) eqn:Hu;
      rewrite ?(same_url_seen seen x u Hu), ?Hx, ?orb_false_r;
      cbn [orb]; try reflexivity;
      now destruct (existsb (fun v => str_eqb (url v) u) seen).
Qed.

Lemma first_seen_fixed l : forall seen,
  NoDup (map url (seen ++ l)) -> first_seen seen l = l.
Proof.
  induction l as [|x r IH]; intros seen Hnd; [reflexivity|].
  cbn [first_seen].
  assert (Hfresh : existsb (fun v => str_eqb (url v) (url x)) seen = false).
  { destruct (existsb _ seen) eqn:E; [|reflexivity].
    apply DuplicateFacts.existsb_same_url in E.
    rewrite map_app in Hnd. cbn [map] in Hnd.
    apply NoDup_remove_2 in Hnd. exfalso. apply Hnd.
    apply in_or_app. now left. }
  rewrite Hfresh. f_equal. apply IH.
  now rewrite <- app_assoc.
Qed.

Lemma first_seen_length l : forall seen,
  List.length (first_seen seen l) <= List.length l.
Proof.
  induction l as [|x r IH]; intros seen; cbn [first_seen List.length];
    [lia|].
  specialize (IH (seen ++ [x])).
  destruct (existsb _ seen); cbn [List.length]; lia.
Qed.

End FirstRecord.

(** X17: of the records of a page with one URL the filter of the generated
    JavaScript keeps the first, with its title and source; a page without
    duplicates is returned as it is, so filtering twice changes nothing;
    the result is never longer than the page. *)
Theorem duplicates_keep_first :
  (forall l u,
     find (fun v => str_eqb (AutomatedScraper.url v) u)
       (AutomatedScraper.remove_duplicates l)
     = find (fun v => str_eqb (AutomatedScraper.url v) u) l)
  /\ (forall l,
        NoDup (map AutomatedScraper.url l) ->
        AutomatedScraper.remove_duplicates l = l)
  /\ (forall l,
        AutomatedScraper.remove_duplicates
          (AutomatedScraper.remove_duplicates l)
        = AutomatedScraper.remove_duplicates l)
  /\ (forall l,
        List.length (AutomatedScraper.remove_duplicates l) <= List.length l).
Proof.
  assert (Hfixed : forall l, NoDup (map AutomatedScraper.url l) ->
                     AutomatedScraper.remove_duplicates l = l).
  { intros l Hnd. rewrite DuplicateFacts.remove_duplicates_first_seen.
    now apply FirstRecord.first_seen_fixed. }
  repeat split.
  - intros l u. rewrite DuplicateFacts.remove_duplicates_first_seen.
    apply FirstRecord.find_first_seen.
  - exact Hfixed.
  - intros l. apply Hfixed.
    rewrite DuplicateFacts.remove_duplicates_first_seen.
    apply DuplicateFacts.first_seen_sound.
  - intros l. rewrite DuplicateFacts.remove_duplicates_first_seen.
    apply FirstRecord.first_seen_length.
Qed.

(** X17 on sample inputs: the two sample records differ in the query
    mark. *)
Lemma duplicates_keep_first_witness :
  NoDup (map AutomatedScraper.url [page_a; page_a_query])
  /\ AutomatedScraper.remove_duplicates [page_a; page_a_query]
     = [page_a; page_a_query].
Proof.
  assert (H : NoDup (map AutomatedScraper.url [page_a; page_a_query])).
  { repeat constructor; cbn; intuition discriminate. }
  split; [exact H|].
  exact (proj1 (proj2 duplicates_keep_first) [page_a; page_a_query] H).
Defined.

(** ** advanced_extractor.py: the records of a response *)

(** Induction on a value through its lists and dicts. *)
Lemma pyval_nested_ind (P : pyval -> Prop) :
  P PNone ->
  (forall b, P (PBool b)) ->
  (forall z, P (PInt z)) ->
  (forall s, P (PStr s)) ->
  (forall l, Forall P l -> P (PList l)) ->
  (forall d, Forall (fun entry => P (snd entry)) d -> P (PDict d)) ->
  forall v, P v.
Proof.
  intros Hnone Hbool Hint Hstr Hlist Hdict.
  fix IH 1. intros [|b|z|s|l|d].
  - exact Hnone.
  - apply Hbool.
  - apply Hint.
  - apply Hstr.
  - apply Hlist. induction l as [|x l IHl]; constructor; [apply IH|exact IHl].
  - apply Hdict. induction d as [|[k x] d IHd]; constructor;
      [apply IH|exact IHd].
Qed.

Lemma numbered_from_app {rt : Runtime} a : forall position b,
  numbered_from position a ->
  numbered_from (position + N.of_nat (List.length a)) b ->
  numbered_from position (a ++ b).
Proof.
  induction a as [|r a IH]; intros position b Ha Hb; cbn [app List.length] in *.
  - now rewrite N.add_0_r in Hb.
  - destruct Ha as [Hr Ha]. split; [exact Hr|].
    apply IH; [exact Ha|].
    replace (N.succ position + N.of_nat (List.length a))%N
      with (position + N.of_nat (S (List.length a)))%N by lia.
    exact Hb.
Qed.

Lemma appends_nothing {rt : Runtime} : appends (fun videos => Ret videos).
Proof.
  intros videos. exists []. split; [now rewrite app_nil_r|exact I].
Qed.

Lemma appends_then {rt : Runtime} first second :
  appends first -> appends second ->
  appends (fun videos => obind (first videos) second).
Proof.
  intros Hfirst Hsecond videos.
  specialize (Hfirst videos).
  destruct (first videos) as [mid|e]; cbn [obind]; [|exact Hfirst].
  destruct Hfirst as (a & -> & Ha).
  specialize (Hsecond (videos ++ a)).
  destruct (second (videos ++ a)) as [videos'|e]; [|exact Hsecond].
  destruct Hsecond as (b & -> & Hb).
  exists (a ++ b). split; [now rewrite app_assoc|].
  apply numbered_from_app; [exact Ha|].
  rewrite length_app in Hb.
  replace (N.succ (N.of_nat (List.length videos)) + N.of_nat (List.length a))%N
    with (N.succ (N.of_nat (List.length videos + List.length a))) by lia.
  exact Hb.
Qed.

Lemma for_each_appends {rt : Runtime} {A}
    (body : A -> list pyval -> outcome (list pyval)) items :
  Forall (fun x => appends (body x)) items ->
  appends (AdvancedCardoneExtractor.for_each body items).
Proof.
  induction 1 as [|x rest Hx _ IH]; cbn [AdvancedCardoneExtractor.for_each].
  - apply appends_nothing.
  - exact (appends_then Hx IH).
Qed.

Lemma found_video_appends {rt : Runtime} item :
  appends (AdvancedCardoneExtractor.found_video item).
Proof.
  intros videos. unfold AdvancedCardoneExtractor.found_video. cbv zeta.
  destruct (truthy (AdvancedCardoneExtractor.py_or _ _)) eqn:Hurl;
    [|apply appends_nothing].
  destruct (AdvancedCardoneExtractor.py_or
              (AdvancedCardoneExtractor.get item "title") _)
    as [| | |t| |]; cbn [safe_title_of obind]; try reflexivity.
  eexists. split; [reflexivity|].
  split; [|exact I].
  eexists _, _, _, _. split; [reflexivity|exact Hurl].
Qed.

Lemma process_item_appends {rt : Runtime} item :
  appends (AdvancedCardoneExtractor.process_item item).
Proof.
  induction item as [| | | |l IH|d IH] using pyval_nested_ind;
    try apply appends_nothing.
  - exact (for_each_appends _ IH).
  - cbn [AdvancedCardoneExtractor.process_item].
    apply (@appends_then rt (AdvancedCardoneExtractor.found_video d)).
    + apply found_video_appends.
    + apply for_each_appends.
      eapply Forall_impl; [|exact IH].
      intros [k value] Hvalue. cbn [snd] in Hvalue.
      destruct value; try apply appends_nothing; exact Hvalue.
Qed.

Lemma numbered_from_nth {rt : Runtime} videos : forall position i r,
  numbered_from position videos ->
  nth_error videos i = Some r ->
  built_at (position + N.of_nat i) r.
Proof.
  induction videos as [|x rest IH]; intros position [|i] r H Hnth;
    cbn [nth_error] in Hnth; try discriminate.
  - injection Hnth as <-. rewrite N.add_0_r. apply H.
  - replace (position + N.of_nat (S i))%N with (N.succ position + N.of_nat i)%N
      by lia.
    apply IH; [apply H|exact Hnth].
Qed.

Lemma numbered_from_all {rt : Runtime} videos : forall position,
  numbered_from position videos ->
  Forall (fun r => exists position, built_at position r) videos.
Proof.
  induction videos as [|r rest IH]; intros position H; constructor.
  - exists position. apply H.
  - apply (IH (N.succ position)), H.
Qed.

Lemma extract_numbered {rt : Runtime} data :
  match AdvancedCardoneExtractor.extract_videos_from_response data with
  | Ret videos => numbered_from 1 videos
  | Raise e => e = TypeError
  end.
Proof.
  unfold AdvancedCardoneExtractor.extract_videos_from_response.
  pose proof (process_item_appends data []) as H.
  destruct (AdvancedCardoneExtractor.process_item data []) as [videos|e];
    [|exact H].
  destruct H as (added & -> & Hadded). exact Hadded.
Qed.

(** X18: [extract_videos_from_response] either raises [TypeError] or
    returns records that are numbered from 001 in the order they were
    found, without gaps: the record at index [i] has a string title, a URL
    that counts as true, the file name [i+1] (three digits at least), a
    hyphen and the sanitized title, and the empty program; no other
    exception is raised. *)
Theorem response_records {rt : Runtime} (data : pyval) :
  match AdvancedCardoneExtractor.extract_videos_from_response data with
  | Ret videos =>
      forall i r, nth_error videos i = Some r -> built_at (N.of_nat (S i)) r
  | Raise e => e = TypeError
  end.
Proof.
  pose proof (extract_numbered data) as H.
  destruct (AdvancedCardoneExtractor.extract_videos_from_response data)
    as [videos|e]; [|exact H].
  intros i r Hnth.
  replace (N.of_nat (S i)) with (1 + N.of_nat i)%N by lia.
  exact (@numbered_from_nth rt videos 1%N i r H Hnth).
Qed.

Lemma py_or_text a b :
  text_or_false a = true ->
  (exists s, b = PStr s) ->
  exists s, AdvancedCardoneExtractor.py_or a b = PStr s.
Proof.
  intros Ha Hb. unfold AdvancedCardoneExtractor.py_or.
  destruct (truthy a) eqn:Ht; [|exact Hb].
  destruct a; cbn [text_or_false] in Ha; try (rewrite Ht in Ha; discriminate).
  eauto.
Qed.

Lemma found_video_counted {rt : Runtime} item :
  forallb (fun key => text_or_false (AdvancedCardoneExtractor.get item key))
    ["title"; "name"; "lesson_title"; "video_title"]%string = true ->
  forall videos,
  exists added,
    AdvancedCardoneExtractor.found_video item videos = Ret (videos ++ added)
    /\ List.length added = if truthy (video_url_of item) then 1 else 0.
Proof.
  intros Hfields videos.
  cbn [forallb] in Hfields.
  apply andb_true_iff in Hfields. destruct Hfields as [H1 Hfields].
  apply andb_true_iff in Hfields. destruct Hfields as [H2 Hfields].
  apply andb_true_iff in Hfields. destruct Hfields as [H3 Hfields].
  apply andb_true_iff in Hfields. destruct Hfields as [H4 _].
  unfold AdvancedCardoneExtractor.found_video. cbv zeta.
  change (AdvancedCardoneExtractor.py_or
            (AdvancedCardoneExtractor.get item "video_url") _)
    with (video_url_of item).
  destruct (truthy (video_url_of item)).
  - destruct (py_or_text _ H1 (py_or_text _ H2 (py_or_text _ H3
               (py_or_text _ H4
                  (ex_intro _ _ (eq_refl
                     : video_n (N.succ (N.of_nat (List.length videos)))
                       = PStr _))))))
      as (t & ->).
    cbn [safe_title_of obind]. eexists. split; reflexivity.
  - exists []. split; [now rewrite app_nil_r|reflexivity].
Qed.

Lemma for_each_counted {A}
    (body : A -> list pyval -> outcome (list pyval)) (count : A -> nat)
    items :
  Forall (fun x => forall videos,
            exists added,
              body x videos = Ret (videos ++ added)
              /\ List.length added = count x) items ->
  forall videos,
  exists added,
    AdvancedCardoneExtractor.for_each body items videos = Ret (videos ++ added)
    /\ List.length added = list_sum (map count items).
Proof.
  induction 1 as [|x rest Hx _ IH]; intros videos;
    cbn [AdvancedCardoneExtractor.for_each map list_sum fold_right].
  - exists []. split; [now rewrite app_nil_r|reflexivity].
  - destruct (Hx videos) as (a & -> & Ha). cbn [obind].
    destruct (IH (videos ++ a)) as (b & -> & Hb).
    exists (a ++ b). split; [now rewrite app_assoc|].
    rewrite length_app. unfold list_sum in *. cbn [fold_right]. lia.
Qed.

Lemma process_item_counted {rt : Runtime} item :
  readable item = true ->
  forall videos,
  exists added,
    AdvancedCardoneExtractor.process_item item videos = Ret (videos ++ added)
    /\ List.length added = url_count item.
Proof.
  induction item as [| | | |l IH|d IH] using pyval_nested_ind;
    intros Hread videos;
    try (exists []; split; [now rewrite app_nil_r|reflexivity]).
  - cbn [readable] in Hread.
    cbn [AdvancedCardoneExtractor.process_item url_count].
    apply for_each_counted.
    rewrite forallb_forall in Hread. rewrite Forall_forall in IH |- *.
    intros x Hx. apply (IH x Hx). now apply Hread.
  - cbn [readable] in Hread. apply andb_true_iff in Hread.
    destruct Hread as [Hfields Hvalues].
    cbn [AdvancedCardoneExtractor.process_item url_count].
    destruct (found_video_counted d Hfields videos) as (a & -> & Ha).
    cbn [obind].
    destruct (@for_each_counted _
                (fun (entry : pystr * pyval) videos =>
                   let (_, value) := entry in
                   match value with
                   | PDict _ | PList _ =>
                       AdvancedCardoneExtractor.process_item value videos
                   | _ => Ret videos
                   end)
                (fun entry : pystr * pyval =>
                   let (_, value) := entry in url_count value)
                d) with (videos := videos ++ a) as (b & Hb & Hlen).
    { rewrite forallb_forall in Hvalues. rewrite Forall_forall in IH |- *.
      intros [k value] Hin. specialize (IH _ Hin). cbn [snd] in IH.
      specialize (Hvalues _ Hin). cbv beta iota in Hvalues.
      intros videos0.
      destruct value;
        try (exists []; split; [now rewrite app_nil_r|reflexivity]);
        now apply IH. }
    rewrite Hb. exists (a ++ b). split; [now rewrite app_assoc|].
    rewrite length_app. lia.
Qed.

(** X19: a response in which the title fields of every dict, at any
    depth, are strings or count as false is read without error, and gives
    one record for every dict that carries a URL. *)
Theorem readable_response {rt : Runtime} (data : pyval) :
  readable data = true ->
  exists videos,
    AdvancedCardoneExtractor.extract_videos_from_response data = Ret videos
    /\ List.length videos = url_count data.
Proof.
  intros Hread.
  destruct (process_item_counted data Hread []) as (added & H & Hlen).
  exists added. split; [exact H|exact Hlen].
Qed.

(** X19 on sample inputs: three of the four dicts carry a URL. *)
Lemma readable_response_witness :
  exists videos,
    @AdvancedCardoneExtractor.extract_videos_from_response latin1_runtime
      response_a = Ret videos
    /\ List.length videos = 3.
Proof.
  exact (@readable_response latin1_runtime response_a eq_refl).
Defined.

Lemma for_each_raises {rt : Runtime} x after before :
  (forall videos,
     AdvancedCardoneExtractor.process_item x videos = Raise TypeError) ->
  forall videos,
    AdvancedCardoneExtractor.for_each AdvancedCardoneExtractor.process_item
      (before ++ x :: after) videos
    = Raise TypeError.
Proof.
  intros Hx. induction before as [|y before IH]; intros videos;
    cbn [app AdvancedCardoneExtractor.for_each].
  - now rewrite Hx.
  - pose proof (process_item_appends y videos) as Hy.
    destruct (AdvancedCardoneExtractor.process_item y videos) as [mid|e];
      cbn [obind]; [apply IH|now subst e].
Qed.

(** X20: a dict that carries a URL and whose [title] counts as true but is
    no string (a number, a list, a dict) makes the whole extraction fail:
    wherever the dict stands in the list of the response,
    [extract_videos_from_response] raises [TypeError], the records found
    before it are lost, and [video_data.extend] is not reached. *)
Theorem unreadable_title_aborts {rt : Runtime}
    (d : list (pystr * pyval)) (before after video_data : list pyval) :
  truthy (video_url_of d) = true ->
  text_or_false (AdvancedCardoneExtractor.get d "title") = false ->
  AdvancedCardoneExtractor.extract_videos_from_response
    (PList (before ++ PDict d :: after))
  = Raise TypeError
  /\ AdvancedCardoneExtractor.extend_video_data video_data
       (PList (before ++ PDict d :: after))
     = Raise TypeError.
Proof.
  intros Hurl Htitle.
  assert (Hd : forall videos,
            AdvancedCardoneExtractor.process_item (PDict d) videos
            = Raise TypeError).
  { intros videos. cbn [AdvancedCardoneExtractor.process_item].
    unfold AdvancedCardoneExtractor.found_video. cbv zeta.
    change (AdvancedCardoneExtractor.py_or
              (AdvancedCardoneExtractor.get d "video_url") _)
      with (video_url_of d).
    rewrite Hurl.
    unfold AdvancedCardoneExtractor.py_or at 1.
    destruct (AdvancedCardoneExtractor.get d "title") as [|b|z|s| |];
      cbn [text_or_false truthy negb] in Htitle |- *;
      try discriminate;
      try (rewrite (negb_false_iff _) in Htitle; rewrite Htitle);
      reflexivity. }
  assert (Hall : AdvancedCardoneExtractor.extract_videos_from_response
                   (PList (before ++ PDict d :: after)) = Raise TypeError).
  { unfold AdvancedCardoneExtractor.extract_videos_from_response.
    cbn [AdvancedCardoneExtractor.process_item].
    now apply for_each_raises. }
  split; [exact Hall|].
  unfold AdvancedCardoneExtractor.extend_video_data.
  rewrite Hall.
  destruct before; reflexivity.
Qed.

(** X20 on sample inputs: the title of the second record is the number
    5. *)
Lemma unreadable_title_aborts_witness :
  @AdvancedCardoneExtractor.extract_videos_from_response latin1_runtime
    (PList ([response_a]
            ++ PDict [(lit "url", PStr (lit "http://x/5"));
                      (lit "title", PInt 5)] :: []))
  = Raise TypeError
  /\ @AdvancedCardoneExtractor.extend_video_data latin1_runtime [video_a]
       (PList ([response_a]
               ++ PDict [(lit "url", PStr (lit "http://x/5"));
                         (lit "title", PInt 5)] :: []))
     = Raise TypeError.
Proof.
  exact (@unreadable_title_aborts latin1_runtime
           [(lit "url", PStr (lit "http://x/5")); (lit "title", PInt 5)]
           [response_a] [] [video_a] eq_refl eq_refl).
Defined.

Lemma join_in_download_dir (b : pystr) :
  (forall c, In c b -> c <> slash) ->
  os_path_join AdvancedCardoneExtractor.download_dir b
  = lit "./grant-cardone-downloads/" ++ b.
Proof.
  intros H. unfold os_path_join.
  destruct b as [|x b]; [reflexivity|].
  destruct (N.eqb_spec x 47) as [->|Hx].
  - now destruct (H slash (or_introl eq_refl)).
  - destruct x as [|p]; [reflexivity|].
    do 6 (destruct p as [p|p|]; try reflexivity).
    now destruct Hx.
Qed.

Lemma advanced_attempt_untyped {rt : Runtime} command w n :
  as_args command = None ->
  AdvancedCardoneExtractor.attempt command w n = (Ret tt, [], n).
Proof.
  intros Ha.
  unfold AdvancedCardoneExtractor.attempt, try_except, bind, subprocess_run.
  now rewrite Ha.
Qed.

Lemma advanced_command_output {rt : Runtime} authorization out u description :
  exists args,
    as_args (AdvancedCardoneExtractor.cmd authorization out (PStr u)
             ++ (if truthy description
                 then AdvancedCardoneExtractor.description_args description
                 else []))
    = Some args
    /\ output_of args = out.
Proof.
  destruct (truthy description); eexists; split; reflexivity.
Qed.

Lemma advanced_command_untyped {rt : Runtime} authorization out u description :
  (forall s, u <> PStr s) ->
  as_args (AdvancedCardoneExtractor.cmd authorization out u
           ++ (if truthy description
               then AdvancedCardoneExtractor.description_args description
               else []))
  = None.
Proof.
  intros Hu. destruct u; try reflexivity. now destruct (Hu s).
Qed.

Lemma advanced_loop_built {rt : Runtime} authorization videos :
  Forall (fun r => exists position, built_at position r) videos ->
  forall w n,
  exists t,
    AdvancedCardoneExtractor.loop authorization videos w n
    = (Ret tt, t, n + List.length (filter has_text_url videos))
    /\ map (fun inv => output_of (fst inv)) (invocations t)
       = map (fun r => lit "./grant-cardone-downloads/"
                       ++ file_name_of r ++ lit ".%(ext)s")
           (filter has_text_url videos)
    /\ Forall (fun inv => snd inv = Some 300%N) (invocations t)
    /\ written t = [].
Proof.
  induction 1 as [|r rest Hr _ IH]; intros w n.
  - exists []. cbn. rewrite Nat.add_0_r. repeat split; constructor.
  - destruct Hr as (position & title & u & duration & description & -> & Hu).
    set (name := numbered position (safe_title title)).
    set (d := [(lit "title", PStr title); (lit "url", u);
               (lit "filename", PStr name); (lit "program", PStr []);
               (lit "duration", duration);
               (lit "description", description)]).
    assert (Htitle : dict_lookup d (lit "title") = Some (PStr title))
      by reflexivity.
    assert (Hurl : dict_lookup d (lit "url") = Some u) by reflexivity.
    assert (Hname : dict_lookup d (lit "filename") = Some (PStr name))
      by reflexivity.
    assert (Hprogram : dict_lookup d (lit "program") = Some (PStr []))
      by reflexivity.
    assert (Hdescription : dict_lookup d (lit "description")
                           = Some description) by reflexivity.
    cbn [AdvancedCardoneExtractor.loop].
    rewrite (py_item_some _ _ Htitle), bind_lift_ret.
    rewrite py_get_dict, bind_lift_ret, Hprogram.
    cbn [value_or truthy negb].
    rewrite (py_item_some _ _ Hname). cbn [obind py_str].
    rewrite bind_lift_ret.
    rewrite (py_item_some _ _ Hurl), bind_lift_ret.
    rewrite py_get_dict, bind_lift_ret, Hdescription. cbn [value_or].
    rewrite (@join_in_download_dir (name ++ lit ".%(ext)s")
               (@out_name_no_slash rt position title)).
    assert (Hkind : (exists s, u = PStr s) \/ (forall s, u <> PStr s)).
    { destruct u; try (right; intros s' Hs; discriminate Hs). left. eauto. }
    destruct Hkind as [(s & ->)|Hother].
    + destruct (advanced_command_output authorization
                  (lit "./grant-cardone-downloads/" ++ name ++ lit ".%(ext)s")
                  s description) as (args & Ha & Hout).
      rewrite (@bind_ret_eq _ _ _ _ w n _ _ _
                 (advanced_attempt_spec _ w n Ha)), bind_emit.
      destruct (IH w (S n)) as (t & -> & H1 & H2 & H3).
      exists (Run args (Some 300%N) :: SleepUniform 2 5 :: t).
      change (filter has_text_url (PDict d :: rest))
        with (PDict d :: filter has_text_url rest).
      split; [|split; [|split]].
      * unfold prepend, outcome_of, trace_of. cbn [fst snd app List.length].
        f_equal. lia.
      * cbn [invocations map fst]. rewrite Hout, H1. reflexivity.
      * cbn [invocations]. constructor; [reflexivity|exact H2].
      * exact H3.
    + rewrite (@bind_ret_eq _ _ _ _ w n _ _ _
                 (advanced_attempt_untyped _ w n
                    (advanced_command_untyped authorization _ description
                       Hother))), bind_emit.
      destruct (IH w n) as (t & -> & H1 & H2 & H3).
      exists (SleepUniform 2 5 :: t).
      assert (Hskip : filter has_text_url (PDict d :: rest)
                      = filter has_text_url rest).
      { cbn [filter]. unfold has_text_url at 1. cbn [url_value].
        rewrite Hurl. destruct u; try reflexivity. now destruct (Hother s). }
      rewrite Hskip.
      split; [|split; [|split]]; try assumption.
      unfold prepend, outcome_of, trace_of. reflexivity.
Qed.

(** X21: [download_videos] of [advanced_extractor.py] never raises on the
    records [extract_videos_from_response] returned.  A record whose URL
    is a string gets one [yt-dlp] command with a timeout of 300 seconds
    whose output template is the download directory, a slash, the file
    name of the record and [.%(ext)s]: as the program is always empty, no
    program directory is used.  A record whose URL is no string is passed
    over (the [TypeError] of [subprocess.run] is caught).  Nothing is
    written. *)
Theorem response_download {rt : Runtime} (authorization : pystr)
    (data : pyval) (videos : list pyval) (w : world) (n : nat) :
  AdvancedCardoneExtractor.extract_videos_from_response data = Ret videos ->
  exists t,
    AdvancedCardoneExtractor.download_videos authorization videos w n
    = (Ret tt, t, n + List.length (filter has_text_url videos))
    /\ map (fun inv => output_of (fst inv)) (invocations t)
       = map (fun r => lit "./grant-cardone-downloads/"
                       ++ file_name_of r ++ lit ".%(ext)s")
           (filter has_text_url videos)
    /\ Forall (fun inv => snd inv = Some 300%N) (invocations t)
    /\ written t = [].
Proof.
  intros Hdata.
  pose proof (extract_numbered data) as Hbuilt.
  rewrite Hdata in Hbuilt. apply numbered_from_all in Hbuilt.
  destruct videos as [|v rest].
  - cbn [filter List.length]. rewrite Nat.add_0_r.
    eexists. split; [reflexivity|]. repeat split; constructor.
  - apply advanced_loop_built. exact Hbuilt.
Qed.

(** X21 on sample inputs. *)
Lemma response_download_witness :
  exists t,
    @AdvancedCardoneExtractor.download_videos latin1_runtime []
      [extracted_a]
      (sample_world GrantCardoneMaster.videos_file Absent first_fails) 0
    = (Ret tt, t, 0 + List.length (filter has_text_url [extracted_a]))
    /\ map (fun inv => output_of (fst inv)) (invocations t)
       = map (fun r => lit "./grant-cardone-downloads/"
                       ++ file_name_of r ++ lit ".%(ext)s")
           (filter has_text_url [extracted_a])
    /\ Forall (fun inv => snd inv = Some 300%N) (invocations t)
    /\ written t = [].
Proof.
  exact (@response_download latin1_runtime [] (PList [video_a])
           [extracted_a]
           (sample_world GrantCardoneMaster.videos_file Absent first_fails) 0
           eq_refl).
Defined.

(** X22: every response is numbered on its own.  What one turn of
    [get_video_library_data] adds to [video_data] is numbered from 001
    whatever [video_data] holds already, so the records of two endpoints
    share their numbers; a response that [contains_video_data] rejects
    adds nothing. *)
Theorem numbering_restarts {rt : Runtime}
    (video_data : list pyval) (data : pyval) (videos : list pyval) :
  AdvancedCardoneExtractor.extend_video_data video_data data = Ret videos ->
  exists added,
    videos = video_data ++ added
    /\ (forall i r,
          nth_error added i = Some r -> built_at (N.of_nat (S i)) r)
    /\ (AdvancedCardoneExtractor.contains_video_data data = false ->
        added = []).
Proof.
  unfold AdvancedCardoneExtractor.extend_video_data.
  pose proof (extract_numbered data) as H.
  destruct (AdvancedCardoneExtractor.contains_video_data data).
  - destruct (AdvancedCardoneExtractor.extract_videos_from_response data)
      as [added|e]; cbn [obind]; [|discriminate].
    intros [= <-]. exists added. split; [reflexivity|]. split.
    + intros i r Hnth.
      replace (N.of_nat (S i)) with (1 + N.of_nat i)%N by lia.
      exact (@numbered_from_nth rt added 1%N i r H Hnth).
    + discriminate.
  - intros [= <-]. exists []. split; [now rewrite app_nil_r|].
    split; [|reflexivity]. intros [|i] r Hnth; discriminate Hnth.
Qed.

(** X22 on sample inputs: the same response twice gives the file name
    [001-Hello-World] twice. *)
Lemma numbering_restarts_witness :
  @AdvancedCardoneExtractor.extend_video_data latin1_runtime [extracted_a]
    (PList [video_a])
  = Ret [extracted_a; extracted_a]
  /\ exists added,
       [extracted_a; extracted_a] = [extracted_a] ++ added
       /\ (forall i r,
             nth_error added i = Some r
             -> @built_at latin1_runtime (N.of_nat (S i)) r)
       /\ (@AdvancedCardoneExtractor.contains_video_data (PList [video_a])
           = false -> added = []).
Proof.
  split; [reflexivity|].
  exact (@numbering_restarts latin1_runtime [extracted_a] (PList [video_a])
           [extracted_a; extracted_a] eq_refl).
Defined.
